(** * The scene-timeline compositor

    A shallow embedding of [core/video_generator.py] (class
    [VideoGenerator]) and [core/avatar_video_generator.py] (class
    [AvatarVideoGenerator]): duration resolution, the per-scene clip
    builders with their visual fallback chain, the split-screen layout, the
    transition stitcher, the caption overlay engine and the top-level
    [generate] / [create_avatar_video] drivers.

    Conventions of the embedding.
    - Python numbers that measure time are exact rationals ([Q]); pixel
      quantities are integers ([Z]).  Python's [//] on integers is [Z.div]
      (both round towards minus infinity for a positive divisor).
    - A scene is the dict the script carries; every key the compositor (or
      the rest of the repository) reads is a field, [None] when the key is
      absent.
    - Everything outside the two classes (file system, audio probing, image
      synthesis, the language model, text-to-speech, font metrics, the
      encoder) is a field of the record [World].  A Python call that can
      raise returns [option] (or [bool]) there, [None] (or [false]) standing
      for the exception.
    - A Python function that can itself raise returns [exc].
    - The methods of the two classes read the file system a [World]
      describes; module [Run] threads through [generate] the files a run
      writes (speech, kept images, the video), for what is said about one
      run after another. *)

From Stdlib Require Import ZArith QArith Qround Qminmax.
From Stdlib Require Import String Ascii List Bool Lia Lqa.
From Stdlib Require Import Numbers.DecimalString.
Import ListNotations.

Open Scope Q_scope.
Open Scope string_scope.
Open Scope list_scope.

(** ** Python values and built-ins used by the compositor *)

Module Py.

(** [bool(s)] for a string. *)
Definition truthy (s : string) : bool := negb (String.eqb s "").

(** [bool(d.get(k))] for an optional string entry. *)
Definition truthy_opt (o : option string) : bool :=
  match o with
  | Some s => truthy s
  | None => false
  end.

(** [o or dflt] for an optional string. *)
Definition or_else (o : option string) (dflt : string) : string :=
  match o with
  | Some s => if truthy s then s else dflt
  | None => dflt
  end.

(** [c.isspace()] on the ASCII range: TAB, LF, VT, FF, CR, the four
    separators 0x1c-0x1f and the space. *)
Definition isspace (c : ascii) : bool :=
  let n := nat_of_ascii c in
  ((9 <=? n)%nat && (n <=? 13)%nat) || ((28 <=? n)%nat && (n <=? 32)%nat).

Fixpoint lstrip (s : string) : string :=
  match s with
  | EmptyString => EmptyString
  | String c s' => if isspace c then lstrip s' else s
  end.

Fixpoint rstrip (s : string) : string :=
  match s with
  | EmptyString => EmptyString
  | String c s' =>
      match rstrip s' with
      | EmptyString => if isspace c then EmptyString else String c EmptyString
      | r => String c r
      end
  end.

(** [s.strip()]. *)
Definition strip (s : string) : string := rstrip (lstrip s).

(** [s.split()]: maximal runs of non-whitespace characters; [word] is the
    run being read. *)
Fixpoint split_from (word : string) (s : string) : list string :=
  match s with
  | EmptyString => if truthy word then [word] else []
  | String c s' =>
      if isspace c
      then (if truthy word then word :: split_from "" s' else split_from "" s')
      else split_from (word ++ String c "") s'
  end.

Definition split (s : string) : list string := split_from "" s.

(** [str(n)] for a non-negative integer. *)
Definition str_of_nat (n : nat) : string :=
  NilEmpty.string_of_uint (Nat.to_uint n).

(** [enumerate(l)]. *)
Definition enumerate {A : Type} (l : list A) : list (nat * A) :=
  combine (seq 0 (List.length l)) l.

(** [l[i] if i < len(l) else None] for a list of optional entries. *)
Definition get_or_none {A : Type} (l : list (option A)) (i : nat) : option A :=
  match nth_error l i with
  | Some o => o
  | None => None
  end.

(** [d.get(k, dflt)] for an optional string entry. *)
Definition get (o : option string) (dflt : string) : string :=
  match o with
  | Some s => s
  | None => dflt
  end.

(** [x > y] on numbers. *)
Definition gt (x y : Q) : bool := negb (Qle_bool x y).

(** [sum(l)], accumulated from the left as a Python loop does. *)
Definition sum (l : list Q) : Q := fold_left Qplus l 0.

End Py.

(** Outcome of a Python call that may raise. *)
Inductive exc (A : Type) : Type :=
| Ret (a : A)
| Raise.
Arguments Ret {A} a.
Arguments Raise {A}.

Definition bind {A B : Type} (m : exc A) (k : A -> exc B) : exc B :=
  match m with
  | Ret a => k a
  | Raise => Raise
  end.

(** [try: m except Exception: h]. *)
Definition try_except {A : Type} (m : exc A) (h : exc A) : exc A :=
  match m with
  | Ret a => Ret a
  | Raise => h
  end.

Notation "x <- m ;; k" := (bind m (fun x => k))
  (at level 61, m at next level, right associativity).

(** ** config.py *)

Module Config.
Definition VIDEO_RESOLUTION : Z * Z := (1920, 1080)%Z.
Definition VIDEO_FPS : Z := 30%Z.
Definition DEFAULT_SCENE_DURATION : Q := 5.
Definition OUTPUT_DIR : string := "generated_videos".
Definition DUMMY_IMAGE_DIR : string := "dummy_assets/images".
Definition DUMMY_SPEECH_DIR : string := "dummy_assets/speeches".
End Config.

(** ** Scenes *)

Module Scene.
(** One entry of [script['scenes']].  [captions] is the caption text
    override that the script format carries ("Text overlay if any"). *)
Record t : Type := mk {
  duration : option Q;
  dialogue : option string;
  visual : option string;
  character : option string;
  image_path : option string;
  audio_path : option string;
  captions : option string;
  character_gender : option string;
  voice_style : option string
}.

(** [scene.get('duration', dflt)]. *)
Definition get_duration (s : t) (dflt : Q) : Q :=
  match duration s with
  | Some d => d
  | None => dflt
  end.

(** The scene with its caption override replaced. *)
Definition with_captions (c : option string) (s : t) : t :=
  mk (duration s) (dialogue s) (visual s) (character s) (image_path s)
     (audio_path s) c (character_gender s) (voice_style s).
End Scene.

(** ** External collaborators *)

(** A PIL bounding box [(left, top, right, bottom)]. *)
Definition BBox : Type := (Z * Z * Z * Z)%type.
Definition bbox0 (b : BBox) : Z := let '(l, _, _, _) := b in l.
Definition bbox1 (b : BBox) : Z := let '(_, t, _, _) := b in t.
Definition bbox2 (b : BBox) : Z := let '(_, _, r, _) := b in r.
Definition bbox3 (b : BBox) : Z := let '(_, _, _, m) := b in m.

Inductive ConcatMethod : Type := Compose | Chain.

(** A row of the character store, as the dict [get_character] returns. *)
Record Character : Type := {
  char_name : option string;
  char_voice_style : option string;
  char_gender : option string;
  char_avatar_path : option string
}.

Record World : Type := {
  (** [os.path.exists(p)] *)
  path_exists : string -> bool;
  (** [AudioFileClip(p).duration]; [None] when the file cannot be decoded *)
  audio_duration : string -> option Q;
  (** [Image.open(p)] succeeds *)
  image_open : string -> bool;
  (** [client.images.generate(prompt)] followed by the download of the
      result: the image data, [None] when any step raises *)
  images_generate : string -> option string;
  (** [client.chat.completions.create(messages=...)], each message a role
      and a content: the content of the first choice, [None] when the call
      (or the use of its result) raises *)
  chat_completion : list (string * string) -> option string;
  (** [tts_manager.generate_voiceover(text, {'gender': g, 'voice_style': v},
      path)] returns *)
  generate_voiceover : string -> option string -> option string -> string -> bool;
  (** [draw.textbbox((0, 0), text, font=font, stroke_width=2)] with the
      caption font *)
  textbbox : string -> BBox;
  (** the clip class has [with_crossfadein] *)
  has_with_crossfadein : bool;
  (** [from moviepy.video.fx import crossfadein] succeeds *)
  has_fx_crossfadein : bool;
  (** [concatenate_videoclips] with the given method, on clips of the given
      durations, returns *)
  concatenate_ok : ConcatMethod -> list Q -> bool;
  (** [write_videofile] of a video of the given duration returns *)
  write_ok : Q -> bool;
  (** [VideoFileClip(p).duration]; [None] when the file cannot be read *)
  video_file_duration : string -> option Q;
  (** the static avatar video ffmpeg writes from an image and an audio
      file: [true] when the subprocess succeeds *)
  ffmpeg_ok : string -> string -> bool;
  (** [sadtalker_manager.generate_lip_sync_video(avatar, audio)]: the path
      it returns ([Some None] for [None]), [None] when it raises *)
  lip_sync : string -> string -> option (option string);
  (** [character_manager.get_character(name)] *)
  get_character : string -> option Character;
  (** [character_manager.get_all_characters()] *)
  get_all_characters : list Character;
  (** [AvatarManager(test_mode=True).create_placeholder_avatar(name)] *)
  create_placeholder_avatar : string -> string
}.

(** [path and os.path.exists(path)] for an optional path. *)
Definition present (W : World) (path : option string) : bool :=
  match path with
  | Some p => Py.truthy p && path_exists W p
  | None => false
  end.

(** [AudioFileClip(audio_path)] for an optional path; the constructor
    raises on [None] as on an undecodable file. *)
Definition AudioFileClip (W : World) (audio_path : option string) : option Q :=
  match audio_path with
  | Some p => audio_duration W p
  | None => None
  end.

(** ** Images and clips (PIL and MoviePy objects) *)

Inductive Image : Type :=
| ImgFile (path : string)              (* Image.open(path).convert('RGB') *)
| ImgGenerated (data : string)         (* synthesized and downloaded *)
| ImgFallback (description : string).  (* _create_fallback_image(description) *)

(** [ImageClip(np.array(img)).with_duration(d)]. *)
Record ImageClip : Type := {
  ic_image : Image;
  ic_duration : Q
}.

(** What a scene shows: one held image, or image clips played back to
    back ([concatenate_videoclips] of the variants). *)
Inductive Visual : Type :=
| Still (c : ImageClip)
| Sequence (parts : list ImageClip).

(** A caption overlay: the lines drawn on the transparent band with their
    pixel positions, and the clip's placement in time and on the canvas. *)
Record CaptionClip : Type := {
  cap_lines : list (Z * Z * string);
  cap_start : Q;
  cap_duration : Q;
  cap_position : Z
}.

Definition cap_end (c : CaptionClip) : Q := cap_start c + cap_duration c.

(** [np.cumsum(l)]. *)
Fixpoint cumsum_from (acc : Q) (l : list Q) : list Q :=
  match l with
  | [] => []
  | x :: r => (acc + x) :: cumsum_from (acc + x) r
  end.

Definition cumsum (l : list Q) : list Q :=
  match l with
  | [] => []
  | x :: r => x :: cumsum_from x r
  end.

(** [np.maximum(0, l)]. *)
Definition maximum0 (l : list Q) : list Q := map (Qmax 0) l.

(** The timings [concatenate_videoclips] computes from the durations of
    the clips it is given, called without padding:
    [np.maximum(0, np.cumsum([0] + durations))].  The clips start at all
    but the last of them, and the last is the duration of the result. *)
Definition concatenation_timings (durations : list Q) : list Q :=
  maximum0 (cumsum (0 :: durations)).

(** [max(l)] of a non-empty list given as head and tail. *)
Definition py_max (x : Q) (l : list Q) : Q := fold_left Qmax l x.

Definition nl : string := String (ascii_of_nat 10) EmptyString.

(** [os.path.join(a, b)] for a relative [b]. *)
Definition path_join (a b : string) : string := a ++ "/" ++ b.

(** The caption layout of [_add_captions_timed], which the two classes
    share word for word: lines 381-395 of video_generator.py and 651-665 of
    avatar_video_generator.py. *)
Section CaptionLayout.
Variable W : World.

(** One iteration of [for w in words], on the state [(lines, current)]. *)
Definition wrap_word (max_width : Z) (st : list string * string) (w : string)
  : list string * string :=
  let '(lines, current) := st in
  let candidate := Py.strip (current ++ " " ++ w) in
  let bbox := textbbox W candidate in
  if (bbox2 bbox <=? max_width)%Z
  then (lines, candidate)
  else ((if Py.truthy current then lines ++ [current] else lines), w).

(** The loop over the words and the flush of the last line. *)
Definition wrap_words (max_width : Z) (words : list string) : list string :=
  let '(lines, current) := fold_left (wrap_word max_width) words ([], "") in
  if Py.truthy current then lines ++ [current] else lines.

(** The lines of a caption on a canvas [width] pixels wide. *)
Definition wrap_caption (width : Z) (text : string) : list string :=
  let max_width := (width - 80)%Z in
  let words := Py.split text in
  wrap_words max_width words.

(** One iteration of [for line in lines], on the state [(drawn, y)]. *)
Definition draw_line (width : Z) (st : list (Z * Z * string) * Z) (line : string)
  : list (Z * Z * string) * Z :=
  let '(drawn, y) := st in
  let bbox := textbbox W line in
  let tw := (bbox2 bbox - bbox0 bbox)%Z in
  let x := ((width - tw) / 2)%Z in
  (drawn ++ [(x, y, line)], (y + ((bbox3 bbox - bbox1 bbox) + 6))%Z).

Definition draw_caption (width : Z) (lines : list string) : list (Z * Z * string) :=
  fst (fold_left (draw_line width) lines ([], 10%Z)).

(** The caption clip of a text shown from [current_time] for [duration]. *)
Definition caption_clip (resolution : Z * Z) (text : string)
           (current_time duration : Q) : CaptionClip :=
  let '(width, height) := resolution in
  {| cap_lines := draw_caption width (wrap_caption width text);
     cap_start := current_time;
     cap_duration := duration;
     cap_position := (height - 160)%Z |}.
End CaptionLayout.

(** ** core/video_generator.py *)

Module VideoGenerator.

(** A scene clip: the visual forced to [clip_duration], the audio file
    attached to it, where the stitcher placed it and the crossfade-in it
    was given. *)
Record Clip : Type := {
  clip_visual : Visual;
  clip_start : Q;
  clip_duration : Q;
  clip_audio : option string;
  clip_crossfadein : option Q
}.

Definition with_duration (c : Clip) (d : Q) : Clip :=
  {| clip_visual := clip_visual c; clip_start := clip_start c;
     clip_duration := d; clip_audio := clip_audio c;
     clip_crossfadein := clip_crossfadein c |}.

Definition with_audio (c : Clip) (a : option string) : Clip :=
  {| clip_visual := clip_visual c; clip_start := clip_start c;
     clip_duration := clip_duration c; clip_audio := a;
     clip_crossfadein := clip_crossfadein c |}.

Definition with_start (c : Clip) (t : Q) : Clip :=
  {| clip_visual := clip_visual c; clip_start := t;
     clip_duration := clip_duration c; clip_audio := clip_audio c;
     clip_crossfadein := clip_crossfadein c |}.

(** The crossfade-in effect: a fading mask over the first [d] time units;
    start and duration are left as they are. *)
Definition with_crossfadein (c : Clip) (d : Q) : Clip :=
  {| clip_visual := clip_visual c; clip_start := clip_start c;
     clip_duration := clip_duration c; clip_audio := clip_audio c;
     clip_crossfadein := Some d |}.

(** The duration a visual has before [with_duration] is applied: for a
    sequence, the total [concatenate_videoclips] declares.  In the source
    that total is a sum of floats, which need not be the duration the
    shares were cut from; [_create_scene_clip] overrides it with the
    resolved duration, and nothing below relies on it. *)
Definition visual_duration (v : Visual) : Q :=
  match v with
  | Still c => ic_duration c
  | Sequence parts => last (concatenation_timings (map ic_duration parts)) 0
  end.

Definition clip_of_visual (v : Visual) : Clip :=
  {| clip_visual := v; clip_start := 0; clip_duration := visual_duration v;
     clip_audio := None; clip_crossfadein := None |}.

(** The primary track: a single scene clip used as it is, or the clips
    [concatenate_videoclips] placed one after the other with the total it
    declared. *)
Inductive Primary : Type :=
| PClip (c : Clip)
| PConcat (parts : list Clip) (total : Q).

Definition primary_duration (p : Primary) : Q :=
  match p with
  | PClip c => clip_duration c
  | PConcat _ total => total
  end.

Definition primary_end (p : Primary) : Q :=
  match p with
  | PClip c => clip_start c + clip_duration c
  | PConcat _ total => total
  end.

(** The final video: the primary track, and the caption clips composited
    over it ([CompositeVideoClip([video] + overlays)]); with no overlay it
    is the primary track itself. *)
Record Video : Type := {
  v_primary : Primary;
  v_overlays : list CaptionClip
}.

Definition video_duration (v : Video) : Q :=
  match v_overlays v with
  | [] => primary_duration (v_primary v)
  | _ => py_max (primary_end (v_primary v)) (map cap_end (v_overlays v))
  end.

(** What [generate] leaves behind when it returns a path. *)
Record Rendered : Type := {
  output_path : string;
  written : Video
}.

(** The script dict: [script_scenes] is its ['scenes'] entry. *)
Record Script : Type := {
  script_scenes : option (list Scene.t)
}.

Record t : Type := {
  resolution : Z * Z;
  fps : Z
}.

Definition init : t := {| resolution := (1920, 1080)%Z; fps := 30%Z |}.

Section Methods.
Variable W : World.
Variable self : t.

(** Lines 114-126 of [_create_scene_clip]: the duration the scene is
    given. *)
Definition resolve_duration (scene : Scene.t) (audio_path : option string) : Q :=
  let duration := Scene.get_duration scene 5 in
  if present W audio_path then
    match AudioFileClip W audio_path with
    | Some actual_audio_duration => actual_audio_duration
    | None => duration
    end
  else duration.

Definition _derive_visual_from_dialogue
           (dialogue : string) (character_name : option string) : exc string :=
  let dialogue := Py.strip dialogue in
  if negb (Py.truthy dialogue)
  then Ret "Educational, professional illustration of the lesson topic"
  else
    let sys : string :=
      ("You are a visual prompt engineer. Convert the spoken dialogue into a highly specific, photorealistic image prompt. "
       ++ "Include setting, subject, key objects, composition, lens and depth of field, lighting (cinematic/soft/natural), mood, color palette, and style. "
       ++ "The image must directly reflect the semantics of the dialogue. Avoid any on-image text or watermarks. One vivid sentence only.")%string in
    let speaker : string :=
      match character_name with
      | Some n => if Py.truthy n then (" by " ++ n)%string else ""
      | None => ""
      end in
    let user : string :=
      ("Dialogue" ++ speaker ++ ":" ++ nl ++ nl ++ dialogue ++ nl ++ nl
       ++ "Write ONE ultra-photorealistic prompt sentence that best depicts this dialogue.")%string in
    match chat_completion W [("system", sys); ("user", user)] with
    | Some content => Ret (Py.strip content)
    | None => Raise
    end.

Definition _create_fallback_image (description : string) : Image :=
  ImgFallback description.

Definition _generate_visual (description : string) (duration : Q) : ImageClip :=
  let img :=
    match images_generate W
            ("Ultra-photorealistic photograph. " ++ description
             ++ ". Cinematic lighting, shallow depth of field, realistic textures, high detail skin, no text, no watermark.")
    with
    | Some data => ImgGenerated data
    | None => _create_fallback_image description
    end in
  {| ic_image := img; ic_duration := duration |}.

(** [max(2, min(4, int(total_duration // 2) or 2))]. *)
Definition num_images (total_duration : Q) : Z :=
  let n := Qfloor (total_duration / 2) in
  Z.max 2 (Z.min 4 (if (n =? 0)%Z then 2 else n)).

(** [concatenate_videoclips(subclips, method=...)] inside
    [_generate_visual_sequence]. *)
Definition concatenate_subclips (method : ConcatMethod) (subclips : list ImageClip)
  : exc Visual :=
  if concatenate_ok W method (map ic_duration subclips)
  then Ret (Sequence subclips)
  else Raise.

Definition _generate_visual_sequence (description : string) (total_duration : Q)
  : exc Visual :=
  let num_images := num_images total_duration in
  let sub_duration := total_duration / inject_Z num_images in
  let subclips :=
    map (fun k : nat =>
           let variant_desc : string :=
             (description ++ ". Variation " ++ Py.str_of_nat (k + 1)
              ++ ", alternate angle or moment")%string in
           let img :=
             match images_generate W
                     ("Ultra-photorealistic photograph. " ++ variant_desc
                      ++ ". Cinematic lighting, shallow depth of field, realistic textures, no text, no watermark.")
             with
             | Some data => ImgGenerated data
             | None => _create_fallback_image description
             end in
           {| ic_image := img; ic_duration := sub_duration |})
        (seq 0 (Z.to_nat num_images)) in
  try_except (concatenate_subclips Compose subclips)
             (concatenate_subclips Chain subclips).

(** Lines 128-134: the description the visual is synthesized from. *)
Definition visual_description (scene : Scene.t) : string :=
  if Py.truthy_opt (Scene.visual scene)
  then Py.or_else (Scene.visual scene) ""
  else
    match _derive_visual_from_dialogue
            (Py.or_else (Scene.dialogue scene) "") (Scene.character scene)
    with
    | Ret d => d
    | Raise =>
        Py.or_else (Scene.visual scene)
          (Py.or_else (Scene.dialogue scene) "Educational illustration")
    end.

(** Lines 136-167: the visual source chosen for the scene. *)
Definition base_clip (scene : Scene.t) (duration : Q) : exc Visual :=
  let visual_description := visual_description scene in
  let pre_image_path := Scene.image_path scene in
  if present W pre_image_path
  then
    if image_open W (Py.or_else pre_image_path "")
    then Ret (Still {| ic_image := ImgFile (Py.or_else pre_image_path "");
                       ic_duration := duration |})
    else Raise
  else
    try_except
      (if Qle_bool 4 duration
       then _generate_visual_sequence visual_description duration
       else Ret (Still (_generate_visual visual_description duration)))
      (Ret (Still (_generate_visual visual_description duration))).

(** The scene index and the save paths only name the files in which the
    synthesized images are kept; they are left out. *)
Definition _create_scene_clip (scene : Scene.t) (audio_path : option string)
  : exc Clip :=
  let duration := resolve_duration scene audio_path in
  v <- base_clip scene duration ;;
  let base_clip := with_duration (clip_of_visual v) duration in
  if present W audio_path then
    match AudioFileClip W audio_path with
    | Some _ => Ret (with_audio base_clip audio_path)
    | None => Raise
    end
  else Ret base_clip.

(** Lines 350-368 of [_add_captions_timed]: the duration the caption
    engine gives scene [idx]. *)
Definition caption_duration (voiceover_paths : list (option string))
           (idx : nat) (scene : Scene.t) : Q :=
  let duration := Scene.get_duration scene Config.DEFAULT_SCENE_DURATION in
  let audio_path := Py.get_or_none voiceover_paths idx in
  if present W audio_path then
    match AudioFileClip W audio_path with
    | Some d => d
    | None => duration
    end
  else duration.

(** One iteration of [for idx, scene in enumerate(scenes)], on the state
    [(caption_overlays, current_time)]. *)
Definition caption_scene (voiceover_paths : list (option string))
           (st : list CaptionClip * Q) (entry : nat * Scene.t)
  : list CaptionClip * Q :=
  let '(caption_overlays, current_time) := st in
  let '(idx, scene) := entry in
  let text := Py.or_else (Scene.dialogue scene) "" in
  let duration := caption_duration voiceover_paths idx scene in
  let caption_overlays :=
    if Py.truthy text
    then caption_overlays
         ++ [caption_clip W (resolution self) text current_time duration]
    else caption_overlays in
  (caption_overlays, current_time + duration).

(** The loop of [_add_captions_timed]: the overlays and the cursor it
    ends with. *)
Definition caption_loop (scenes : list Scene.t)
           (voiceover_paths : list (option string)) : list CaptionClip * Q :=
  fold_left (caption_scene voiceover_paths) (Py.enumerate scenes) ([], 0).

Definition _add_captions_timed (video : Primary) (scenes : list Scene.t)
           (voiceover_paths : list (option string)) : Video :=
  let caption_overlays := fst (caption_loop scenes voiceover_paths) in
  {| v_primary := video; v_overlays := caption_overlays |}.

(** Lines 32-51 of [generate]: the audio file of scene [i]. *)
Definition voiceover_path (i : nat) (scene : Scene.t) : option string :=
  if present W (Scene.audio_path scene)
  then Scene.audio_path scene
  else if Py.truthy_opt (Scene.dialogue scene)
  then
    let target_audio_path :=
      path_join Config.DUMMY_SPEECH_DIR
                ("scene_" ++ Py.str_of_nat (i + 1) ++ ".mp3") in
    if generate_voiceover W
         (Py.or_else (Scene.dialogue scene) "")
         (Some (Py.get (Scene.character_gender scene) "Female"))
         (Some (Py.get (Scene.voice_style scene) "Professional"))
         target_audio_path
    then Some target_audio_path
    else None
  else None.

Definition voiceover_paths (scenes : list Scene.t) : list (option string) :=
  map (fun entry : nat * Scene.t => voiceover_path (fst entry) (snd entry))
      (Py.enumerate scenes).

(** Lines 55-61: one iteration of the clip loop.  A clip that cannot be
    built is reported and left out. *)
Definition build_clip (voiceover_paths : list (option string))
           (clips : list Clip) (entry : nat * Scene.t) : list Clip :=
  let '(i, scene) := entry in
  match nth_error voiceover_paths i with
  | Some audio_path =>
      match _create_scene_clip scene audio_path with
      | Ret clip => clips ++ [clip]
      | Raise => clips
      end
  | None => clips
  end.

Definition build_clips (scenes : list Scene.t)
           (voiceover_paths : list (option string)) : list Clip :=
  fold_left (build_clip voiceover_paths) (Py.enumerate scenes) [].

Definition transition_duration : Q := 1 # 2.

(** Lines 82-88: the crossfade through the newer method, else through
    the older function. *)
Definition crossfade (curr_clip : Clip) : exc Clip :=
  if has_with_crossfadein W
  then Ret (with_crossfadein curr_clip transition_duration)
  else if has_fx_crossfadein W
  then Ret (with_crossfadein curr_clip transition_duration)
  else Raise.

(** Lines 73-93: one iteration of the transition loop. *)
Definition stitch_clip (final_clips : list Clip) (curr_clip : Clip) : list Clip :=
  let prev_clip := last final_clips curr_clip in
  let curr_clip :=
    match
      (if Py.gt (clip_duration prev_clip) transition_duration
          && Py.gt (clip_duration curr_clip) transition_duration
       then crossfade curr_clip
       else Ret curr_clip)
    with
    | Ret c => c
    | Raise => curr_clip
    end in
  final_clips ++ [curr_clip].

Definition stitch (clips : list Clip) : list Clip :=
  match clips with
  | [] => []
  | clip0 :: rest => fold_left stitch_clip rest [clip0]
  end.

(** [concatenate_videoclips(final_clips, method=...)]: each clip starts
    at the running sum of the durations before it, and the result lasts
    the last running sum, the running sums being clamped at 0. *)
Definition concatenate_videoclips (method : ConcatMethod) (clips : list Clip)
  : exc Primary :=
  if concatenate_ok W method (map clip_duration clips)
  then
    let timings := concatenation_timings (map clip_duration clips) in
    Ret (PConcat (map (fun ct : Clip * Q => with_start (fst ct) (snd ct))
                      (combine clips timings))
                 (last timings 0))
  else Raise.

(** Lines 67-97: the primary track of the clips that were built. *)
Definition primary_track (clips : list Clip) : exc (option Primary) :=
  match clips with
  | [] => Ret None
  | clip0 :: _ =>
      if (1 <? List.length clips)%nat
      then p <- concatenate_videoclips Compose (stitch clips) ;; Ret (Some p)
      else Ret (Some (PClip clip0))
  end.

(** [generate(script, target_duration)]; [urandom] is
    [os.urandom(4).hex()]. *)
Definition generate (script : Script) (target_duration : Z) (urandom : string)
  : exc (option Rendered) :=
  let scenes := match script_scenes script with Some l => l | None => [] end in
  match scenes with
  | [] => Ret None
  | _ =>
      let output_path : string := ("output_video_" ++ urandom ++ ".mp4")%string in
      let voiceover_paths := voiceover_paths scenes in
      let clips := build_clips scenes voiceover_paths in
      match clips with
      | [] => Ret None
      | _ =>
          final_video <- primary_track clips ;;
          match final_video with
          | None => Raise
          | Some final_video =>
              let final_video :=
                _add_captions_timed final_video scenes voiceover_paths in
              if write_ok W (video_duration final_video)
              then Ret (Some {| output_path := output_path;
                                written := final_video |})
              else Raise
          end
      end
  end.

End Methods.
End VideoGenerator.

(** ** core/avatar_video_generator.py *)

Module AvatarVideoGenerator.

(** One pane of the split screen: what it shows, the width it was resized
    to, its left edge on the canvas and how long it lasts. *)
Inductive PaneSource : Type :=
| AvatarVideo (path : string)     (* VideoFileClip(avatar_video_path) *)
| AvatarPlaceholder               (* _create_placeholder_avatar_clip *)
| Content (img : Image).          (* _generate_content_visual *)

Record Pane : Type := {
  pane_source : PaneSource;
  pane_width : Z;
  pane_x : Z;
  pane_duration : Q
}.

Inductive Layout : Type :=
| FullFrame (c : ImageClip)
| SplitScreen (avatar content : Pane) (size : Z * Z).

Record Clip : Type := {
  clip_layout : Layout;
  clip_start : Q;
  clip_duration : Q;
  clip_audio : option string;
  clip_crossfadein : option Q
}.

Definition with_audio (c : Clip) (a : option string) : Clip :=
  {| clip_layout := clip_layout c; clip_start := clip_start c;
     clip_duration := clip_duration c; clip_audio := a;
     clip_crossfadein := clip_crossfadein c |}.

Definition with_start (c : Clip) (t : Q) : Clip :=
  {| clip_layout := clip_layout c; clip_start := t;
     clip_duration := clip_duration c; clip_audio := clip_audio c;
     clip_crossfadein := clip_crossfadein c |}.

Definition with_crossfadein (c : Clip) (d : Q) : Clip :=
  {| clip_layout := clip_layout c; clip_start := clip_start c;
     clip_duration := clip_duration c; clip_audio := clip_audio c;
     clip_crossfadein := Some d |}.

Inductive Primary : Type :=
| PClip (c : Clip)
| PConcat (parts : list Clip) (total : Q).

Definition primary_duration (p : Primary) : Q :=
  match p with
  | PClip c => clip_duration c
  | PConcat _ total => total
  end.

Definition primary_end (p : Primary) : Q :=
  match p with
  | PClip c => clip_start c + clip_duration c
  | PConcat _ total => total
  end.

Record Video : Type := {
  v_primary : Primary;
  v_overlays : list CaptionClip
}.

Definition video_duration (v : Video) : Q :=
  match v_overlays v with
  | [] => primary_duration (v_primary v)
  | _ => py_max (primary_end (v_primary v)) (map cap_end (v_overlays v))
  end.

Record Rendered : Type := {
  output_path : string;
  written : Video
}.

Record Script : Type := {
  script_scenes : option (list Scene.t)
}.

(** The values [os.urandom(4).hex()] takes: in the output name, in the
    audio file name of scene [i], in the static avatar video of scene
    [i]. *)
Record Entropy : Type := {
  rnd_output : string;
  rnd_audio : nat -> string;
  rnd_avatar : nat -> string
}.

Record t : Type := {
  resolution : Z * Z;
  fps : Z;
  sadtalker_manager : bool;
  avatar_width : Z;
  content_width : Z
}.

(** [__init__(use_sadtalker)], with [Config.VIDEO_RESOLUTION] and
    [Config.VIDEO_FPS] as arguments. *)
Definition init (VIDEO_RESOLUTION : Z * Z) (VIDEO_FPS : Z) (use_sadtalker : bool) : t :=
  let avatar_width := (fst VIDEO_RESOLUTION / 4)%Z in
  {| resolution := VIDEO_RESOLUTION;
     fps := VIDEO_FPS;
     sadtalker_manager := use_sadtalker;
     avatar_width := avatar_width;
     content_width := (fst VIDEO_RESOLUTION - avatar_width)%Z |}.

Section Methods.
Variable W : World.
Variable self : t.

(** Lines 257-268 of [_create_avatar_scene_clip]. *)
Definition resolve_duration_avatar (scene : Scene.t) (audio_path : option string) : Q :=
  let duration := Scene.get_duration scene 5 in
  if present W audio_path then
    match AudioFileClip W audio_path with
    | Some d => d
    | None => duration
    end
  else duration.

(** Lines 356-367 of [_create_regular_scene_clip]. *)
Definition resolve_duration_regular (scene : Scene.t) (audio_path : option string) : Q :=
  let duration := Scene.get_duration scene 5 in
  if present W audio_path then
    match AudioFileClip W audio_path with
    | Some d => d
    | None => duration
    end
  else duration.

Definition _derive_visual_from_dialogue
           (dialogue : string) (character_name : option string) : exc string :=
  if negb (Py.truthy dialogue)
  then Ret "Educational professional illustration"
  else
    let prompt : string :=
      ("Convert this dialogue into a concise image prompt: " ++ dialogue)%string in
    match chat_completion W [("user", prompt)] with
    | Some content => Ret (Py.strip content)
    | None => Raise
    end.

Definition _create_fallback_image (description : string) : Image :=
  ImgFallback description.

Definition _generate_image (description : string) : Image :=
  match images_generate W
          ("Educational illustration: " ++ description
           ++ ". Professional, clean, suitable for learning content.")
  with
  | Some data => ImgGenerated data
  | None => _create_fallback_image description
  end.

Definition _generate_content_visual (scene : Scene.t) (duration : Q) : exc ImageClip :=
  visual_description <-
    (if negb (Py.truthy (Py.get (Scene.visual scene) ""))
        && Py.truthy_opt (Scene.dialogue scene)
     then _derive_visual_from_dialogue
            (Py.or_else (Scene.dialogue scene) "") (Scene.character scene)
     else Ret (Py.get (Scene.visual scene) "")) ;;
  img <-
    (if present W (Scene.image_path scene)
     then
       if image_open W (Py.or_else (Scene.image_path scene) "")
       then Ret (ImgFile (Py.or_else (Scene.image_path scene) ""))
       else Raise
     else Ret (_generate_image visual_description)) ;;
  Ret {| ic_image := img; ic_duration := duration |}.

(** [_create_static_avatar_video]: the path of the video ffmpeg wrote,
    [None] when it failed. *)
Definition _create_static_avatar_video (avatar_path audio_path : option string)
           (urandom : string) : option string :=
  let output_path : string :=
    path_join (path_join Config.OUTPUT_DIR "temp_avatar_videos")
              ("static_avatar_" ++ urandom ++ ".mp4") in
  let avatar_path : string :=
    if present W avatar_path
    then Py.or_else avatar_path ""
    else create_placeholder_avatar W "default" in
  match audio_path with
  | Some audio =>
      if ffmpeg_ok W avatar_path audio then Some output_path else None
  | None => None
  end.

Definition _create_placeholder_avatar_clip (duration : Q) : Pane :=
  {| pane_source := AvatarPlaceholder;
     pane_width := avatar_width self;
     pane_x := 0%Z;
     pane_duration := duration |}.

Definition _create_avatar_scene_clip (scene : Scene.t)
           (avatar_path audio_path : option string)
           (use_placeholder : bool) (urandom : string) : exc Clip :=
  let duration := resolve_duration_avatar scene audio_path in
  avatar_video_path <-
    (if sadtalker_manager self && negb use_placeholder
     then
       match lip_sync W (Py.get avatar_path "") (Py.get audio_path "") with
       | Some r => Ret r
       | None => Raise
       end
     else Ret (_create_static_avatar_video avatar_path audio_path urandom)) ;;
  content_clip <- _generate_content_visual scene duration ;;
  avatar_clip <-
    (if present W avatar_video_path
     then
       match video_file_duration W (Py.or_else avatar_video_path "") with
       | Some d =>
           Ret {| pane_source := AvatarVideo (Py.or_else avatar_video_path "");
                  pane_width := avatar_width self;
                  pane_x := 0%Z;
                  pane_duration := d |}
       | None => Raise
       end
     else Ret (_create_placeholder_avatar_clip duration)) ;;
  let content_clip :=
    {| pane_source := Content (ic_image content_clip);
       pane_width := content_width self;
       pane_x := avatar_width self;
       pane_duration := ic_duration content_clip |} in
  let composite_clip :=
    {| clip_layout := SplitScreen avatar_clip content_clip (resolution self);
       clip_start := 0;
       clip_duration :=
         py_max (pane_duration avatar_clip) [pane_duration content_clip];
       clip_audio := None;
       clip_crossfadein := None |} in
  if present W audio_path then
    match AudioFileClip W audio_path with
    | Some _ => Ret (with_audio composite_clip audio_path)
    | None => Raise
    end
  else Ret composite_clip.

Definition _create_regular_scene_clip (scene : Scene.t)
           (audio_path : option string) : exc Clip :=
  let duration := resolve_duration_regular scene audio_path in
  visual_clip <- _generate_content_visual scene duration ;;
  let visual_clip :=
    {| clip_layout := FullFrame visual_clip;
       clip_start := 0;
       clip_duration := duration;
       clip_audio := None;
       clip_crossfadein := None |} in
  if present W audio_path then
    match AudioFileClip W audio_path with
    | Some _ => Ret (with_audio visual_clip audio_path)
    | None => Raise
    end
  else Ret visual_clip.

(** One iteration of [_generate_all_audio]. *)
Definition scene_audio (character : option Character) (urandom : nat -> string)
           (i : nat) (scene : Scene.t) : option string :=
  if present W (Scene.audio_path scene)
  then Scene.audio_path scene
  else if Py.truthy_opt (Scene.dialogue scene)
  then
    let audio_dir := path_join Config.OUTPUT_DIR "audio" in
    let audio_path :=
      path_join audio_dir
                ("scene_" ++ Py.str_of_nat (i + 1) ++ "_" ++ urandom i ++ ".mp3") in
    let gender :=
      match character with
      | Some c => char_gender c
      | None => Some "Female"
      end in
    let voice_style :=
      match character with
      | Some c => char_voice_style c
      | None => Some "Professional"
      end in
    if generate_voiceover W (Py.or_else (Scene.dialogue scene) "")
                          gender voice_style audio_path
    then Some audio_path
    else None
  else None.

Definition _generate_all_audio (scenes : list Scene.t)
           (character : option Character) (urandom : nat -> string)
  : list (option string) :=
  map (fun entry : nat * Scene.t =>
         scene_audio character urandom (fst entry) (snd entry))
      (Py.enumerate scenes).

(** Lines 620-638 of [_add_captions_timed]: the duration the caption
    engine gives scene [idx]. *)
Definition caption_duration (audio_paths : list (option string))
           (idx : nat) (scene : Scene.t) : Q :=
  let duration := Scene.get_duration scene 5 in
  let audio_path := Py.get_or_none audio_paths idx in
  if present W audio_path then
    match AudioFileClip W audio_path with
    | Some d => d
    | None => duration
    end
  else duration.

Definition caption_scene (audio_paths : list (option string))
           (st : list CaptionClip * Q) (entry : nat * Scene.t)
  : list CaptionClip * Q :=
  let '(overlays, current_time) := st in
  let '(idx, scene) := entry in
  let text := Py.or_else (Scene.dialogue scene) "" in
  let duration := caption_duration audio_paths idx scene in
  let overlays :=
    if Py.truthy text
    then overlays
         ++ [caption_clip W (resolution self) text current_time duration]
    else overlays in
  (overlays, current_time + duration).

Definition caption_loop (scenes : list Scene.t)
           (audio_paths : list (option string)) : list CaptionClip * Q :=
  fold_left (caption_scene audio_paths) (Py.enumerate scenes) ([], 0).

Definition _add_captions_timed (video : Primary) (scenes : list Scene.t)
           (audio_paths : list (option string)) : Video :=
  let overlays := fst (caption_loop scenes audio_paths) in
  {| v_primary := video; v_overlays := overlays |}.

(** Lines 84-108 of [create_avatar_video]: the character and the avatar
    image the video uses. *)
Definition select_avatar (character_name : option string)
  : option Character * option string :=
  let '(character, avatar_path) :=
    if Py.truthy_opt character_name
    then
      match get_character W (Py.or_else character_name "") with
      | Some c =>
          (Some c,
           if Py.truthy_opt (char_avatar_path c)
              && negb (present W (char_avatar_path c))
           then None
           else char_avatar_path c)
      | None => (None, None)
      end
    else (None, None) in
  let '(character, avatar_path) :=
    if negb (Py.truthy_opt avatar_path)
    then
      match find (fun c => present W (char_avatar_path c)) (get_all_characters W) with
      | Some c => (Some c, char_avatar_path c)
      | None => (character, avatar_path)
      end
    else (character, avatar_path) in
  match character with
  | Some c =>
      if negb (Py.truthy_opt avatar_path)
      then (character,
            Some (create_placeholder_avatar W (Py.get (char_name c) "default")))
      else (character, avatar_path)
  | None => (character, avatar_path)
  end.

(** Lines 115-137: one iteration of the clip loop. *)
Definition build_clip (avatar_path : option string) (use_placeholder : bool)
           (audio_paths : list (option string)) (urandom : nat -> string)
           (clips : list Clip) (entry : nat * Scene.t) : list Clip :=
  let '(i, scene) := entry in
  match nth_error audio_paths i with
  | Some audio_path =>
      match
        (if Py.truthy_opt avatar_path && Py.truthy_opt audio_path
         then _create_avatar_scene_clip scene avatar_path audio_path
                                        use_placeholder (urandom i)
         else _create_regular_scene_clip scene audio_path)
      with
      | Ret clip => clips ++ [clip]
      | Raise => clips
      end
  | None => clips
  end.

Definition transition_duration : Q := 1 # 2.

Definition crossfade (curr_clip : Clip) : exc Clip :=
  if has_with_crossfadein W
  then Ret (with_crossfadein curr_clip transition_duration)
  else if has_fx_crossfadein W
  then Ret (with_crossfadein curr_clip transition_duration)
  else Raise.

(** Lines 149-169: one iteration of the transition loop. *)
Definition stitch_clip (final_clips : list Clip) (curr_clip : Clip) : list Clip :=
  let prev_clip := last final_clips curr_clip in
  let curr_clip :=
    match
      (if Py.gt (clip_duration prev_clip) transition_duration
          && Py.gt (clip_duration curr_clip) transition_duration
       then crossfade curr_clip
       else Ret curr_clip)
    with
    | Ret c => c
    | Raise => curr_clip
    end in
  final_clips ++ [curr_clip].

Definition stitch (clips : list Clip) : list Clip :=
  match clips with
  | [] => []
  | clip0 :: rest => fold_left stitch_clip rest [clip0]
  end.

Definition concatenate_videoclips (method : ConcatMethod) (clips : list Clip)
  : exc Primary :=
  if concatenate_ok W method (map clip_duration clips)
  then
    let timings := concatenation_timings (map clip_duration clips) in
    Ret (PConcat (map (fun ct : Clip * Q => with_start (fst ct) (snd ct))
                      (combine clips timings))
                 (last timings 0))
  else Raise.

(** Lines 143-173: the primary track of the clips that were built. *)
Definition primary_track (clips : list Clip) : exc (option Primary) :=
  match clips with
  | [] => Ret None
  | clip0 :: _ =>
      if (1 <? List.length clips)%nat
      then p <- concatenate_videoclips Chain (stitch clips) ;; Ret (Some p)
      else Ret (Some (PClip clip0))
  end.

Definition build_clips (avatar_path : option string) (use_placeholder : bool)
           (scenes : list Scene.t) (audio_paths : list (option string))
           (urandom : nat -> string) : list Clip :=
  fold_left (build_clip avatar_path use_placeholder audio_paths urandom)
            (Py.enumerate scenes) [].

Definition create_avatar_video (script : Script) (target_duration : Z)
           (character_name : option string) (use_placeholder : bool)
           (urandom : Entropy) : exc (option Rendered) :=
  let scenes := match script_scenes script with Some l => l | None => [] end in
  match scenes with
  | [] => Ret None
  | _ =>
      let output_path : string :=
        path_join (path_join Config.OUTPUT_DIR "avatar_videos")
                  ("avatar_video_" ++ rnd_output urandom ++ ".mp4") in
      let '(character, avatar_path) := select_avatar character_name in
      let audio_paths := _generate_all_audio scenes character (rnd_audio urandom) in
      let clips :=
        build_clips avatar_path use_placeholder scenes audio_paths
                    (rnd_avatar urandom) in
      match clips with
      | [] => Ret None
      | _ =>
          final_video <- primary_track clips ;;
          match final_video with
          | None => Raise
          | Some final_video =>
              let final_video :=
                _add_captions_timed final_video scenes audio_paths in
              if write_ok W (video_duration final_video)
              then Ret (Some {| output_path := output_path;
                                written := final_video |})
              else Raise
          end
      end
  end.

End Methods.
End AvatarVideoGenerator.


(** ** [_wrap_text], which the two classes share word for word

    Lines 419-437 of video_generator.py and 688-716 of
    avatar_video_generator.py; it wraps the description drawn on the
    fallback image. *)

Module Text.

(** [sep.join(l)]. *)
Fixpoint join (sep : string) (l : list string) : string :=
  match l with
  | [] => EmptyString
  | x :: r =>
      match r with
      | [] => x
      | _ :: _ => (x ++ sep ++ join sep r)%string
      end
  end.

(** [len(s)]. *)
Definition len (s : string) : Z := Z.of_nat (String.length s).

(** One iteration of [for word in words], on the state
    [(lines, current_line, current_length)]. *)
Definition wrap_text_word (max_chars : Z) (st : list string * list string * Z)
           (word : string) : list string * list string * Z :=
  let '(lines, current_line, current_length) := st in
  if (current_length + len word + 1 <=? max_chars)%Z
  then (lines, current_line ++ [word], (current_length + len word + 1)%Z)
  else (lines ++ [join " " current_line], [word], len word).

(** The list [lines] as it is just before the final join. *)
Definition wrap_text_lines (text : string) (max_chars : Z) : list string :=
  let words := Py.split text in
  let '(lines, current_line, _) :=
    fold_left (wrap_text_word max_chars) words ([], [], 0%Z) in
  match current_line with
  | [] => lines
  | _ :: _ => lines ++ [join " " current_line]
  end.

Definition _wrap_text (text : string) (max_chars : Z) : string :=
  join nl (wrap_text_lines text max_chars).

End Text.

(** ** Vocabulary of the specification *)

(** The measured duration of a scene's audio artifact: [Some d] when the
    file exists and can be probed, [None] when the scene has no audio, the
    file is missing, or decoding fails. *)
Definition probe (W : World) (audio_path : option string) : option Q :=
  if present W audio_path then AudioFileClip W audio_path else None.

(** The nominal duration of a scene: its [duration] entry, 5 when the
    script gives none. *)
Definition nominal_duration (scene : Scene.t) : Q := Scene.get_duration scene 5.

(** The cumulative start offset of scene [i]: the sum of the resolved
    durations of the scenes strictly before it. *)
Definition start_offset (resolved : list Q) (i : nat) : Q :=
  Py.sum (firstn i resolved).

(** The scene has non-empty dialogue. *)
Definition has_dialogue (scene : Scene.t) : bool :=
  Py.truthy_opt (Scene.dialogue scene).

(** The script in which scene [i] carries the caption text override
    [f i] (none for [None]). *)
Definition override_captions (f : nat -> option string) (scenes : list Scene.t)
  : list Scene.t :=
  map (fun e : nat * Scene.t => Scene.with_captions (f (fst e)) (snd e))
      (Py.enumerate scenes).

(** A string without whitespace, as the words [split] returns are. *)
Fixpoint no_space (s : string) : bool :=
  match s with
  | EmptyString => true
  | String c s' => negb (Py.isspace c) && no_space s'
  end.

(** The caption layout finds that [line] fits within [max_width]: the test
    [bbox[2] <= max_width] of the source. *)
Definition fits (W : World) (max_width : Z) (line : string) : Prop :=
  (bbox2 (textbbox W line) <= max_width)%Z.

(** The width with which a line is drawn: [tw = bbox[2] - bbox[0]]. *)
Definition rendered_width (W : World) (line : string) : Z :=
  (bbox2 (textbbox W line) - bbox0 (textbbox W line))%Z.

(** The total duration of the timeline a run of [generate] rendered, when
    it rendered one. *)
Definition rendered_duration (r : exc (option VideoGenerator.Rendered)) : option Q :=
  match r with
  | Ret (Some x) => Some (VideoGenerator.video_duration (VideoGenerator.written x))
  | _ => None
  end.

(** What scene [fst e] contributes to the primary track of [generate]: its
    clip, or nothing when the clip could not be built. *)
Definition usable_clip (W : World) (voiceover_paths : list (option string))
           (e : nat * Scene.t) : list VideoGenerator.Clip :=
  match nth_error voiceover_paths (fst e) with
  | Some audio_path =>
      match VideoGenerator._create_scene_clip W (snd e) audio_path with
      | Ret clip => [clip]
      | Raise => []
      end
  | None => []
  end.

(** The start and the duration of a caption clip. *)
Definition cap_span (c : CaptionClip) : Q * Q := (cap_start c, cap_duration c).

(** The prompt from which [_generate_visual] synthesizes a single image. *)
Definition single_image_prompt (description : string) : string :=
  "Ultra-photorealistic photograph. " ++ description
  ++ ". Cinematic lighting, shallow depth of field, realistic textures, high detail skin, no text, no watermark.".

(** The image of one variant of a sequence: synthesized, else the
    placeholder. *)
Definition is_variant_image (description : string) (img : Image) : Prop :=
  (exists data : string, img = ImgGenerated data) \/ img = ImgFallback description.


(** What the transition loop of [VideoGenerator] makes of a clip that
    follows [prev]: the clip with a crossfade-in of half a time unit when
    one of the two crossfade entry points is available and both clips last
    longer than that, the clip itself otherwise. *)
Definition crossfaded (W : World) (prev curr : VideoGenerator.Clip)
  : VideoGenerator.Clip :=
  if (has_with_crossfadein W || has_fx_crossfadein W)
     && Py.gt (VideoGenerator.clip_duration prev) (1 # 2)
     && Py.gt (VideoGenerator.clip_duration curr) (1 # 2)
  then VideoGenerator.with_crossfadein curr (1 # 2)
  else curr.



(** The character [create_avatar_video] was asked for, when the name is
    given and the store knows it. *)
Definition named_character (W : World) (character_name : option string)
  : option Character :=
  if Py.truthy_opt character_name
  then get_character W (Py.or_else character_name "")
  else None.

(** The first character of the store, in the order [get_all_characters]
    returns them, whose avatar file exists. *)
Definition first_with_avatar (W : World) : option Character :=
  find (fun c => present W (char_avatar_path c)) (get_all_characters W).

(** The clip shows the avatar beside the content, rather than the content
    over the full frame. *)
Definition is_split_screen (c : AvatarVideoGenerator.Clip) : bool :=
  match AvatarVideoGenerator.clip_layout c with
  | AvatarVideoGenerator.SplitScreen _ _ _ => true
  | AvatarVideoGenerator.FullFrame _ => false
  end.

(** ** A run of [generate] and the files it leaves behind

    [VideoGenerator.generate] above reads the file system through one
    [World].  A run also writes: text-to-speech stores each speech it
    synthesizes (tts_manager.py, lines 67-68), the clip builder keeps the
    images it synthesizes (lines 238-242 and 297-302 of video_generator.py),
    and the encoder writes the video.  What is written is there for every
    later [os.path.exists], in the same run and in the next.  [Run] threads
    the file system through [generate] in the order of the source. *)

Module Run.

(** What reading a file back gives: the duration [AudioFileClip] finds in
    it ([None] when it cannot be decoded), and whether [Image.open] opens
    it. *)
Record File : Type := {
  file_audio : option Q;
  file_image : bool
}.

(** A PNG that PIL saved opens as an image and holds no audio; a directory
    is neither. *)
Definition picture : File := {| file_audio := None; file_image := true |}.
Definition directory : File := {| file_audio := None; file_image := false |}.

(** What the collaborators put into the files of a run:
    [realpath p] is the file the path [p] names ([os.path.realpath]);
    [spoken text gender voice_style] is the duration of the speech
    text-to-speech synthesizes, as [AudioFileClip] reads it back;
    [makedirs d] and [img_save p] tell whether [os.makedirs(d,
    exist_ok=True)] and, the directory being there, [img.save(p)] succeed;
    [movie_audio d] is what [AudioFileClip] reads from the encoded video of
    duration [d]. *)
Record Media : Type := {
  realpath : string -> string;
  spoken : string -> option string -> option string -> option Q;
  makedirs : string -> bool;
  img_save : string -> bool;
  movie_audio : Q -> option Q
}.

(** [Config.DUMMY_DIR], the parent of the two dummy directories. *)
Definition DUMMY_DIR : string := "dummy_assets".

Section Files.
Variable M : Media.

Definition same_file (p q : string) : bool :=
  String.eqb (realpath M p) (realpath M q).

(** The file system after [f] was written to [p]: every path that names
    the same file now exists and reads back as [f]. *)
Definition write (W : World) (p : string) (f : File) : World :=
  {| path_exists := fun q => same_file q p || path_exists W q;
     audio_duration := fun q => if same_file q p then file_audio f else audio_duration W q;
     image_open := fun q => if same_file q p then file_image f else image_open W q;
     images_generate := images_generate W;
     chat_completion := chat_completion W;
     generate_voiceover := generate_voiceover W;
     textbbox := textbbox W;
     has_with_crossfadein := has_with_crossfadein W;
     has_fx_crossfadein := has_fx_crossfadein W;
     concatenate_ok := concatenate_ok W;
     write_ok := write_ok W;
     video_file_duration := video_file_duration W;
     ffmpeg_ok := ffmpeg_ok W;
     lip_sync := lip_sync W;
     get_character := get_character W;
     get_all_characters := get_all_characters W;
     create_placeholder_avatar := create_placeholder_avatar W |}.

Definition write_all (W : World) (files : list (string * File)) : World :=
  fold_left (fun (w : World) (pf : string * File) => write w (fst pf) (snd pf))
            files W.

(** The speech file of scene [i]. *)
Definition speech_path (i : nat) : string :=
  path_join Config.DUMMY_SPEECH_DIR ("scene_" ++ Py.str_of_nat (i + 1) ++ ".mp3").

(** The image files of scene [i]: the single image, and variant [k]. *)
Definition image_path (i : nat) : string :=
  path_join Config.DUMMY_IMAGE_DIR ("scene_" ++ Py.str_of_nat (i + 1) ++ ".png").

Definition variant_path (i k : nat) : string :=
  path_join Config.DUMMY_IMAGE_DIR
            ("scene_" ++ Py.str_of_nat (i + 1) ++ "_var" ++ Py.str_of_nat (k + 1)
             ++ ".png").

(** Lines 32-51 of [generate], one iteration: the audio entry of the scene
    and the file system after it. *)
Definition record_scene (st : list (option string) * World) (entry : nat * Scene.t)
  : list (option string) * World :=
  let '(voiceover_paths, W) := st in
  let '(i, scene) := entry in
  if present W (Scene.audio_path scene)
  then (voiceover_paths ++ [Scene.audio_path scene], W)
  else if Py.truthy_opt (Scene.dialogue scene)
  then
    let target_audio_path := speech_path i in
    let text := Py.or_else (Scene.dialogue scene) "" in
    let gender := Some (Py.get (Scene.character_gender scene) "Female") in
    let voice_style := Some (Py.get (Scene.voice_style scene) "Professional") in
    if generate_voiceover W text gender voice_style target_audio_path
    then (voiceover_paths ++ [Some target_audio_path],
          write W target_audio_path
                {| file_audio := spoken M text gender voice_style;
                   file_image := false |})
    else (voiceover_paths ++ [None], W)
  else (voiceover_paths ++ [None], W).

Definition record_voiceovers (W : World) (scenes : list Scene.t)
  : list (option string) * World :=
  fold_left record_scene (Py.enumerate scenes) ([], W).

(** What [_generate_visual_sequence] keeps for scene [i] (lines 296-302):
    before each of the variants the directory is made, then the variant,
    synthesized or placeholder, is saved; a failure of either is passed
    over. *)
Definition kept_variants (i : nat) (num_images : Z) : list (string * File) :=
  if makedirs M Config.DUMMY_IMAGE_DIR
  then
    [(DUMMY_DIR, directory); (Config.DUMMY_IMAGE_DIR, directory)]
    ++ map (fun k : nat => (variant_path i k, picture))
           (filter (fun k : nat => img_save M (variant_path i k))
                   (seq 0 (Z.to_nat num_images)))
  else [].

(** What [_generate_visual] keeps for scene [i] (lines 237-242): the image
    when it was synthesized, and when the directory is there to save it
    in. *)
Definition kept_single (W : World) (i : nat) (description : string)
  : list (string * File) :=
  match images_generate W (single_image_prompt description) with
  | Some _ =>
      if path_exists W Config.DUMMY_IMAGE_DIR && img_save M (image_path i)
      then [(image_path i, picture)]
      else []
  | None => []
  end.

(** The file system after the visual of scene [i] was made (lines
    136-167): nothing is kept for a pre-supplied image; the variants of a
    sequence are kept even when their concatenation then fails and a
    single image is made instead. *)
Definition keep_images (W : World) (i : nat) (scene : Scene.t) (duration : Q)
  : World :=
  let visual_description := VideoGenerator.visual_description W scene in
  if present W (Scene.image_path scene)
  then W
  else if Qle_bool 4 duration
  then
    let W1 := write_all W (kept_variants i (VideoGenerator.num_images duration)) in
    match VideoGenerator._generate_visual_sequence W visual_description duration with
    | Ret _ => W1
    | Raise => write_all W1 (kept_single W1 i visual_description)
    end
  else write_all W (kept_single W i visual_description).

(** [_create_scene_clip(scene, audio_path, scene_index=i)]: the audio is
    probed and the visual chosen in the file system the call finds; the
    audio is attached (lines 176-185) in the one the visual leaves. *)
Definition _create_scene_clip (W : World) (i : nat) (scene : Scene.t)
           (audio_path : option string) : exc VideoGenerator.Clip * World :=
  let duration := VideoGenerator.resolve_duration W scene audio_path in
  match VideoGenerator.base_clip W scene duration with
  | Ret v =>
      let W' := keep_images W i scene duration in
      let base_clip :=
        VideoGenerator.with_duration (VideoGenerator.clip_of_visual v) duration in
      (if present W' audio_path then
         match AudioFileClip W' audio_path with
         | Some _ => Ret (VideoGenerator.with_audio base_clip audio_path)
         | None => Raise
         end
       else Ret base_clip,
       W')
  | Raise => (Raise, W)
  end.

(** Lines 55-61 of [generate], one iteration. *)
Definition build_clip (voiceover_paths : list (option string))
           (st : list VideoGenerator.Clip * World) (entry : nat * Scene.t)
  : list VideoGenerator.Clip * World :=
  let '(clips, W) := st in
  let '(i, scene) := entry in
  match nth_error voiceover_paths i with
  | Some audio_path =>
      let '(clip, W') := _create_scene_clip W i scene audio_path in
      (match clip with
       | Ret clip => clips ++ [clip]
       | Raise => clips
       end,
       W')
  | None => (clips, W)
  end.

Definition build_clips (W : World) (scenes : list Scene.t)
           (voiceover_paths : list (option string))
  : list VideoGenerator.Clip * World :=
  fold_left (build_clip voiceover_paths) (Py.enumerate scenes) ([], W).

(** [generate(script, target_duration)] on the file system [W]: what it
    returns and the file system it leaves. *)
Definition generate (W : World) (self : VideoGenerator.t)
           (script : VideoGenerator.Script) (target_duration : Z) (urandom : string)
  : exc (option VideoGenerator.Rendered) * World :=
  let scenes :=
    match VideoGenerator.script_scenes script with
    | Some l => l
    | None => []
    end in
  match scenes with
  | [] => (Ret None, W)
  | _ =>
      let output_path : string := ("output_video_" ++ urandom ++ ".mp4")%string in
      let '(voiceover_paths, W) := record_voiceovers W scenes in
      let '(clips, W) := build_clips W scenes voiceover_paths in
      match clips with
      | [] => (Ret None, W)
      | _ =>
          match VideoGenerator.primary_track W clips with
          | Ret (Some final_video) =>
              let final_video :=
                VideoGenerator._add_captions_timed W self final_video scenes
                                                   voiceover_paths in
              if write_ok W (VideoGenerator.video_duration final_video)
              then (Ret (Some {| VideoGenerator.output_path := output_path;
                                 VideoGenerator.written := final_video |}),
                    write W output_path
                          {| file_audio :=
                               movie_audio M (VideoGenerator.video_duration final_video);
                             file_image := false |})
              else (Raise, W)
          | _ => (Raise, W)
          end
      end
  end.

(** Two runs on the same script, the second on the file system the first
    leaves. *)
Definition rerun (W : World) (self : VideoGenerator.t)
           (script : VideoGenerator.Script) (target_duration : Z)
           (urandom1 urandom2 : string)
  : exc (option VideoGenerator.Rendered) * exc (option VideoGenerator.Rendered) :=
  let '(first, W1) := generate W self script target_duration urandom1 in
  (first, fst (generate W1 self script target_duration urandom2)).

End Files.
End Run.

(** ** [TTSManager] (src/core/tts_manager.py) *)

Module TTSManager.

(** [Config.AVAILABLE_VOICES] and [Config.DEFAULT_VOICE]. *)
Definition AVAILABLE_VOICES : list string :=
  ["alloy"; "echo"; "fable"; "onyx"; "nova"; "shimmer"].
Definition DEFAULT_VOICE : string := "alloy".

(** [self.voice_mapping], as the items of the dict. *)
Definition voice_mapping : list (string * string) :=
  [("Male_Professional", "onyx"); ("Female_Professional", "nova");
   ("Neutral_Professional", "alloy");
   ("Male_Friendly", "echo"); ("Female_Friendly", "shimmer");
   ("Neutral_Friendly", "fable");
   ("Male_Energetic", "fable"); ("Female_Energetic", "alloy");
   ("Neutral_Energetic", "echo");
   ("Male_Calm", "onyx"); ("Female_Calm", "nova"); ("Neutral_Calm", "shimmer");
   ("Male_Confident", "onyx"); ("Female_Confident", "nova");
   ("Neutral_Confident", "alloy");
   ("Male_Playful", "fable"); ("Female_Playful", "shimmer");
   ("Neutral_Playful", "echo");
   ("Male_Narrative", "echo"); ("Female_Narrative", "nova");
   ("Neutral_Narrative", "alloy");
   ("Male_Technical", "onyx"); ("Female_Technical", "nova");
   ("Neutral_Technical", "alloy")].

Definition get_voice_style_descriptions : list (string * string) :=
  [("Professional", "Clear, authoritative voice suitable for educational content");
   ("Friendly", "Warm, approachable voice that builds rapport");
   ("Energetic", "Dynamic, enthusiastic voice that engages learners");
   ("Calm", "Soothing, patient voice for complex topics");
   ("Confident", "Self-assured, commanding presence");
   ("Playful", "Fun, engaging voice for younger audiences");
   ("Narrative", "Storytelling voice with natural flow");
   ("Technical", "Precise, detailed voice for complex subjects")].

Definition get_voice_characteristics : list (string * string) :=
  [("onyx", "Deep, authoritative male voice");
   ("nova", "Clear, professional female voice");
   ("echo", "Warm, friendly male voice");
   ("shimmer", "Bright, engaging female voice");
   ("fable", "Dynamic, expressive voice");
   ("alloy", "Balanced, versatile voice")].

(** [d.get(k, dflt)] for a dict with string keys, given as its items. *)
Fixpoint dict_get (d : list (string * string)) (k dflt : string) : string :=
  match d with
  | [] => dflt
  | (k', v) :: rest => if String.eqb k' k then v else dict_get rest k dflt
  end.

(** [f"{x}"] for an entry read with [d.get(k)]: a missing entry prints as
    [None]. *)
Definition fmt (o : option string) : string :=
  match o with
  | Some s => s
  | None => "None"
  end.

(** The OpenAI client and the file system, as [generate_voiceover] uses
    them: [audio.speech.create(voice=..., input=...)] returns the audio
    content ([None] when it raises); writing the content to a path
    succeeds or raises. *)
Record Client : Type := {
  speech_create : string -> string -> option string;
  file_write : string -> string -> bool
}.

(** The [character] dict [generate_voiceover] is given; a missing key makes
    the subscript raise. *)
Record Voice : Type := {
  gender : option string;
  voice_style : option string
}.

Definition generate_voiceover (client : Client) (text : string) (character : Voice)
           (output_path : string) : exc string :=
  match gender character, voice_style character with
  | Some g, Some v =>
      let voice_key : string := (g ++ "_" ++ v)%string in
      let voice := dict_get voice_mapping voice_key "alloy" in
      match speech_create client voice text with
      | Some content =>
          if file_write client output_path content then Ret output_path else Raise
      | None => Raise
      end
  | _, _ => Raise
  end.

(** One iteration of the loop of [generate_batch_voiceovers]. *)
Definition batch_scene (client : Client) (voiceover_paths : list (option string))
           (entry : nat * Scene.t) : exc (list (option string)) :=
  let '(i, scene) := entry in
  if Py.truthy_opt (Scene.dialogue scene)
  then
    let temp_path : string := ("temp_audio_" ++ Py.str_of_nat i ++ ".mp3")%string in
    let character :=
      {| gender := Some (Py.get (Scene.character_gender scene) "Female");
         voice_style := Some (Py.get (Scene.voice_style scene) "Professional") |} in
    written <- generate_voiceover client (Py.or_else (Scene.dialogue scene) "")
                                  character temp_path ;;
    Ret (voiceover_paths ++ [Some temp_path])
  else Ret (voiceover_paths ++ [None]).

Definition generate_batch_voiceovers (client : Client) (scenes : list Scene.t)
  : exc (list (option string)) :=
  fold_left (fun (acc : exc (list (option string))) (entry : nat * Scene.t) =>
               voiceover_paths <- acc ;; batch_scene client voiceover_paths entry)
            (Py.enumerate scenes) (Ret []).

(** The loop of [ensure_voice_consistency]; [character_voices] is the entry
    of the dict [character_voices] under [character_name], the only key the
    loop ever writes. *)
Fixpoint consistency_loop (character_name : string) (character_voices : option string)
         (scenes : list Scene.t) : bool :=
  match scenes with
  | [] => true
  | scene :: rest =>
      match Scene.character scene with
      | Some c =>
          if String.eqb c character_name
          then
            let voice_key : string :=
              (fmt (Scene.character_gender scene) ++ "_"
               ++ fmt (Scene.voice_style scene))%string in
            match character_voices with
            | Some seen =>
                if negb (String.eqb seen voice_key)
                then false
                else consistency_loop character_name character_voices rest
            | None => consistency_loop character_name (Some voice_key) rest
            end
          else consistency_loop character_name character_voices rest
      | None => consistency_loop character_name character_voices rest
      end
  end.

Definition ensure_voice_consistency (character_name : string) (scenes : list Scene.t)
  : bool :=
  consistency_loop character_name None scenes.

(** The dict [get_voice_mapping_info] returns. *)
Record VoiceInfo : Type := {
  info_voice_key : string;
  info_mapped_voice : string;
  info_gender : string;
  info_voice_style : string;
  info_description : string;
  info_characteristic : string
}.

Definition get_voice_mapping_info (gender voice_style : string) : VoiceInfo :=
  let voice_key : string := (gender ++ "_" ++ voice_style)%string in
  let mapped_voice := dict_get voice_mapping voice_key "alloy" in
  {| info_voice_key := voice_key;
     info_mapped_voice := mapped_voice;
     info_gender := gender;
     info_voice_style := voice_style;
     info_description := dict_get get_voice_style_descriptions voice_style "";
     info_characteristic := dict_get get_voice_characteristics mapped_voice "" |}.

End TTSManager.

(** The voice key [ensure_voice_consistency] compares: gender and voice
    style of the scene, a missing one printed as [None]. *)
Definition scene_voice_key (scene : Scene.t) : string :=
  TTSManager.fmt (Scene.character_gender scene) ++ "_"
  ++ TTSManager.fmt (Scene.voice_style scene).

(** The scene is spoken by the character of that name. *)
Definition spoken_by (character_name : string) (scene : Scene.t) : Prop :=
  Scene.character scene = Some character_name.

(** The entry [generate_batch_voiceovers] records for scene [i]: the
    temporary file named after the 0-based index when the scene has a
    dialogue, [None] otherwise. *)
Definition batch_entry (i : nat) (scene : Scene.t) : option string :=
  if Py.truthy_opt (Scene.dialogue scene)
  then Some ("temp_audio_" ++ Py.str_of_nat i ++ ".mp3")%string
  else None.


(** How far the bounding box of a line reaches left of the origin the
    text is measured from: [-bbox[0]], the stroke for a stroked font. *)
Definition overhang (W : World) (line : string) : Z :=
  (- bbox0 (textbbox W line))%Z.

(** Two file systems answer alike at the path [p]. *)
Definition same_reads (W W' : World) (p : string) : Prop :=
  path_exists W p = path_exists W' p
  /\ audio_duration W p = audio_duration W' p
  /\ image_open W p = image_open W' p.

(** ... at an optional path. *)
Definition same_reads_at (W W' : World) (o : option string) : Prop :=
  forall p : string, o = Some p -> same_reads W W' p.

(** Two worlds have the same collaborators, whatever their files: image
    synthesis, the language model, text-to-speech, font metrics, MoviePy
    and the encoder answer alike. *)
Definition same_services (W W' : World) : Prop :=
  images_generate W = images_generate W'
  /\ chat_completion W = chat_completion W'
  /\ generate_voiceover W = generate_voiceover W'
  /\ textbbox W = textbbox W'
  /\ has_with_crossfadein W = has_with_crossfadein W'
  /\ has_fx_crossfadein W = has_fx_crossfadein W'
  /\ concatenate_ok W = concatenate_ok W'
  /\ write_ok W = write_ok W'.

(** The speech file the audio pass of [generate] writes for scene [i] on
    the file system [W]: one, when the scene brings no existing audio of
    its own, has a dialogue, and text-to-speech returns. *)
Definition speeches_at (M : Run.Media) (W : World) (i : nat) (scene : Scene.t)
  : list (string * Run.File) :=
  let text := Py.or_else (Scene.dialogue scene) "" in
  let gender := Some (Py.get (Scene.character_gender scene) "Female") in
  let voice_style := Some (Py.get (Scene.voice_style scene) "Professional") in
  if negb (present W (Scene.audio_path scene))
     && Py.truthy_opt (Scene.dialogue scene)
     && generate_voiceover W text gender voice_style (Run.speech_path i)
  then [(Run.speech_path i,
         {| Run.file_audio := Run.spoken M text gender voice_style;
            Run.file_image := false |})]
  else [].

(** The speech files of all scenes, in the order they are written. *)
Definition speeches (M : Run.Media) (W : World) (scenes : list Scene.t)
  : list (string * Run.File) :=
  flat_map (fun entry : nat * Scene.t => speeches_at M W (fst entry) (snd entry))
           (Py.enumerate scenes).

(** The paths under which a run on [n] scenes writes speech, and those
    under which it keeps images (with the directories it makes for them). *)
Definition speech_files (n : nat) : list string := map Run.speech_path (seq 0 n).

Definition image_files (n : nat) : list string :=
  [Run.DUMMY_DIR; Config.DUMMY_IMAGE_DIR]
  ++ map Run.image_path (seq 0 n)
  ++ flat_map (fun i : nat => map (Run.variant_path i) (seq 0 4)) (seq 0 n).

(** The video a run writes. *)
Definition output_file (urandom : string) : string :=
  "output_video_" ++ urandom ++ ".mp4".

(** The files the script names: the audio and the image its scenes bring. *)
Definition script_files (scenes : list Scene.t) : list string :=
  flat_map
    (fun scene : Scene.t =>
       match Scene.audio_path scene with Some p => [p] | None => [] end
       ++ match Scene.image_path scene with Some p => [p] | None => [] end)
    scenes.

(** No path of [ps] names the same file as a path of [qs]. *)
Definition apart (M : Run.Media) (ps qs : list string) : Prop :=
  forall p q : string, In p ps -> In q qs -> Run.same_file M p q = false.

(** What a run rendered, without the name it was written under. *)
Definition timeline (r : exc (option VideoGenerator.Rendered))
  : exc (option VideoGenerator.Video) :=
  match r with
  | Ret (Some x) => Ret (Some (VideoGenerator.written x))
  | Ret None => Ret None
  | Raise => Raise
  end.

(** ** Stub collaborators used in the examples *)

Module Stub.

(** A monospaced caption font: 20 pixels a character, 40 pixels high. *)
Definition monospace (s : string) : BBox :=
  (0, 0, 20 * Z.of_nat (String.length s), 40)%Z.

(** Two audio files exist: a.mp3 measures 4.8, bad.mp3 cannot be decoded.
    Two image files exist: pic.png opens, broken.png does not.  Image
    synthesis and the language model answer; text-to-speech fails; neither
    crossfade entry point is available. *)
Definition world : World :=
  {| path_exists := fun p =>
       String.eqb p "a.mp3" || String.eqb p "bad.mp3" || String.eqb p "pic.png"
       || String.eqb p "broken.png";
     audio_duration := fun p => if String.eqb p "a.mp3" then Some (24 # 5) else None;
     image_open := fun p => String.eqb p "pic.png";
     images_generate := fun prompt => Some "png";
     chat_completion := fun _ => Some "A teacher at a whiteboard";
     generate_voiceover := fun _ _ _ _ => false;
     textbbox := monospace;
     has_with_crossfadein := false;
     has_fx_crossfadein := false;
     concatenate_ok := fun _ _ => true;
     write_ok := fun _ => true;
     video_file_duration := fun _ => Some 5;
     ffmpeg_ok := fun _ _ => false;
     lip_sync := fun _ _ => None;
     get_character := fun _ => None;
     get_all_characters := [];
     create_placeholder_avatar := fun _ => "dummy_avatar.png" |}.



(** A scene clip holding one synthesized image for [d] time units. *)
Definition still (d : Q) : VideoGenerator.Clip :=
  {| VideoGenerator.clip_visual :=
       Still {| ic_image := ImgGenerated "png"; ic_duration := d |};
     VideoGenerator.clip_start := 0;
     VideoGenerator.clip_duration := d;
     VideoGenerator.clip_audio := None;
     VideoGenerator.clip_crossfadein := None |}.

(** A script of two scenes without audio: the pre-supplied image of the
    first cannot be opened, the second has none. *)
Definition broken_image_script : VideoGenerator.Script :=
  {| VideoGenerator.script_scenes :=
       Some [Scene.mk (Some 5) (Some "Welcome") (Some "A classroom") None
                      (Some "broken.png") None None None None;
             Scene.mk (Some 3) (Some "Goodbye") (Some "A sunset") None
                      None None None None None] |}.

(** A word of a hundred letters, and a caption that contains it. *)
Definition long_word : string := string_of_list_ascii (repeat "a"%char 100).
Definition long_caption : string := ("see " ++ long_word ++ " now")%string.

(** A scene with the given nominal duration, dialogue and audio file. *)
Definition scene (duration : option Q) (dialogue audio_path : option string) : Scene.t :=
  Scene.mk duration dialogue (Some "A diagram") None None audio_path None None None.





(** A caption font drawn with a stroke of 2 pixels: 20 pixels a character,
    the box reaching 2 pixels beyond the text on every side, as PIL's
    [textbbox] reports it for [stroke_width=2]. *)
Definition stroked_font (s : string) : BBox :=
  (-2, -2, 20 * Z.of_nat (String.length s) + 2, 42)%Z.

Definition stroked : World :=
  {| path_exists := path_exists world;
     audio_duration := audio_duration world;
     image_open := image_open world;
     images_generate := images_generate world;
     chat_completion := chat_completion world;
     generate_voiceover := generate_voiceover world;
     textbbox := stroked_font;
     has_with_crossfadein := false;
     has_fx_crossfadein := false;
     concatenate_ok := concatenate_ok world;
     write_ok := write_ok world;
     video_file_duration := video_file_duration world;
     ffmpeg_ok := ffmpeg_ok world;
     lip_sync := lip_sync world;
     get_character := get_character world;
     get_all_characters := get_all_characters world;
     create_placeholder_avatar := create_placeholder_avatar world |}.

(** Nothing is on the disk yet; text-to-speech works, and every speech it
    synthesizes lasts 3.  Paths name files as they are written, every
    directory can be made and every image saved. *)
Definition talking : World :=
  {| path_exists := fun _ => false;
     audio_duration := fun _ => None;
     image_open := fun _ => false;
     images_generate := images_generate world;
     chat_completion := chat_completion world;
     generate_voiceover := fun _ _ _ _ => true;
     textbbox := monospace;
     has_with_crossfadein := false;
     has_fx_crossfadein := false;
     concatenate_ok := concatenate_ok world;
     write_ok := write_ok world;
     video_file_duration := video_file_duration world;
     ffmpeg_ok := ffmpeg_ok world;
     lip_sync := lip_sync world;
     get_character := get_character world;
     get_all_characters := get_all_characters world;
     create_placeholder_avatar := create_placeholder_avatar world |}.

Definition media : Run.Media :=
  {| Run.realpath := fun p => p;
     Run.spoken := fun _ _ _ => Some 3;
     Run.makedirs := fun _ => true;
     Run.img_save := fun _ => true;
     Run.movie_audio := fun d => Some d |}.

(** A silent scene of 5 time units whose audio entry names the speech file
    of the scene after it, and a scene that says "Hello". *)
Definition aliased_script : VideoGenerator.Script :=
  {| VideoGenerator.script_scenes :=
       Some [scene (Some 5) None (Some "dummy_assets/speeches/scene_2.mp3");
             scene (Some 5) (Some "Hello") None] |}.

(** Two scenes that say something and name no file. *)
Definition plain_script : VideoGenerator.Script :=
  {| VideoGenerator.script_scenes :=
       Some [scene (Some 5) (Some "Hello") None;
             scene (Some 2) (Some "Goodbye") None] |}.

End Stub.

(** * Properties *)

(** ** Duration resolver *)

(** Every resolver of the two classes is the same function of the probe and
    the nominal duration. *)
Lemma resolve_duration_probe (W : World) (scene : Scene.t) (audio_path : option string) :
  VideoGenerator.resolve_duration W scene audio_path =
  match probe W audio_path with
  | Some d => d
  | None => nominal_duration scene
  end.
Proof.
  unfold VideoGenerator.resolve_duration, probe, nominal_duration.
  destruct (present W audio_path); [destruct (AudioFileClip W audio_path) |];
    reflexivity.
Qed.

Lemma resolve_duration_avatar_eq (W : World) (scene : Scene.t) (audio_path : option string) :
  AvatarVideoGenerator.resolve_duration_avatar W scene audio_path =
  VideoGenerator.resolve_duration W scene audio_path.
Proof. reflexivity. Qed.

Lemma resolve_duration_regular_eq (W : World) (scene : Scene.t) (audio_path : option string) :
  AvatarVideoGenerator.resolve_duration_regular W scene audio_path =
  VideoGenerator.resolve_duration W scene audio_path.
Proof. reflexivity. Qed.

Lemma caption_duration_eq (W : World) (paths : list (option string)) (idx : nat)
      (scene : Scene.t) :
  VideoGenerator.caption_duration W paths idx scene =
  VideoGenerator.resolve_duration W scene (Py.get_or_none paths idx).
Proof. reflexivity. Qed.

Lemma avatar_caption_duration_eq (W : World) (paths : list (option string)) (idx : nat)
      (scene : Scene.t) :
  AvatarVideoGenerator.caption_duration W paths idx scene =
  VideoGenerator.resolve_duration W scene (Py.get_or_none paths idx).
Proof. reflexivity. Qed.

(** C1.  In each of the five places where a scene's duration is resolved
    (the clip builder of [VideoGenerator], the avatar and the regular clip
    builders of [AvatarVideoGenerator], and the caption engines of both),
    the resolved duration is the probed duration of the scene's audio
    whenever the audio exists and can be probed, whatever the nominal
    duration is; when the audio is absent or cannot be probed it is the
    nominal duration. *)
Theorem resolved_duration_policy
        (W : World) (scene : Scene.t) (paths : list (option string)) (idx : nat) :
  let audio_path := Py.get_or_none paths idx in
  (forall d : Q,
      probe W audio_path = Some d ->
      VideoGenerator.resolve_duration W scene audio_path = d
      /\ AvatarVideoGenerator.resolve_duration_avatar W scene audio_path = d
      /\ AvatarVideoGenerator.resolve_duration_regular W scene audio_path = d
      /\ VideoGenerator.caption_duration W paths idx scene = d
      /\ AvatarVideoGenerator.caption_duration W paths idx scene = d)
  /\ (probe W audio_path = None ->
      VideoGenerator.resolve_duration W scene audio_path = nominal_duration scene
      /\ AvatarVideoGenerator.resolve_duration_avatar W scene audio_path
         = nominal_duration scene
      /\ AvatarVideoGenerator.resolve_duration_regular W scene audio_path
         = nominal_duration scene
      /\ VideoGenerator.caption_duration W paths idx scene = nominal_duration scene
      /\ AvatarVideoGenerator.caption_duration W paths idx scene
         = nominal_duration scene).
Proof.
  intros audio_path.
  change (AvatarVideoGenerator.resolve_duration_avatar W scene audio_path)
    with (VideoGenerator.resolve_duration W scene audio_path).
  change (AvatarVideoGenerator.resolve_duration_regular W scene audio_path)
    with (VideoGenerator.resolve_duration W scene audio_path).
  change (VideoGenerator.caption_duration W paths idx scene)
    with (VideoGenerator.resolve_duration W scene audio_path).
  change (AvatarVideoGenerator.caption_duration W paths idx scene)
    with (VideoGenerator.resolve_duration W scene audio_path).
  rewrite resolve_duration_probe.
  split.
  - intros d Hd. rewrite Hd. repeat split.
  - intros Hn. rewrite Hn. repeat split.
Qed.

(** A scene of nominal duration 5 whose audio measures 4.8 resolves to 4.8;
    the same scene with undecodable audio resolves to 5. *)
Lemma resolved_duration_policy_witness :
  VideoGenerator.resolve_duration Stub.world
    (Stub.scene (Some 5) (Some "Hello") (Some "a.mp3")) (Some "a.mp3") = 24 # 5
  /\ VideoGenerator.resolve_duration Stub.world
       (Stub.scene (Some 5) (Some "Hello") (Some "bad.mp3")) (Some "bad.mp3") = 5.
Proof.
  split.
  - apply (resolved_duration_policy Stub.world
             (Stub.scene (Some 5) (Some "Hello") (Some "a.mp3")) [Some "a.mp3"] 0).
    reflexivity.
  - apply (resolved_duration_policy Stub.world
             (Stub.scene (Some 5) (Some "Hello") (Some "bad.mp3")) [Some "bad.mp3"] 0).
    reflexivity.
Defined.




(** ** Split-screen layout *)

Lemma ratio_quarter (a w : Z) :
  (0 < w)%Z -> (inject_Z a / inject_Z w == 1 # 4 <-> (4 * a = w)%Z).
Proof.
  intros Hw. destruct w as [| p | p]; try lia.
  unfold Qeq, Qdiv, Qmult, Qinv, inject_Z. cbn [Qnum Qden].
  rewrite ?Pos.mul_1_l. lia.
Qed.

Lemma ratio_three_quarters (c w : Z) :
  (0 < w)%Z -> (inject_Z c / inject_Z w == 3 # 4 <-> (4 * c = 3 * w)%Z).
Proof.
  intros Hw. destruct w as [| p | p]; try lia.
  unfold Qeq, Qdiv, Qmult, Qinv, inject_Z. cbn [Qnum Qden].
  rewrite ?Pos.mul_1_l. lia.
Qed.

(** What [_create_avatar_scene_clip] lays out whenever it returns. *)
Lemma avatar_scene_layout (W : World) (self : AvatarVideoGenerator.t)
      (scene : Scene.t) (avatar_path audio_path : option string)
      (use_placeholder : bool) (urandom : string) (clip : AvatarVideoGenerator.Clip) :
  AvatarVideoGenerator._create_avatar_scene_clip
    W self scene avatar_path audio_path use_placeholder urandom = Ret clip ->
  exists avatar content : AvatarVideoGenerator.Pane,
    AvatarVideoGenerator.clip_layout clip
    = AvatarVideoGenerator.SplitScreen avatar content
        (AvatarVideoGenerator.resolution self)
    /\ AvatarVideoGenerator.pane_width avatar = AvatarVideoGenerator.avatar_width self
    /\ AvatarVideoGenerator.pane_width content = AvatarVideoGenerator.content_width self
    /\ AvatarVideoGenerator.pane_x avatar = 0%Z
    /\ AvatarVideoGenerator.pane_x content = AvatarVideoGenerator.avatar_width self.
Proof.
  unfold AvatarVideoGenerator._create_avatar_scene_clip.
  set (duration := AvatarVideoGenerator.resolve_duration_avatar W scene audio_path).
  match goal with |- bind ?m _ = _ -> _ => destruct m as [avp |] end;
    [| discriminate].
  cbn [bind].
  destruct (AvatarVideoGenerator._generate_content_visual W scene duration)
    as [content_clip |]; [| discriminate].
  cbn [bind].
  match goal with |- bind ?m _ = _ -> _ => destruct m as [a |] eqn:Ha end;
    [| discriminate].
  cbn [bind].
  assert (Hw : AvatarVideoGenerator.pane_width a = AvatarVideoGenerator.avatar_width self
               /\ AvatarVideoGenerator.pane_x a = 0%Z).
  { destruct (present W avp).
    - destruct (video_file_duration W (Py.or_else avp "")); [| discriminate].
      injection Ha as <-. split; reflexivity.
    - injection Ha as <-. split; reflexivity. }
  destruct Hw as [Hw Hx].
  intros H.
  destruct (present W audio_path).
  - destruct (AudioFileClip W audio_path); [| discriminate].
    injection H as <-. cbn. eexists _, _. repeat split; assumption.
  - injection H as <-. cbn. eexists _, _. repeat split; assumption.
Qed.

(** C7, as stated, fails: on a canvas 1922 pixels wide the avatar pane of a
    composited scene is 480 pixels wide and the content pane 1442, neither
    a quarter nor three quarters of the canvas. *)
Lemma pane_ratio_counterexample :
  exists (clip : AvatarVideoGenerator.Clip) (avatar content : AvatarVideoGenerator.Pane),
    AvatarVideoGenerator._create_avatar_scene_clip
      Stub.world (AvatarVideoGenerator.init (1922, 1080)%Z 30%Z false)
      (Stub.scene (Some 5) (Some "Hello") (Some "a.mp3"))
      (Some "avatar.png") (Some "a.mp3") true "00c0ffee" = Ret clip
    /\ AvatarVideoGenerator.clip_layout clip
       = AvatarVideoGenerator.SplitScreen avatar content (1922, 1080)%Z
    /\ AvatarVideoGenerator.pane_width avatar = 480%Z
    /\ AvatarVideoGenerator.pane_width content = 1442%Z
    /\ ~ (inject_Z (AvatarVideoGenerator.pane_width avatar) / inject_Z 1922 == 1 # 4)
    /\ ~ (inject_Z (AvatarVideoGenerator.pane_width content) / inject_Z 1922 == 3 # 4).
Proof.
  eexists _, _, _.
  split; [vm_compute; reflexivity |].
  split; [reflexivity |].
  split; [reflexivity |].
  split; [reflexivity |].
  split; vm_compute; discriminate.
Qed.

(** C7, amended.  On every avatar-composited scene, for every canvas
    resolution, the avatar pane is [width // 4] wide and starts at the left
    edge, the content pane starts where the avatar pane ends, and the two
    widths sum to the canvas width.  The avatar pane is exactly a quarter
    and the content pane exactly three quarters of the canvas precisely when
    the canvas width is a multiple of 4, as the configured 1920 is. *)
Theorem split_screen_pane_widths
        (W : World) (res : Z * Z) (fps : Z) (use_sadtalker : bool)
        (scene : Scene.t) (avatar_path audio_path : option string)
        (use_placeholder : bool) (urandom : string)
        (clip : AvatarVideoGenerator.Clip) :
  let self := AvatarVideoGenerator.init res fps use_sadtalker in
  AvatarVideoGenerator._create_avatar_scene_clip
    W self scene avatar_path audio_path use_placeholder urandom = Ret clip ->
  exists avatar content : AvatarVideoGenerator.Pane,
    AvatarVideoGenerator.clip_layout clip
    = AvatarVideoGenerator.SplitScreen avatar content res
    /\ AvatarVideoGenerator.pane_width avatar = (fst res / 4)%Z
    /\ (AvatarVideoGenerator.pane_width avatar
        + AvatarVideoGenerator.pane_width content = fst res)%Z
    /\ AvatarVideoGenerator.pane_x avatar = 0%Z
    /\ AvatarVideoGenerator.pane_x content = AvatarVideoGenerator.pane_width avatar
    /\ ((0 < fst res)%Z ->
        ((fst res mod 4 = 0)%Z
         <-> inject_Z (AvatarVideoGenerator.pane_width avatar) / inject_Z (fst res)
             == 1 # 4)
        /\ ((fst res mod 4 = 0)%Z
            <-> inject_Z (AvatarVideoGenerator.pane_width content) / inject_Z (fst res)
                == 3 # 4)).
Proof.
  intros self H.
  destruct (avatar_scene_layout _ _ _ _ _ _ _ _ H)
    as (avatar & content & Hl & Hwa & Hwc & Hxa & Hxc).
  exists avatar, content.
  subst self. cbn [AvatarVideoGenerator.init AvatarVideoGenerator.resolution
                   AvatarVideoGenerator.avatar_width
                   AvatarVideoGenerator.content_width] in *.
  rewrite Hwa, Hwc.
  pose proof (Z.div_mod (fst res) 4 ltac:(lia)) as Hdm.
  pose proof (Z.mod_pos_bound (fst res) 4 ltac:(lia)) as Hmb.
  repeat split; try assumption; try lia.
  - intros Hm. apply ratio_quarter; lia.
  - intros Hq. apply ratio_quarter in Hq; lia.
  - intros Hm. apply ratio_three_quarters; lia.
  - intros Hq. apply ratio_three_quarters in Hq; lia.
Qed.

(** On the configured 1920x1080 canvas the panes of a composited scene are
    480 and 1440 pixels wide: a quarter and three quarters. *)
Lemma split_screen_pane_widths_witness :
  exists avatar content : AvatarVideoGenerator.Pane,
    AvatarVideoGenerator.pane_width avatar = 480%Z
    /\ AvatarVideoGenerator.pane_width content = 1440%Z
    /\ inject_Z (AvatarVideoGenerator.pane_width avatar) / inject_Z 1920 == 1 # 4
    /\ inject_Z (AvatarVideoGenerator.pane_width content) / inject_Z 1920 == 3 # 4.
Proof.
  destruct (split_screen_pane_widths
              Stub.world Config.VIDEO_RESOLUTION Config.VIDEO_FPS false
              (Stub.scene (Some 5) (Some "Hello") (Some "a.mp3"))
              (Some "avatar.png") (Some "a.mp3") true "00c0ffee"
              _ eq_refl)
    as (avatar & content & _ & Hwa & Hsum & _ & _ & Hr).
  exists avatar, content.
  cbn [fst Config.VIDEO_RESOLUTION] in *.
  destruct (Hr ltac:(lia)) as [Ha Hc].
  split; [rewrite Hwa; reflexivity |].
  split; [rewrite Hwa in Hsum; change (1920 / 4)%Z with 480%Z in Hsum; lia |].
  split; [apply Ha; reflexivity | apply Hc; reflexivity].
Defined.

(** ** Lists, enumeration and running sums *)

Lemma combine_app_same {A B : Type} (l1 l2 : list A) (r1 r2 : list B) :
  List.length l1 = List.length r1 ->
  combine (l1 ++ l2) (r1 ++ r2) = combine l1 r1 ++ combine l2 r2.
Proof.
  revert r1. induction l1 as [| a l1 IH]; intros [| b r1] Hlen;
    try discriminate; [reflexivity |].
  cbn. f_equal. apply IH. cbn in Hlen. lia.
Qed.

Lemma enumerate_snoc {A : Type} (l : list A) (x : A) :
  Py.enumerate (l ++ [x]) = Py.enumerate l ++ [(List.length l, x)].
Proof.
  unfold Py.enumerate.
  rewrite length_app, seq_app. cbn [List.length seq Nat.add].
  rewrite combine_app_same by apply length_seq. reflexivity.
Qed.

Lemma enumerate_length {A : Type} (l : list A) :
  List.length (Py.enumerate l) = List.length l.
Proof.
  unfold Py.enumerate. rewrite length_combine, length_seq. lia.
Qed.

Lemma enumerate_fst_lt {A : Type} (l : list A) (e : nat * A) :
  In e (Py.enumerate l) -> (fst e < List.length l)%nat.
Proof.
  destruct e as [i x]. unfold Py.enumerate. intros H.
  apply in_combine_l in H. apply in_seq in H. cbn. lia.
Qed.

Lemma sum_snoc (l : list Q) (x : Q) : Py.sum (l ++ [x]) = Py.sum l + x.
Proof. unfold Py.sum. rewrite fold_left_app. reflexivity. Qed.

(** ** Caption overlay engine *)

Lemma truthy_or_else (o : option string) :
  Py.truthy (Py.or_else o "") = Py.truthy_opt o.
Proof.
  destruct o as [s |]; [| reflexivity].
  cbn. destruct (Py.truthy s) eqn:H; [assumption | reflexivity].
Qed.

Lemma caption_clip_start (W : World) (res : Z * Z) (text : string) (t d : Q) :
  cap_start (caption_clip W res text t d) = t.
Proof. destruct res. reflexivity. Qed.

Lemma caption_clip_duration (W : World) (res : Z * Z) (text : string) (t d : Q) :
  cap_duration (caption_clip W res text t d) = d.
Proof. destruct res. reflexivity. Qed.

Section CaptionTiming.
Variable W : World.
Variable self : VideoGenerator.t.
Variable paths : list (option string).

(** The resolved durations of the scenes, in script order. *)
Let resolved (scenes : list Scene.t) : list Q :=
  map (fun e : nat * Scene.t => VideoGenerator.caption_duration W paths (fst e) (snd e))
      (Py.enumerate scenes).

(** The caption of one scene, placed by the start offsets of [scenes]. *)
Let caption_of (scenes : list Scene.t) (e : nat * Scene.t) : CaptionClip :=
  caption_clip W (VideoGenerator.resolution self)
               (Py.or_else (Scene.dialogue (snd e)) "")
               (start_offset (resolved scenes) (fst e))
               (VideoGenerator.caption_duration W paths (fst e) (snd e)).

Lemma resolved_length (scenes : list Scene.t) :
  List.length (resolved scenes) = List.length scenes.
Proof. unfold resolved. rewrite length_map. apply enumerate_length. Qed.

Lemma resolved_snoc (scenes : list Scene.t) (s : Scene.t) :
  resolved (scenes ++ [s])
  = resolved scenes
    ++ [VideoGenerator.caption_duration W paths (List.length scenes) s].
Proof. unfold resolved. rewrite enumerate_snoc, map_app. reflexivity. Qed.

Lemma caption_of_snoc (scenes : list Scene.t) (s : Scene.t) (e : nat * Scene.t) :
  In e (Py.enumerate scenes) ->
  caption_of (scenes ++ [s]) e = caption_of scenes e.
Proof.
  intros Hin. apply enumerate_fst_lt in Hin.
  unfold caption_of, start_offset. rewrite resolved_snoc, firstn_app.
  rewrite resolved_length.
  replace (fst e - List.length scenes)%nat with 0%nat by lia.
  cbn [firstn]. rewrite app_nil_r. reflexivity.
Qed.

(** The loop, in closed form: one caption for each scene with dialogue, in
    script order, and a cursor that has advanced by every scene. *)
Lemma caption_loop_closed_form (scenes : list Scene.t) :
  VideoGenerator.caption_loop W self scenes paths
  = (map (caption_of scenes)
         (filter (fun e : nat * Scene.t => has_dialogue (snd e)) (Py.enumerate scenes)),
     Py.sum (resolved scenes)).
Proof.
  unfold VideoGenerator.caption_loop.
  induction scenes as [| s scenes IH] using rev_ind; [reflexivity |].
  rewrite enumerate_snoc, fold_left_app, IH. cbn [fold_left].
  unfold VideoGenerator.caption_scene at 1.
  rewrite filter_app, map_app, resolved_snoc, sum_snoc.
  rewrite truthy_or_else. cbn [filter snd fst].
  assert (Hold : map (caption_of (scenes ++ [s]))
                     (filter (fun e : nat * Scene.t => has_dialogue (snd e))
                             (Py.enumerate scenes))
                 = map (caption_of scenes)
                       (filter (fun e : nat * Scene.t => has_dialogue (snd e))
                               (Py.enumerate scenes))).
  { apply map_ext_in. intros e He. apply filter_In in He.
    apply caption_of_snoc. apply He. }
  rewrite Hold. f_equal.
  unfold has_dialogue.
  destruct (Py.truthy_opt (Scene.dialogue s)); [| cbn [map]; now rewrite app_nil_r].
  cbn [map]. f_equal. f_equal.
  unfold caption_of, start_offset. cbn [fst snd].
  rewrite resolved_snoc, firstn_app, resolved_length, Nat.sub_diag.
  cbn [firstn]. rewrite app_nil_r, <- resolved_length, firstn_all.
  reflexivity.
Qed.

End CaptionTiming.

(** The caption engine of [AvatarVideoGenerator] is that of
    [VideoGenerator] on the same canvas. *)
Lemma avatar_caption_loop_eq (W : World) (ag : AvatarVideoGenerator.t)
      (scenes : list Scene.t) (paths : list (option string)) :
  AvatarVideoGenerator.caption_loop W ag scenes paths
  = VideoGenerator.caption_loop W
      {| VideoGenerator.resolution := AvatarVideoGenerator.resolution ag;
         VideoGenerator.fps := AvatarVideoGenerator.fps ag |}
      scenes paths.
Proof. reflexivity. Qed.

(** C2.  For every ordered list of scenes, each caption engine emits, in
    script order, exactly one caption clip for each scene whose dialogue is
    not empty and none for the others; the clip of scene [i] starts at the
    sum of the resolved durations of the scenes strictly before [i]
    (dialogue or not) and lasts the resolved duration of scene [i]; the
    cursor ends at the sum of all resolved durations. *)
Theorem captions_follow_cursor
        (W : World) (vg : VideoGenerator.t) (ag : AvatarVideoGenerator.t)
        (scenes : list Scene.t) (paths : list (option string)) :
  let resolved :=
    map (fun e : nat * Scene.t =>
           VideoGenerator.caption_duration W paths (fst e) (snd e))
        (Py.enumerate scenes) in
  let expected (resolution : Z * Z) :=
    map (fun e : nat * Scene.t =>
           caption_clip W resolution
                        (Py.or_else (Scene.dialogue (snd e)) "")
                        (start_offset resolved (fst e))
                        (nth (fst e) resolved 0))
        (filter (fun e : nat * Scene.t => has_dialogue (snd e))
                (Py.enumerate scenes)) in
  VideoGenerator.caption_loop W vg scenes paths
  = (expected (VideoGenerator.resolution vg), Py.sum resolved)
  /\ AvatarVideoGenerator.caption_loop W ag scenes paths
     = (expected (AvatarVideoGenerator.resolution ag), Py.sum resolved)
  /\ (forall video : VideoGenerator.Primary,
         VideoGenerator.v_overlays
           (VideoGenerator._add_captions_timed W vg video scenes paths)
         = expected (VideoGenerator.resolution vg))
  /\ (forall video : AvatarVideoGenerator.Primary,
         AvatarVideoGenerator.v_overlays
           (AvatarVideoGenerator._add_captions_timed W ag video scenes paths)
         = expected (AvatarVideoGenerator.resolution ag)).
Proof.
  intros resolved expected.
  assert (Hnth : forall (res : Z * Z),
             expected res
             = map (fun e : nat * Scene.t =>
                      caption_clip W res
                                   (Py.or_else (Scene.dialogue (snd e)) "")
                                   (start_offset resolved (fst e))
                                   (VideoGenerator.caption_duration
                                      W paths (fst e) (snd e)))
                   (filter (fun e : nat * Scene.t => has_dialogue (snd e))
                           (Py.enumerate scenes))).
  { intros res. unfold expected. apply map_ext_in. intros [i s] Hin.
    apply filter_In in Hin. destruct Hin as [Hin _].
    cbn [fst snd]. f_equal.
    unfold resolved.
    assert (Hi : nth_error (Py.enumerate scenes) i = Some (i, s)).
    { clear - Hin. induction scenes as [| y l IH] using rev_ind; [destruct Hin |].
      rewrite enumerate_snoc in *. apply in_app_iff in Hin.
      destruct Hin as [Hin | [Hin | []]].
      - rewrite nth_error_app1; [apply IH, Hin |].
        apply enumerate_fst_lt in Hin. rewrite enumerate_length. exact Hin.
      - injection Hin as <- <-.
        rewrite nth_error_app2; rewrite enumerate_length; [| lia].
        rewrite Nat.sub_diag. reflexivity. }
    apply (map_nth_error
             (fun e : nat * Scene.t =>
                VideoGenerator.caption_duration W paths (fst e) (snd e))) in Hi.
    apply nth_error_nth with (d := 0) in Hi. exact Hi. }
  assert (Hvg : forall self : VideoGenerator.t,
             VideoGenerator.caption_loop W self scenes paths
             = (expected (VideoGenerator.resolution self), Py.sum resolved)).
  { intros self. rewrite Hnth. apply caption_loop_closed_form. }
  split; [apply Hvg |].
  split; [rewrite avatar_caption_loop_eq; apply Hvg |].
  split.
  - intros video. unfold VideoGenerator._add_captions_timed.
    cbn [VideoGenerator.v_overlays]. rewrite Hvg. reflexivity.
  - intros video. unfold AvatarVideoGenerator._add_captions_timed.
    cbn [AvatarVideoGenerator.v_overlays].
    rewrite avatar_caption_loop_eq, Hvg. reflexivity.
Qed.

(** Three scenes of nominal duration 5 whose audio measures 4.8, the second
    without dialogue: two captions, from 0 and from 9.6, each lasting 4.8,
    and a cursor that ends at 14.4. *)
Lemma captions_follow_cursor_witness :
  let scenes :=
    [Stub.scene (Some 5) (Some "Hello world") (Some "a.mp3");
     Stub.scene (Some 5) None (Some "a.mp3");
     Stub.scene (Some 5) (Some "Goodbye") (Some "a.mp3")] in
  let paths := [Some "a.mp3"; Some "a.mp3"; Some "a.mp3"] in
  map cap_span (fst (VideoGenerator.caption_loop Stub.world VideoGenerator.init scenes paths))
  = [(start_offset [24 # 5; 24 # 5; 24 # 5] 0, 24 # 5);
     (start_offset [24 # 5; 24 # 5; 24 # 5] 2, 24 # 5)]
  /\ snd (VideoGenerator.caption_loop Stub.world VideoGenerator.init scenes paths)
     == 72 # 5.
Proof.
  intros scenes paths.
  destruct (captions_follow_cursor
              Stub.world VideoGenerator.init
              (AvatarVideoGenerator.init Config.VIDEO_RESOLUTION Config.VIDEO_FPS false)
              scenes paths) as [H _].
  rewrite H. cbn [fst snd]. split; vm_compute; reflexivity.
Defined.

Lemma caption_loop_snoc (W : World) (self : VideoGenerator.t)
      (scenes : list Scene.t) (s : Scene.t) (paths : list (option string)) :
  VideoGenerator.caption_loop W self (scenes ++ [s]) paths
  = VideoGenerator.caption_scene W self paths
      (VideoGenerator.caption_loop W self scenes paths) (List.length scenes, s).
Proof.
  unfold VideoGenerator.caption_loop.
  rewrite enumerate_snoc, fold_left_app. reflexivity.
Qed.

Lemma override_captions_snoc (f : nat -> option string) (scenes : list Scene.t)
      (s : Scene.t) :
  override_captions f (scenes ++ [s])
  = override_captions f scenes ++ [Scene.with_captions (f (List.length scenes)) s].
Proof. unfold override_captions. rewrite enumerate_snoc, map_app. reflexivity. Qed.

Lemma override_captions_length (f : nat -> option string) (scenes : list Scene.t) :
  List.length (override_captions f scenes) = List.length scenes.
Proof. unfold override_captions. rewrite length_map. apply enumerate_length. Qed.

(** The caption loop does not look at the override. *)
Lemma caption_loop_override (W : World) (self : VideoGenerator.t)
      (f : nat -> option string) (scenes : list Scene.t)
      (paths : list (option string)) :
  VideoGenerator.caption_loop W self (override_captions f scenes) paths
  = VideoGenerator.caption_loop W self scenes paths.
Proof.
  induction scenes as [| s scenes IH] using rev_ind; [reflexivity |].
  rewrite override_captions_snoc, !caption_loop_snoc, IH,
    override_captions_length.
  destruct (VideoGenerator.caption_loop W self scenes paths) as [overlays t].
  reflexivity.
Qed.

Lemma enumerate_map_snd {A : Type} (l : list A) : map snd (Py.enumerate l) = l.
Proof.
  induction l as [| x l IH] using rev_ind; [reflexivity |].
  rewrite enumerate_snoc, map_app, IH. reflexivity.
Qed.

Lemma filter_map_snd {A B : Type} (P : B -> bool) (l : list (A * B)) :
  map snd (filter (fun e => P (snd e)) l) = filter P (map snd l).
Proof.
  induction l as [| e l IH]; [reflexivity |].
  cbn. destruct (P (snd e)); cbn; rewrite IH; reflexivity.
Qed.

(** C10.  The caption engines render the dialogue of each scene and nothing
    else: whatever caption text override the scenes carry, the video with
    its captions is the one obtained without any override, and the lines
    drawn on each caption clip are the wrapped dialogue of its scene. *)
Theorem caption_override_ignored
        (W : World) (vg : VideoGenerator.t) (ag : AvatarVideoGenerator.t)
        (f : nat -> option string) (scenes : list Scene.t)
        (paths : list (option string)) :
  (forall video : VideoGenerator.Primary,
      VideoGenerator._add_captions_timed W vg video (override_captions f scenes) paths
      = VideoGenerator._add_captions_timed W vg video scenes paths)
  /\ (forall video : AvatarVideoGenerator.Primary,
         AvatarVideoGenerator._add_captions_timed
           W ag video (override_captions f scenes) paths
         = AvatarVideoGenerator._add_captions_timed W ag video scenes paths)
  /\ (forall video : VideoGenerator.Primary,
         map cap_lines
             (VideoGenerator.v_overlays
                (VideoGenerator._add_captions_timed
                   W vg video (override_captions f scenes) paths))
         = map (fun s : Scene.t =>
                  let width := fst (VideoGenerator.resolution vg) in
                  draw_caption W width
                    (wrap_caption W width (Py.or_else (Scene.dialogue s) "")))
               (filter has_dialogue scenes)).
Proof.
  split; [| split].
  - intros video. unfold VideoGenerator._add_captions_timed.
    rewrite caption_loop_override. reflexivity.
  - intros video. unfold AvatarVideoGenerator._add_captions_timed.
    rewrite !avatar_caption_loop_eq, caption_loop_override. reflexivity.
  - intros video. unfold VideoGenerator._add_captions_timed.
    cbn [VideoGenerator.v_overlays].
    rewrite caption_loop_override, caption_loop_closed_form. cbn [fst].
    rewrite map_map.
    replace (filter has_dialogue scenes)
      with (map snd (filter (fun e : nat * Scene.t => has_dialogue (snd e))
                            (Py.enumerate scenes)))
      by (rewrite filter_map_snd, enumerate_map_snd; reflexivity).
    rewrite map_map.
    apply map_ext. intros [i s]. cbn [snd fst].
    destruct (VideoGenerator.resolution vg) as [width height]. reflexivity.
Qed.

(** ** Caption layout *)

Lemma no_space_app (s : string) (c : ascii) :
  no_space s = true -> Py.isspace c = false ->
  no_space (s ++ String c "") = true.
Proof.
  intros Hs Hc. induction s as [| a s IH]; cbn.
  - rewrite Hc. reflexivity.
  - cbn in Hs. apply andb_true_iff in Hs. destruct Hs as [Ha Hs].
    rewrite Ha, IH by assumption. reflexivity.
Qed.

Lemma split_from_words (s word : string) :
  no_space word = true ->
  Forall (fun w => no_space w = true) (Py.split_from word s).
Proof.
  revert word. induction s as [| c s IH]; intros word Hw; cbn.
  - destruct (Py.truthy word); auto.
  - destruct (Py.isspace c) eqn:Hc.
    + destruct (Py.truthy word); [constructor; [assumption |] |]; apply IH; reflexivity.
    + apply IH. apply no_space_app; assumption.
Qed.

Lemma split_words (text : string) :
  Forall (fun w => no_space w = true) (Py.split text).
Proof. apply split_from_words. reflexivity. Qed.

Lemma rstrip_word (w : string) : no_space w = true -> Py.rstrip w = w.
Proof.
  induction w as [| c w IH]; [reflexivity |].
  cbn. intros H. apply andb_true_iff in H. destruct H as [Hc Hw].
  rewrite IH by assumption. apply negb_true_iff in Hc. rewrite Hc.
  destruct w; reflexivity.
Qed.

Lemma lstrip_word (w : string) : no_space w = true -> Py.lstrip w = w.
Proof.
  destruct w as [| c w]; [reflexivity |].
  cbn. intros H. apply andb_true_iff in H. destruct H as [Hc _].
  apply negb_true_iff in Hc. rewrite Hc. reflexivity.
Qed.

(** The first word of a line: [('' + ' ' + w).strip()] is [w]. *)
Lemma strip_first_word (w : string) :
  no_space w = true -> Py.strip ("" ++ " " ++ w) = w.
Proof.
  intros H. unfold Py.strip. cbn [String.append Py.lstrip].
  change (Py.isspace " ") with true. cbn iota.
  rewrite lstrip_word, rstrip_word by assumption. reflexivity.
Qed.

Section Wrapping.
Variable W : World.
Variable max_width : Z.

Let run (words : list string) (st : list string * string) : list string * string :=
  fold_left (wrap_word W max_width) words st.

Let flush (st : list string * string) : list string :=
  if Py.truthy (snd st) then fst st ++ [snd st] else fst st.

Lemma wrap_words_run (words : list string) :
  wrap_words W max_width words = flush (run words ([], "")).
Proof.
  unfold wrap_words, flush, run.
  destruct (fold_left (wrap_word W max_width) words ([], "")). reflexivity.
Qed.

(** Lines already closed are never touched again. *)
Lemma run_closed_lines (words : list string) (closed lines : list string)
      (current : string) :
  run words (closed ++ lines, current)
  = (closed ++ fst (run words (lines, current)), snd (run words (lines, current))).
Proof.
  revert lines current. induction words as [| w words IH]; intros lines current.
  - reflexivity.
  - unfold run in *. cbn [fold_left]. unfold wrap_word at 2 4 6.
    destruct (bbox2 (textbbox W (Py.strip (current ++ " " ++ w))) <=? max_width)%Z.
    + apply IH.
    + destruct (Py.truthy current).
      * rewrite <- app_assoc. apply IH.
      * apply IH.
Qed.

Lemma wrap_word_first (w : string) :
  no_space w = true -> wrap_word W max_width ([], "") w = ([], w).
Proof.
  intros H. unfold wrap_word. rewrite strip_first_word by assumption.
  destruct (bbox2 (textbbox W w) <=? max_width)%Z; reflexivity.
Qed.

(** When a word does not fit on a non-empty current line, that line is
    closed and the layout goes on as if the text began with the word. *)
Lemma wrap_words_break (pre post lines : list string) (w current : string) :
  no_space w = true ->
  run pre ([], "") = (lines, current) ->
  ~ fits W max_width (Py.strip (current ++ " " ++ w)) ->
  current <> "" ->
  wrap_words W max_width (pre ++ w :: post)
  = lines ++ current :: wrap_words W max_width (w :: post).
Proof.
  intros Hw Hpre Hfit Hcur.
  rewrite !wrap_words_run. unfold run in *.
  rewrite fold_left_app, Hpre. cbn [fold_left].
  rewrite wrap_word_first by assumption.
  unfold wrap_word at 2.
  destruct (Z.leb_spec (bbox2 (textbbox W (Py.strip (current ++ " " ++ w)))) max_width)
    as [Hle | Hgt]; [contradiction |].
  assert (Ht : Py.truthy current = true).
  { unfold Py.truthy. destruct (String.eqb_spec current ""); [contradiction | reflexivity]. }
  rewrite Ht.
  change (lines ++ [current]) with (lines ++ [current]).
  rewrite <- (app_nil_r (lines ++ [current])).
  fold (run post ((lines ++ [current]) ++ [], w)).
  rewrite run_closed_lines. unfold flush. cbn [fst snd].
  fold (run post ([], w)).
  destruct (Py.truthy (snd (run post ([], w))));
    rewrite <- ?app_assoc; reflexivity.
Qed.

(** When it fits, the word joins the current line. *)
Lemma wrap_word_join (pre lines : list string) (w current : string) :
  run pre ([], "") = (lines, current) ->
  fits W max_width (Py.strip (current ++ " " ++ w)) ->
  run (pre ++ [w]) ([], "") = (lines, Py.strip (current ++ " " ++ w)).
Proof.
  intros Hpre Hfit. unfold run in *.
  rewrite fold_left_app, Hpre. cbn [fold_left]. unfold wrap_word.
  unfold fits in Hfit. apply Z.leb_le in Hfit. rewrite Hfit. reflexivity.
Qed.

(** Every line, closed or current, fits or is one of the words. *)
Lemma run_lines_fit (words all : list string) (lines : list string) (current : string) :
  incl words all ->
  (forall l, In l lines -> fits W max_width l \/ In l all) ->
  (current = "" \/ fits W max_width current \/ In current all) ->
  (forall l, In l (fst (run words (lines, current))) -> fits W max_width l \/ In l all)
  /\ (snd (run words (lines, current)) = ""
      \/ fits W max_width (snd (run words (lines, current)))
      \/ In (snd (run words (lines, current))) all).
Proof.
  revert lines current. induction words as [| w words IH];
    intros lines current Hincl Hlines Hcur.
  - split; assumption.
  - unfold run in *. cbn [fold_left].
    assert (Hw : In w all) by (apply Hincl; left; reflexivity).
    assert (Hincl' : incl words all) by (intros x Hx; apply Hincl; right; exact Hx).
    assert (Hstep :
              (forall l, In l (fst (wrap_word W max_width (lines, current) w)) ->
                         fits W max_width l \/ In l all)
              /\ (snd (wrap_word W max_width (lines, current) w) = ""
                  \/ fits W max_width (snd (wrap_word W max_width (lines, current) w))
                  \/ In (snd (wrap_word W max_width (lines, current) w)) all)).
    { unfold wrap_word.
      destruct (Z.leb_spec (bbox2 (textbbox W (Py.strip (current ++ " " ++ w))))
                           max_width) as [Hle | Hgt]; cbn [fst snd].
      - split; [assumption | right; left; exact Hle].
      - split; [| right; right; exact Hw].
        intros l Hl. destruct (Py.truthy current) eqn:Ht; [| auto].
        apply in_app_iff in Hl. destruct Hl as [Hl | [<- | []]]; [auto |].
        destruct Hcur as [-> | Hcur]; [discriminate | assumption]. }
    destruct (wrap_word W max_width (lines, current) w) as [lines' current'].
    apply IH; [assumption | apply Hstep | apply Hstep].
Qed.

Lemma wrap_words_fit (words : list string) (line : string) :
  In line (wrap_words W max_width words) ->
  fits W max_width line \/ In line words.
Proof.
  rewrite wrap_words_run. unfold flush.
  destruct (run_lines_fit words words [] "" (incl_refl _)
              ltac:(intros l []) ltac:(left; reflexivity)) as [Hl Hc].
  destruct (Py.truthy (snd (run words ([], "")))) eqn:Ht; [| apply Hl].
  intros Hin. apply in_app_iff in Hin. destruct Hin as [Hin | [<- | []]]; [auto |].
  destruct Hc as [Hc | Hc]; [| assumption].
  rewrite Hc in Ht. discriminate.
Qed.

End Wrapping.

(** C8, as stated, fails, in two ways.  Words are never broken: with a
    font 20 pixels a character, on the 1920 pixel canvas (bound 1840), a
    word of a hundred letters is laid out as a line of its own that is 2000
    pixels wide.  And the layout tests the right edge of the bounding box,
    not the width the line is drawn with: with the same font stroked by 2
    pixels, on a canvas of 182 pixels (bound 102), the word "yo" joins "Hi"
    because the right edge of "Hi yo" is at 102, and the line is drawn 104
    pixels wide, although each of the two words fits by itself. *)
Lemma caption_line_exceeds_bound :
  (wrap_caption Stub.world 1920 Stub.long_caption = ["see"; Stub.long_word; "now"]
   /\ ~ fits Stub.world (1920 - 80) Stub.long_word
   /\ rendered_width Stub.world Stub.long_word = 2000%Z)
  /\ (wrap_caption Stub.stroked 182 "Hi yo" = ["Hi yo"]
      /\ Py.split "Hi yo" = ["Hi"; "yo"]
      /\ rendered_width Stub.stroked "Hi" = 44%Z
      /\ rendered_width Stub.stroked "yo" = 44%Z
      /\ bbox2 (textbbox Stub.stroked "Hi yo") = 102%Z
      /\ rendered_width Stub.stroked "Hi yo" = 104%Z)
  /\ ~ (forall (W : World) (width : Z) (text line : string),
           In line (wrap_caption W width text) ->
           (rendered_width W line <= width - 80)%Z)
  /\ ~ (forall (W : World) (width : Z) (text line : string),
           (forall w : string,
               In w (Py.split text) -> (rendered_width W w <= width - 80)%Z) ->
           In line (wrap_caption W width text) ->
           (rendered_width W line <= width - 80)%Z).
Proof.
  split.
  { split; [vm_compute; reflexivity |].
    split; [vm_compute; intros H; apply H; reflexivity |].
    vm_compute; reflexivity. }
  split.
  { repeat (split; [vm_compute; reflexivity |]). vm_compute; reflexivity. }
  split.
  - intros H.
    specialize (H Stub.world 1920%Z Stub.long_caption Stub.long_word).
    vm_compute in H. apply H; [| reflexivity]. right. left. reflexivity.
  - intros H.
    specialize (H Stub.stroked 182%Z "Hi yo" "Hi yo").
    assert (Hw : forall w : string,
               In w (Py.split "Hi yo") ->
               (rendered_width Stub.stroked w <= 182 - 80)%Z).
    { intros w Hin. vm_compute in Hin.
      destruct Hin as [<- | [<- | []]]; vm_compute; discriminate. }
    specialize (H Hw). vm_compute in H. apply H; [| reflexivity].
    left. reflexivity.
Qed.

(** C8, amended.  The caption layout of both classes packs the words of the
    dialogue greedily against the bound [width - 80], measuring a line by
    the right edge of its bounding box, which is the width the line is
    drawn with less the overhang of the box to the left of the origin: a
    word whose candidate line has its right edge within the bound joins the
    current line; before a word whose candidate line has not, a non-empty
    current line is closed and the layout continues as if the text began
    with that word.  Words are never broken.  Consequently the width a line
    is drawn with exceeds the bound by at most the overhang of its box,
    unless the line is a single word that does not fit by itself; when
    every word fits by itself, no line is an exception. *)
Theorem caption_wrap_greedy (W : World) (width : Z) (text : string) :
  let max_width := (width - 80)%Z in
  let words := Py.split text in
  (forall line : string,
      fits W max_width line
      <-> (rendered_width W line <= max_width + overhang W line)%Z)
  /\ (forall (pre post lines : list string) (w current : string),
         words = pre ++ w :: post ->
         fold_left (wrap_word W max_width) pre ([], "") = (lines, current) ->
         (fits W max_width (Py.strip (current ++ " " ++ w)) ->
          fold_left (wrap_word W max_width) (pre ++ [w]) ([], "")
          = (lines, Py.strip (current ++ " " ++ w)))
         /\ (~ fits W max_width (Py.strip (current ++ " " ++ w)) ->
             current <> "" ->
             wrap_caption W width text
             = lines ++ current :: wrap_words W max_width (w :: post)))
  /\ (forall line : string,
         In line (wrap_caption W width text) ->
         (rendered_width W line <= max_width + overhang W line)%Z
         \/ (In line words
             /\ (max_width + overhang W line < rendered_width W line)%Z))
  /\ ((forall w : string, In w words -> fits W max_width w) ->
      forall line : string,
        In line (wrap_caption W width text) ->
        (rendered_width W line <= max_width + overhang W line)%Z).
Proof.
  intros max_width words.
  assert (Hmeasure : forall line : string,
             fits W max_width line
             <-> (rendered_width W line <= max_width + overhang W line)%Z).
  { intros line. unfold fits, rendered_width, overhang. lia. }
  assert (Hfit : forall line : string,
             In line (wrap_caption W width text) ->
             fits W max_width line \/ (In line words /\ ~ fits W max_width line)).
  { intros line Hin. unfold wrap_caption in Hin.
    apply wrap_words_fit in Hin. fold words max_width in Hin.
    destruct (Z.le_gt_cases (bbox2 (textbbox W line)) max_width) as [Hle | Hgt].
    - left. exact Hle.
    - destruct Hin as [Hin | Hin]; [left; exact Hin |].
      right. split; [exact Hin |]. unfold fits. lia. }
  split; [exact Hmeasure |].
  split; [| split].
  - intros pre post lines w current Hwords Hpre. split.
    + intros Hf. apply wrap_word_join; assumption.
    + intros Hf Hcur. unfold wrap_caption. fold words max_width.
      rewrite Hwords. apply wrap_words_break; try assumption.
      pose proof (split_words text) as Hall. fold words in Hall.
      rewrite Hwords in Hall. rewrite Forall_forall in Hall.
      apply Hall. apply in_app_iff. right. left. reflexivity.
  - intros line Hin. destruct (Hfit line Hin) as [Hl | [Hw Hn]].
    + left. apply Hmeasure, Hl.
    + right. split; [exact Hw |].
      apply Z.nle_gt. intros Hle. apply Hn, Hmeasure, Hle.
  - intros Hwords line Hin. apply Hmeasure.
    destruct (Hfit line Hin) as [Hl | [Hw _]]; [exact Hl | apply Hwords, Hw].
Qed.

(** The dialogue "Hello world" on a line that only holds "Hello" is laid
    out as the two lines "Hello" and "world", both drawn within the
    bound. *)
Lemma caption_wrap_greedy_witness :
  wrap_caption Stub.world 200 "Hello world" = ["Hello"; "world"]
  /\ Forall (fun line : string => (rendered_width Stub.world line <= 120)%Z)
            (wrap_caption Stub.world 200 "Hello world").
Proof.
  destruct (caption_wrap_greedy Stub.world 200 "Hello world")
    as (_ & Hgreedy & _ & Hbound).
  split.
  - destruct (Hgreedy ["Hello"] [] [] "world" "Hello" eq_refl eq_refl) as [_ Hbreak].
    apply Hbreak.
    + vm_compute. intros H. apply H. reflexivity.
    + discriminate.
  - apply Forall_forall. intros line Hin.
    assert (Ho : overhang Stub.world line = 0%Z) by reflexivity.
    rewrite <- (Z.add_0_r 120), <- Ho. apply Hbound; [| exact Hin].
    intros w [<- | [<- | []]]; vm_compute; discriminate.
Defined.

(** ** Transition stitcher *)

Lemma cumsum_from_last (ds : list Q) (acc : Q) :
  last (acc :: cumsum_from acc ds) 0 = fold_left Qplus ds acc.
Proof.
  revert acc. induction ds as [| d ds IH]; intros acc; [reflexivity |].
  cbn [cumsum_from fold_left]. rewrite <- IH. reflexivity.
Qed.

Lemma maximum0_last (a : Q) (l : list Q) :
  last (maximum0 (a :: l)) 0 = Qmax 0 (last (a :: l) 0).
Proof.
  revert a. induction l as [| b l IH]; intros a; [reflexivity |].
  change (last (maximum0 (a :: b :: l)) 0) with (last (maximum0 (b :: l)) 0).
  change (last (a :: b :: l) 0) with (last (b :: l) 0). apply IH.
Qed.

(** The duration a concatenation declares: the sum of the durations it
    was given, clamped at 0. *)
Lemma timings_last (ds : list Q) :
  last (concatenation_timings ds) 0 = Qmax 0 (Py.sum ds).
Proof.
  unfold concatenation_timings. cbn [cumsum].
  rewrite maximum0_last, cumsum_from_last. reflexivity.
Qed.

(** The clamp is idle on what is not negative. *)
Lemma Qmax0_nonneg (x : Q) : 0 <= x -> Qmax 0 x == x.
Proof. apply Q.max_r. Qed.

Lemma sum_singleton (d : Q) : Py.sum [d] == d.
Proof. unfold Py.sum. cbn. apply Qplus_0_l. Qed.

Lemma start_offsets_shift (g : Q -> Q) (d acc : Q) (ds : list Q) (n : nat) :
  map (fun i => g (fold_left Qplus (firstn i (d :: ds)) acc)) (seq 1 n)
  = map (fun i => g (fold_left Qplus (firstn i ds) (acc + d))) (seq 0 n).
Proof. rewrite <- seq_shift, map_map. reflexivity. Qed.

Lemma fold_plus_acc (l : list Q) (a : Q) : fold_left Qplus l a == a + Py.sum l.
Proof.
  unfold Py.sum. revert a. induction l as [| x l IH]; intros a; cbn [fold_left].
  - lra.
  - rewrite (IH (a + x)), (IH (0 + x)). lra.
Qed.

Lemma sum_app (l1 l2 : list Q) : Py.sum (l1 ++ l2) == Py.sum l1 + Py.sum l2.
Proof.
  unfold Py.sum at 1. rewrite fold_left_app. apply fold_plus_acc.
Qed.

Lemma sum_cons (x : Q) (l : list Q) : Py.sum (x :: l) == x + Py.sum l.
Proof.
  change (x :: l) with ([x] ++ l). rewrite sum_app, sum_singleton. reflexivity.
Qed.

Lemma sum_nonneg (l : list Q) : (forall x, In x l -> 0 <= x) -> 0 <= Py.sum l.
Proof.
  induction l as [| x l IH]; intros H.
  - unfold Py.sum. cbn. lra.
  - rewrite sum_cons.
    pose proof (H x (or_introl eq_refl)).
    pose proof (IH (fun y Hy => H y (or_intror Hy))). lra.
Qed.



Section Stitcher.
Variable W : World.

Lemma stitch_clip_last (final_clips : list VideoGenerator.Clip)
      (curr_clip : VideoGenerator.Clip) :
  exists c : VideoGenerator.Clip,
    VideoGenerator.stitch_clip W final_clips curr_clip = final_clips ++ [c]
    /\ VideoGenerator.clip_duration c = VideoGenerator.clip_duration curr_clip
    /\ VideoGenerator.clip_start c = VideoGenerator.clip_start curr_clip
    /\ VideoGenerator.clip_visual c = VideoGenerator.clip_visual curr_clip
    /\ VideoGenerator.clip_audio c = VideoGenerator.clip_audio curr_clip.
Proof.
  unfold VideoGenerator.stitch_clip, VideoGenerator.crossfade.
  destruct (Py.gt _ _ && Py.gt _ _);
    [destruct (has_with_crossfadein W); [| destruct (has_fx_crossfadein W)] |];
    eexists; (split; [reflexivity | repeat split]).
Qed.

Lemma stitch_fold (rest acc : list VideoGenerator.Clip) :
  map VideoGenerator.clip_duration (fold_left (VideoGenerator.stitch_clip W) rest acc)
  = map VideoGenerator.clip_duration (acc ++ rest)
  /\ map VideoGenerator.clip_start (fold_left (VideoGenerator.stitch_clip W) rest acc)
     = map VideoGenerator.clip_start (acc ++ rest).
Proof.
  revert acc. induction rest as [| c rest IH]; intros acc.
  - rewrite app_nil_r. split; reflexivity.
  - cbn [fold_left].
    destruct (stitch_clip_last acc c) as (c' & -> & Hd & Hs & _).
    destruct (IH (acc ++ [c'])) as [IHd IHs]. rewrite IHd, IHs.
    rewrite <- !app_assoc, !map_app. cbn [map app]. rewrite Hd, Hs.
    split; reflexivity.
Qed.

Lemma stitch_timing (clips : list VideoGenerator.Clip) :
  map VideoGenerator.clip_duration (VideoGenerator.stitch W clips)
  = map VideoGenerator.clip_duration clips
  /\ map VideoGenerator.clip_start (VideoGenerator.stitch W clips)
     = map VideoGenerator.clip_start clips.
Proof.
  destruct clips as [| c0 rest]; [split; reflexivity |].
  apply (stitch_fold rest [c0]).
Qed.

Lemma placed_clips (clips : list VideoGenerator.Clip) (acc : Q) :
  let ds := map VideoGenerator.clip_duration clips in
  let parts :=
    map (fun ct : VideoGenerator.Clip * Q => VideoGenerator.with_start (fst ct) (snd ct))
        (combine clips (maximum0 (acc :: cumsum_from acc ds))) in
  map VideoGenerator.clip_duration parts = ds
  /\ map VideoGenerator.clip_start parts
     = map (fun i => Qmax 0 (fold_left Qplus (firstn i ds) acc))
           (seq 0 (List.length clips)).
Proof.
  revert acc. induction clips as [| c clips IH]; intros acc; [split; reflexivity |].
  cbn zeta in *.
  cbn [map combine cumsum_from maximum0 List.length seq fst snd firstn fold_left].
  destruct (IH (acc + VideoGenerator.clip_duration c)) as [IHd IHs].
  unfold maximum0 in IHd, IHs. cbn [map] in IHd, IHs.
  rewrite IHd, IHs, (start_offsets_shift (Qmax 0)). split; reflexivity.
Qed.

(** What [concatenate_videoclips] makes of the clips it is given: they keep
    their durations, each starts at the sum of the durations of the clips
    before it and the track lasts the sum of all durations, the sums
    clamped at 0. *)
Lemma concatenate_timing (method : ConcatMethod) (clips : list VideoGenerator.Clip)
      (p : VideoGenerator.Primary) :
  VideoGenerator.concatenate_videoclips W method clips = Ret p ->
  exists (parts : list VideoGenerator.Clip) (total : Q),
    p = VideoGenerator.PConcat parts total
    /\ total = Qmax 0 (Py.sum (map VideoGenerator.clip_duration clips))
    /\ map VideoGenerator.clip_duration parts = map VideoGenerator.clip_duration clips
    /\ map VideoGenerator.clip_start parts
       = map (fun i => Qmax 0 (start_offset (map VideoGenerator.clip_duration clips) i))
             (seq 0 (List.length clips)).
Proof.
  unfold VideoGenerator.concatenate_videoclips.
  destruct (concatenate_ok W method _); [| discriminate].
  intros H. injection H as <-. eexists _, _.
  split; [reflexivity |].
  split; [apply timings_last |].
  exact (placed_clips clips 0).
Qed.

End Stitcher.

(** The same facts for the stitcher of [AvatarVideoGenerator], which is
    written the same way. *)
Section AvatarStitcher.
Variable W : World.






End AvatarStitcher.

(** A clip that [_create_scene_clip] returns lasts the resolved duration of
    its scene and starts at zero. *)
Lemma create_scene_clip_duration (W : World) (scene : Scene.t)
      (audio_path : option string) (c : VideoGenerator.Clip) :
  VideoGenerator._create_scene_clip W scene audio_path = Ret c ->
  VideoGenerator.clip_duration c = VideoGenerator.resolve_duration W scene audio_path
  /\ VideoGenerator.clip_start c = 0.
Proof.
  unfold VideoGenerator._create_scene_clip.
  destruct (VideoGenerator.base_clip W scene _) as [v |]; [| discriminate].
  cbn [bind].
  destruct (present W audio_path).
  - destruct (AudioFileClip W audio_path); [| discriminate].
    intros H. injection H as <-. split; reflexivity.
  - intros H. injection H as <-. split; reflexivity.
Qed.


(** A split-screen clip lasts as long as the longer of its two panes: the
    avatar video as it was read from its file, and the content held for the
    resolved duration. *)
Lemma avatar_scene_clip_duration (W : World) (self : AvatarVideoGenerator.t)
      (scene : Scene.t) (avatar_path audio_path : option string)
      (use_placeholder : bool) (urandom : string) (c : AvatarVideoGenerator.Clip) :
  AvatarVideoGenerator._create_avatar_scene_clip
    W self scene avatar_path audio_path use_placeholder urandom = Ret c ->
  exists avatar content : AvatarVideoGenerator.Pane,
    AvatarVideoGenerator.clip_layout c
    = AvatarVideoGenerator.SplitScreen avatar content
        (AvatarVideoGenerator.resolution self)
    /\ AvatarVideoGenerator.pane_duration content
       = AvatarVideoGenerator.resolve_duration_avatar W scene audio_path
    /\ AvatarVideoGenerator.clip_duration c
       = Qmax (AvatarVideoGenerator.pane_duration avatar)
              (AvatarVideoGenerator.pane_duration content).
Proof.
  unfold AvatarVideoGenerator._create_avatar_scene_clip.
  set (duration := AvatarVideoGenerator.resolve_duration_avatar W scene audio_path).
  match goal with |- bind ?m _ = _ -> _ => destruct m as [avp |] end;
    [| discriminate].
  cbn [bind].
  destruct (AvatarVideoGenerator._generate_content_visual W scene duration)
    as [content_clip |] eqn:Hc; [| discriminate].
  assert (Hd : ic_duration content_clip = duration).
  { unfold AvatarVideoGenerator._generate_content_visual in Hc.
    match type of Hc with bind ?m _ = _ => destruct m as [vd |] end;
      [| discriminate].
    cbn [bind] in Hc.
    match type of Hc with bind ?m _ = _ => destruct m as [img |] end;
      [| discriminate].
    cbn [bind] in Hc. injection Hc as <-. reflexivity. }
  cbn [bind].
  match goal with |- bind ?m _ = _ -> _ => destruct m as [a |] end;
    [| discriminate].
  cbn [bind]. intros H.
  destruct (present W audio_path).
  - destruct (AudioFileClip W audio_path); [| discriminate].
    injection H as <-. cbn. eexists _, _. repeat split. exact Hd.
  - injection H as <-. cbn. eexists _, _. repeat split. exact Hd.
Qed.




(** ** Timeline assembler *)

(** The clip loop of [generate] keeps, in script order, the clip of every
    scene that could be built and nothing for the others. *)
Lemma build_clips_usable (W : World) (scenes : list Scene.t)
      (paths : list (option string)) :
  VideoGenerator.build_clips W scenes paths
  = flat_map (usable_clip W paths) (Py.enumerate scenes).
Proof.
  unfold VideoGenerator.build_clips.
  induction scenes as [| s scenes IH] using rev_ind; [reflexivity |].
  rewrite enumerate_snoc, fold_left_app, flat_map_app, IH.
  cbn [fold_left flat_map]. rewrite app_nil_r.
  unfold VideoGenerator.build_clip, usable_clip. cbn [fst snd].
  destruct (nth_error paths (List.length scenes)) as [audio_path |];
    [| now rewrite app_nil_r].
  destruct (VideoGenerator._create_scene_clip W s audio_path);
    [reflexivity | now rewrite app_nil_r].
Qed.

(** [generate] returns [None] exactly when there is no scene or no scene
    clip could be built. *)
Lemma generate_none_iff (W : World) (self : VideoGenerator.t)
      (script : VideoGenerator.Script) (target_duration : Z) (urandom : string) :
  let scenes :=
    match VideoGenerator.script_scenes script with
    | Some l => l
    | None => []
    end in
  VideoGenerator.generate W self script target_duration urandom = Ret None
  <-> scenes = []
      \/ VideoGenerator.build_clips W scenes (VideoGenerator.voiceover_paths W scenes)
         = [].
Proof.
  intros scenes. unfold VideoGenerator.generate. fold scenes.
  destruct scenes as [| s0 scenes'] eqn:Hs; [tauto |].
  destruct (VideoGenerator.build_clips W (s0 :: scenes') _) as [| c0 clips] eqn:Hc;
    [tauto |].
  split; [| intros [H | H]; discriminate].
  destruct (VideoGenerator.primary_track W (c0 :: clips)) as [[p |] |];
    cbn [bind]; try discriminate.
  destruct (write_ok W _); discriminate.
Qed.

(** C3.  [generate] on a script of two scenes, the first of which cannot be
    built (its pre-supplied image does not open): the build continues and
    returns a video whose primary track holds the clip of the second scene
    only, from 0 to 3.  The caption engine still runs over both scenes: the
    caption of the scene that was left out is shown from 0 for 5 time
    units, and the caption of the second scene starts at 5, after its clip
    has ended; the rendered video lasts 8 instead of 3. *)
Theorem dropped_scene_keeps_caption :
  exists r : VideoGenerator.Rendered,
    VideoGenerator.generate Stub.world VideoGenerator.init
                            Stub.broken_image_script 10 "ab12"
    = Ret (Some r)
    /\ VideoGenerator.v_primary (VideoGenerator.written r)
       = VideoGenerator.PClip (Stub.still 3)
    /\ map cap_span (VideoGenerator.v_overlays (VideoGenerator.written r))
       = [(0, 5); (5, 3)]
    /\ map (fun c => map snd (cap_lines c))
           (VideoGenerator.v_overlays (VideoGenerator.written r))
       = [["Welcome"]; ["Goodbye"]]
    /\ VideoGenerator.video_duration (VideoGenerator.written r) = 8.
Proof.
  eexists. split; [vm_compute; reflexivity |].
  repeat split; vm_compute; reflexivity.
Qed.

(** ** Scene track builder: the visual-source chain *)

Lemma num_images_bounds (d : Q) :
  (2 <= VideoGenerator.num_images d <= 4)%Z.
Proof. unfold VideoGenerator.num_images. lia. Qed.



(** The variants of a sequence: as many as [num_images] says, each lasting
    the same share of the total, each synthesized or else the placeholder. *)
Lemma generate_visual_sequence_parts (W : World) (description : string) (d : Q)
      (v : Visual) :
  VideoGenerator._generate_visual_sequence W description d = Ret v ->
  exists parts : list ImageClip,
    v = Sequence parts
    /\ List.length parts = Z.to_nat (VideoGenerator.num_images d)
    /\ Forall (fun ic : ImageClip =>
                 ic_duration ic = d / inject_Z (VideoGenerator.num_images d)
                 /\ is_variant_image description (ic_image ic))
              parts.
Proof.
  unfold VideoGenerator._generate_visual_sequence, VideoGenerator.concatenate_subclips.
  set (subclips := map _ (seq 0 (Z.to_nat (VideoGenerator.num_images d)))).
  assert (Hlen : List.length subclips = Z.to_nat (VideoGenerator.num_images d)).
  { unfold subclips. rewrite length_map, length_seq. reflexivity. }
  assert (Hall : Forall (fun ic : ImageClip =>
                           ic_duration ic = d / inject_Z (VideoGenerator.num_images d)
                           /\ is_variant_image description (ic_image ic))
                        subclips).
  { unfold subclips. apply Forall_forall. intros ic Hin.
    apply in_map_iff in Hin. destruct Hin as (k & <- & _).
    cbn [ic_duration ic_image]. split; [reflexivity |].
    unfold is_variant_image, VideoGenerator._create_fallback_image.
    destruct (images_generate W _) as [data |]; [left; exists data | right];
      reflexivity. }
  intros H. exists subclips.
  destruct (concatenate_ok W Compose _); cbn [try_except] in H.
  - injection H as <-. auto.
  - destruct (concatenate_ok W Chain _); [| discriminate].
    injection H as <-. auto.
Qed.




(** * Further properties of the code *)

(** ** [VideoGenerator._create_scene_clip]: when it raises, what it returns *)

Lemma base_clip_raises_iff (W : World) (scene : Scene.t) (d : Q) :
  VideoGenerator.base_clip W scene d = Raise
  <-> present W (Scene.image_path scene) = true
      /\ image_open W (Py.or_else (Scene.image_path scene) "") = false.
Proof.
  unfold VideoGenerator.base_clip.
  destruct (present W (Scene.image_path scene)).
  - destruct (image_open W _); split; try discriminate; auto.
    intros [_ H]. discriminate.
  - split; [| intros [H _]; discriminate].
    destruct (Qle_bool 4 d); [| discriminate].
    destruct (VideoGenerator._generate_visual_sequence W _ d); discriminate.
Qed.

(** X1.  [_create_scene_clip] raises in exactly two situations: the scene's
    pre-supplied image file exists but cannot be opened, or the audio file
    exists but cannot be decoded (the duration probe swallows that error,
    the second [AudioFileClip] call that attaches the audio does not).
    Failures of image synthesis, of the language model and of the variant
    concatenation never make it raise. *)
Theorem scene_clip_raises_iff (W : World) (scene : Scene.t) (audio_path : option string) :
  VideoGenerator._create_scene_clip W scene audio_path = Raise
  <-> (present W (Scene.image_path scene) = true
       /\ image_open W (Py.or_else (Scene.image_path scene) "") = false)
      \/ (present W audio_path = true /\ AudioFileClip W audio_path = None).
Proof.
  unfold VideoGenerator._create_scene_clip.
  pose proof (base_clip_raises_iff W scene
                (VideoGenerator.resolve_duration W scene audio_path)) as Hb.
  destruct (VideoGenerator.base_clip W scene _) as [v |]; cbn [bind].
  - assert (Hn : ~ (present W (Scene.image_path scene) = true
                    /\ image_open W (Py.or_else (Scene.image_path scene) "") = false)).
    { intros H. apply Hb in H. discriminate. }
    destruct (present W audio_path).
    + destruct (AudioFileClip W audio_path).
      * split; [discriminate |]. intros [H | [_ H]]; [contradiction | discriminate].
      * split; auto.
    + split; [discriminate |]. intros [H | [H _]]; [contradiction | discriminate].
  - split; [| reflexivity]. intros _. left. apply Hb. reflexivity.
Qed.

(** X2.  A scene without a pre-supplied image whose audio path is missing,
    empty or names a file that does not exist is never an error: the clip
    is built, it is silent, it starts at zero without crossfade and lasts
    the nominal duration of the scene (5 when the script gives none). *)
Theorem scene_clip_without_audio (W : World) (scene : Scene.t)
        (audio_path : option string) :
  present W (Scene.image_path scene) = false ->
  present W audio_path = false ->
  exists c : VideoGenerator.Clip,
    VideoGenerator._create_scene_clip W scene audio_path = Ret c
    /\ VideoGenerator.clip_audio c = None
    /\ VideoGenerator.clip_duration c = nominal_duration scene
    /\ VideoGenerator.clip_start c = 0
    /\ VideoGenerator.clip_crossfadein c = None.
Proof.
  intros Hi Ha.
  unfold VideoGenerator._create_scene_clip.
  destruct (VideoGenerator.base_clip W scene _) as [v |] eqn:Hb.
  - cbn [bind]. rewrite Ha. eexists. split; [reflexivity |].
    cbn. unfold VideoGenerator.resolve_duration. rewrite Ha. repeat split.
  - apply base_clip_raises_iff in Hb. destruct Hb as [H _]. congruence.
Qed.

Lemma scene_clip_without_audio_witness :
  exists c : VideoGenerator.Clip,
    VideoGenerator._create_scene_clip Stub.world
      (Stub.scene None (Some "Hello") (Some "gone.mp3")) (Some "gone.mp3") = Ret c
    /\ VideoGenerator.clip_audio c = None
    /\ VideoGenerator.clip_duration c = 5.
Proof.
  destruct (scene_clip_without_audio Stub.world
              (Stub.scene None (Some "Hello") (Some "gone.mp3")) (Some "gone.mp3")
              eq_refl eq_refl) as (c & Hc & Ha & Hd & _).
  exists c. repeat split; assumption.
Defined.

(** ** [VideoGenerator.generate]: audio entries, clips, result *)

Lemma enumerate_In_nth_error {A : Type} (l : list A) (i : nat) (x : A) :
  In (i, x) (Py.enumerate l) <-> nth_error l i = Some x.
Proof.
  induction l as [| y l IH] using rev_ind.
  - cbn. split; [tauto |]. destruct i; discriminate.
  - rewrite enumerate_snoc, in_app_iff, IH. cbn [In].
    split.
    + intros [H | [H | []]].
      * rewrite nth_error_app1; [assumption |].
        apply nth_error_Some. congruence.
      * injection H as <- <-. rewrite nth_error_app2, Nat.sub_diag; [reflexivity | lia].
    + intros H. destruct (Nat.lt_ge_cases i (List.length l)) as [Hlt | Hge].
      * left. rewrite nth_error_app1 in H; assumption.
      * right. left. rewrite nth_error_app2 in H by assumption.
        destruct (i - List.length l)%nat as [| k] eqn:Hk.
        -- cbn in H. injection H as <-. f_equal. lia.
        -- cbn in H. destruct k; discriminate.
Qed.

Lemma enumerate_nth_error {A : Type} (l : list A) (i : nat) :
  nth_error (Py.enumerate l) i = option_map (pair i) (nth_error l i).
Proof.
  induction l as [| y l IH] using rev_ind.
  - destruct i; reflexivity.
  - rewrite enumerate_snoc.
    destruct (Nat.lt_ge_cases i (List.length l)) as [Hlt | Hge].
    + rewrite (nth_error_app1 (Py.enumerate l))
        by (rewrite enumerate_length; exact Hlt).
      rewrite (nth_error_app1 l) by exact Hlt. exact IH.
    + rewrite (nth_error_app2 (Py.enumerate l))
        by (rewrite enumerate_length; exact Hge).
      rewrite (nth_error_app2 l) by exact Hge. rewrite enumerate_length.
      destruct (i - List.length l)%nat as [| k] eqn:Hk.
      * cbn. do 2 f_equal. lia.
      * cbn. destruct k; reflexivity.
Qed.

Lemma voiceover_paths_nth_error (W : World) (scenes : list Scene.t) (i : nat) :
  nth_error (VideoGenerator.voiceover_paths W scenes) i
  = option_map (VideoGenerator.voiceover_path W i) (nth_error scenes i).
Proof.
  unfold VideoGenerator.voiceover_paths.
  rewrite nth_error_map, enumerate_nth_error.
  destruct (nth_error scenes i); reflexivity.
Qed.

(** X3.  The audio pass of [generate] produces one entry per scene, at the
    scene's own index, so the clip loop finds an entry for every scene.  A
    pre-supplied audio file that exists is used as it is; otherwise a scene
    without dialogue gets no audio, and a scene with dialogue gets the file
    [dummy_assets/speeches/scene_<i+1>.mp3] (numbered from 1) when the
    text-to-speech call returns and no audio when it raises. *)
Theorem voiceover_paths_entries (W : World) (scenes : list Scene.t) :
  List.length (VideoGenerator.voiceover_paths W scenes) = List.length scenes
  /\ forall (i : nat) (s : Scene.t),
       nth_error scenes i = Some s ->
       let path := VideoGenerator.voiceover_path W i s in
       nth_error (VideoGenerator.voiceover_paths W scenes) i = Some path
       /\ (present W (Scene.audio_path s) = true -> path = Scene.audio_path s)
       /\ (present W (Scene.audio_path s) = false ->
           has_dialogue s = false -> path = None)
       /\ (present W (Scene.audio_path s) = false ->
           has_dialogue s = true ->
           let target :=
             ("dummy_assets/speeches/scene_" ++ Py.str_of_nat (i + 1) ++ ".mp3")%string in
           (generate_voiceover W (Py.or_else (Scene.dialogue s) "")
                               (Some (Py.get (Scene.character_gender s) "Female"))
                               (Some (Py.get (Scene.voice_style s) "Professional"))
                               target = true
            -> path = Some target)
           /\ (generate_voiceover W (Py.or_else (Scene.dialogue s) "")
                                  (Some (Py.get (Scene.character_gender s) "Female"))
                                  (Some (Py.get (Scene.voice_style s) "Professional"))
                                  target = false
               -> path = None)).
Proof.
  split.
  - unfold VideoGenerator.voiceover_paths. rewrite length_map. apply enumerate_length.
  - intros i s Hs path.
    split; [rewrite voiceover_paths_nth_error, Hs; reflexivity |].
    unfold path, VideoGenerator.voiceover_path, has_dialogue.
    split; [intros ->; reflexivity |].
    split; [intros -> ->; reflexivity |].
    intros -> ->. cbn zeta.
    change (path_join Config.DUMMY_SPEECH_DIR
                      ("scene_" ++ Py.str_of_nat (i + 1) ++ ".mp3"))
      with ("dummy_assets/speeches/scene_" ++ Py.str_of_nat (i + 1) ++ ".mp3")%string.
    split; intros ->; reflexivity.
Qed.

Lemma voiceover_paths_entries_witness :
  nth_error
    (VideoGenerator.voiceover_paths Stub.world
       [Stub.scene (Some 5) (Some "Hello") (Some "a.mp3");
        Stub.scene (Some 5) None None]) 1
  = Some None.
Proof.
  destruct (voiceover_paths_entries Stub.world
              [Stub.scene (Some 5) (Some "Hello") (Some "a.mp3");
               Stub.scene (Some 5) None None]) as [_ H].
  destruct (H 1%nat (Stub.scene (Some 5) None None) eq_refl) as (Hn & _ & Hnone & _).
  rewrite Hn, (Hnone eq_refl eq_refl). reflexivity.
Defined.

Lemma flat_map_nil {A B : Type} (f : A -> list B) (l : list A) :
  flat_map f l = [] <-> forall x, In x l -> f x = [].
Proof.
  induction l as [| a l IH]; cbn.
  - split; [intros _ x [] | reflexivity].
  - split.
    + intros H. apply app_eq_nil in H. destruct H as [Ha Hl].
      intros x [<- | Hx]; [exact Ha | apply IH; assumption].
    + intros H. rewrite (H a (or_introl eq_refl)).
      apply IH. intros x Hx. apply H. right. exact Hx.
Qed.

(** X4.  [generate] returns [None] exactly when the script has no scene
    (the ['scenes'] key missing or empty) or the clip of every single scene
    raised; as soon as one scene yields a clip, it returns a path or lets
    the exception of the concatenation or of the encoder through. *)
Theorem generate_none_exactly (W : World) (self : VideoGenerator.t)
        (script : VideoGenerator.Script) (target_duration : Z) (urandom : string) :
  let scenes :=
    match VideoGenerator.script_scenes script with
    | Some l => l
    | None => []
    end in
  VideoGenerator.generate W self script target_duration urandom = Ret None
  <-> scenes = []
      \/ forall (i : nat) (s : Scene.t),
           nth_error scenes i = Some s ->
           VideoGenerator._create_scene_clip W s (VideoGenerator.voiceover_path W i s)
           = Raise.
Proof.
  intros scenes.
  pose proof (generate_none_iff W self script target_duration urandom) as H.
  cbn zeta in H. fold scenes in H. rewrite H. clear H.
  rewrite build_clips_usable, flat_map_nil.
  apply or_iff_compat_l.
  split.
  - intros H i s Hs.
    specialize (H (i, s) (proj2 (enumerate_In_nth_error scenes i s) Hs)).
    unfold usable_clip in H. cbn [fst snd] in H.
    rewrite voiceover_paths_nth_error, Hs in H. cbn [option_map] in H.
    destruct (VideoGenerator._create_scene_clip W s _); [discriminate | reflexivity].
  - intros H [i s] Hin. apply enumerate_In_nth_error in Hin.
    unfold usable_clip. cbn [fst snd].
    rewrite voiceover_paths_nth_error, Hin. cbn [option_map].
    rewrite (H i s Hin). reflexivity.
Qed.

(** ** Sums and maxima of durations *)

(** The end of an item is never after the end of the whole list, when no
    duration is negative. *)
Lemma prefix_sum_le (l : list Q) (i : nat) :
  (forall x, In x l -> 0 <= x) ->
  (i < List.length l)%nat ->
  start_offset l i + nth i l 0 <= Py.sum l.
Proof.
  intros Hpos Hi. unfold start_offset.
  rewrite <- (firstn_skipn i l) at 3.
  rewrite sum_app.
  destruct (skipn i l) as [| x r] eqn:Hs.
  - exfalso. apply (f_equal (@List.length Q)) in Hs.
    rewrite length_skipn in Hs. cbn in Hs. lia.
  - assert (Hx : nth i l 0 = x).
    { rewrite <- (firstn_skipn i l) at 1. rewrite Hs.
      rewrite app_nth2; rewrite length_firstn; [| lia].
      replace (i - Nat.min i (List.length l))%nat with 0%nat by lia. reflexivity. }
    rewrite Hx, sum_cons.
    assert (0 <= Py.sum r).
    { apply sum_nonneg. intros y Hy. apply Hpos.
      rewrite <- (firstn_skipn i l), Hs. apply in_app_iff. right. right. exact Hy. }
    lra.
Qed.

Lemma py_max_ge (l : list Q) (x : Q) :
  x <= py_max x l /\ forall y, In y l -> y <= py_max x l.
Proof.
  unfold py_max. revert x. induction l as [| z l IH]; intros x; cbn [fold_left].
  - split; [lra | intros y []].
  - destruct (IH (Qmax x z)) as [Hx Hl]. split.
    + apply Qle_trans with (y := Qmax x z); [apply Q.le_max_l | exact Hx].
    + intros y [Hzy | Hy]; [| apply Hl, Hy].
      subst y.
      apply Qle_trans with (y := Qmax x z); [apply Q.le_max_r | exact Hx].
Qed.

Lemma py_max_bounded (l : list Q) (x b : Q) :
  x <= b -> (forall y, In y l -> y <= b) -> py_max x l <= b.
Proof.
  unfold py_max. revert x. induction l as [| z l IH]; intros x Hx Hl; cbn [fold_left].
  - exact Hx.
  - apply IH.
    + apply Q.max_lub; [exact Hx | apply Hl; left; reflexivity].
    + intros y Hy. apply Hl. right. exact Hy.
Qed.

(** ** [VideoGenerator.generate]: the length of the rendered video *)

Lemma generate_some_inv (W : World) (self : VideoGenerator.t)
      (script : VideoGenerator.Script) (target_duration : Z) (urandom : string)
      (r : VideoGenerator.Rendered) :
  VideoGenerator.generate W self script target_duration urandom = Ret (Some r) ->
  let scenes :=
    match VideoGenerator.script_scenes script with
    | Some l => l
    | None => []
    end in
  let paths := VideoGenerator.voiceover_paths W scenes in
  exists p : VideoGenerator.Primary,
    VideoGenerator.primary_track W (VideoGenerator.build_clips W scenes paths)
    = Ret (Some p)
    /\ VideoGenerator.written r
       = VideoGenerator._add_captions_timed W self p scenes paths
    /\ VideoGenerator.output_path r = ("output_video_" ++ urandom ++ ".mp4")%string.
Proof.
  intros H scenes paths. unfold VideoGenerator.generate in H.
  fold scenes in H. fold paths in H.
  destruct scenes as [| s0 scenes']; [discriminate |].
  destruct (VideoGenerator.build_clips W (s0 :: scenes') paths) as [| c0 clips];
    [discriminate |].
  destruct (VideoGenerator.primary_track W (c0 :: clips)) as [[p |] |];
    cbn [bind] in H; try discriminate.
  destruct (write_ok W _); [| discriminate].
  injection H as <-. exists p. repeat split.
Qed.

Lemma build_clips_start (W : World) (scenes : list Scene.t)
      (paths : list (option string)) (c : VideoGenerator.Clip) :
  In c (VideoGenerator.build_clips W scenes paths) -> VideoGenerator.clip_start c = 0.
Proof.
  rewrite build_clips_usable, in_flat_map. intros ([i s] & _ & Hc).
  unfold usable_clip in Hc. cbn [fst snd] in Hc.
  destruct (nth_error paths i) as [ap |]; [| destruct Hc].
  destruct (VideoGenerator._create_scene_clip W s ap) as [c' |] eqn:Hc';
    [| destruct Hc].
  destruct Hc as [<- | []]. apply (create_scene_clip_duration _ _ _ _ Hc').
Qed.

Lemma primary_track_total (W : World) (clips : list VideoGenerator.Clip)
      (p : VideoGenerator.Primary) :
  (forall c, In c clips -> VideoGenerator.clip_start c = 0) ->
  VideoGenerator.primary_track W clips = Ret (Some p) ->
  VideoGenerator.primary_end p == VideoGenerator.primary_duration p
  /\ ((forall c, In c clips -> 0 <= VideoGenerator.clip_duration c) ->
      VideoGenerator.primary_duration p
      == Py.sum (map VideoGenerator.clip_duration clips)).
Proof.
  intros Hstart. unfold VideoGenerator.primary_track.
  destruct clips as [| c0 rest]; [discriminate |].
  destruct (1 <? List.length (c0 :: rest))%nat eqn:Hlen.
  - destruct (VideoGenerator.concatenate_videoclips W Compose _) as [q |] eqn:Hq;
      [| discriminate].
    cbn [bind]. intros H. injection H as <-.
    apply concatenate_timing in Hq. destruct Hq as (parts & total & -> & -> & _).
    destruct (stitch_timing W (c0 :: rest)) as [Sd _]. rewrite Sd.
    cbn [VideoGenerator.primary_duration VideoGenerator.primary_end].
    split; [reflexivity |].
    intros Hpos. apply Qmax0_nonneg, sum_nonneg.
    intros d Hin. apply in_map_iff in Hin.
    destruct Hin as (c & <- & Hc). apply Hpos, Hc.
  - intros H. injection H as <-.
    destruct rest as [| c1 rest]; [| discriminate].
    cbn [VideoGenerator.primary_duration VideoGenerator.primary_end map].
    rewrite (Hstart c0 (or_introl eq_refl)), sum_singleton. split; [lra |].
    intros _. reflexivity.
Qed.

(** X5.  Whenever [generate] returns a path, the video it wrote is long
    enough for both of its tracks: it lasts at least as long as the primary
    track, and no caption ends after the end of the video (captions of
    scenes that were left out of the primary track extend the video instead
    of being cut). *)
Theorem rendered_video_covers_tracks
        (W : World) (self : VideoGenerator.t) (script : VideoGenerator.Script)
        (target_duration : Z) (urandom : string) (r : VideoGenerator.Rendered) :
  VideoGenerator.generate W self script target_duration urandom = Ret (Some r) ->
  let v := VideoGenerator.written r in
  VideoGenerator.primary_duration (VideoGenerator.v_primary v)
  <= VideoGenerator.video_duration v
  /\ forall cap : CaptionClip,
       In cap (VideoGenerator.v_overlays v) ->
       cap_end cap <= VideoGenerator.video_duration v.
Proof.
  intros H v. apply generate_some_inv in H. cbn zeta in H.
  destruct H as (p & Hp & Hw & _). unfold v. rewrite Hw. clear v Hw.
  apply primary_track_total in Hp; [| intros c Hc; apply (build_clips_start _ _ _ _ Hc)].
  destruct Hp as [Hend _].
  unfold VideoGenerator.video_duration, VideoGenerator._add_captions_timed.
  cbn [VideoGenerator.v_overlays VideoGenerator.v_primary].
  destruct (fst (VideoGenerator.caption_loop W self _ _)) as [| cap0 caps] eqn:Hcaps.
  - split; [lra | intros cap []].
  - destruct (py_max_ge (map cap_end (cap0 :: caps)) (VideoGenerator.primary_end p))
      as [Hx Hl].
    split; [rewrite <- Hend; exact Hx |].
    intros cap Hin. apply Hl. apply in_map. exact Hin.
Qed.

(** On the script whose first scene is left out, the rendered video lasts 8:
    longer than its primary track (3) and as long as its last caption. *)
Lemma rendered_video_covers_tracks_witness :
  exists r : VideoGenerator.Rendered,
    VideoGenerator.generate Stub.world VideoGenerator.init
                            Stub.broken_image_script 10 "ab12" = Ret (Some r)
    /\ VideoGenerator.primary_duration
         (VideoGenerator.v_primary (VideoGenerator.written r))
       <= VideoGenerator.video_duration (VideoGenerator.written r).
Proof.
  eexists. split; [vm_compute; reflexivity |].
  apply (rendered_video_covers_tracks
           Stub.world VideoGenerator.init Stub.broken_image_script 10 "ab12").
  vm_compute. reflexivity.
Defined.

Section FullTimeline.
Variable W : World.
Variable scenes : list Scene.t.

Let paths : list (option string) := VideoGenerator.voiceover_paths W scenes.

(** The resolved duration of a scene with the audio entry of its index. *)
Let resolved_at (e : nat * Scene.t) : Q :=
  VideoGenerator.resolve_duration W (snd e)
    (VideoGenerator.voiceover_path W (fst e) (snd e)).

Lemma caption_duration_at (e : nat * Scene.t) :
  In e (Py.enumerate scenes) ->
  VideoGenerator.caption_duration W paths (fst e) (snd e) = resolved_at e.
Proof.
  destruct e as [i s]. intros Hin. apply enumerate_In_nth_error in Hin.
  unfold resolved_at, VideoGenerator.caption_duration, Py.get_or_none, paths.
  cbn [fst snd]. rewrite voiceover_paths_nth_error, Hin. reflexivity.
Qed.

Lemma caption_durations_resolved :
  map (fun e : nat * Scene.t => VideoGenerator.caption_duration W paths (fst e) (snd e))
      (Py.enumerate scenes)
  = map resolved_at (Py.enumerate scenes).
Proof. apply map_ext_in. intros e He. apply caption_duration_at, He. Qed.

Lemma usable_durations_resolved (l : list (nat * Scene.t)) :
  (forall (i : nat) (s : Scene.t),
      nth_error scenes i = Some s ->
      VideoGenerator._create_scene_clip W s (VideoGenerator.voiceover_path W i s)
      <> Raise) ->
  incl l (Py.enumerate scenes) ->
  map VideoGenerator.clip_duration (flat_map (usable_clip W paths) l)
  = map resolved_at l.
Proof.
  intros Hall. induction l as [| [i s] l IH]; intros Hin; [reflexivity |].
  cbn [flat_map map]. rewrite map_app.
  rewrite IH by (intros e He; apply Hin; right; exact He).
  assert (Hs : nth_error scenes i = Some s).
  { apply enumerate_In_nth_error, Hin. left. reflexivity. }
  unfold usable_clip at 1. unfold paths. cbn [fst snd].
  rewrite voiceover_paths_nth_error, Hs. cbn [option_map].
  destruct (VideoGenerator._create_scene_clip W s _) as [c |] eqn:Hc.
  - cbn [map app]. f_equal. apply (create_scene_clip_duration _ _ _ _ Hc).
  - exfalso. apply (Hall i s Hs). exact Hc.
Qed.

Lemma built_durations_resolved :
  (forall (i : nat) (s : Scene.t),
      nth_error scenes i = Some s ->
      VideoGenerator._create_scene_clip W s (VideoGenerator.voiceover_path W i s)
      <> Raise) ->
  map VideoGenerator.clip_duration (VideoGenerator.build_clips W scenes paths)
  = map resolved_at (Py.enumerate scenes).
Proof.
  intros Hall. rewrite build_clips_usable.
  apply usable_durations_resolved; [exact Hall | apply incl_refl].
Qed.

End FullTimeline.

Lemma enumerate_map_nth {A : Type} (f : nat * A -> Q) (l : list A) (i : nat) (x : A) :
  nth_error l i = Some x -> nth i (map f (Py.enumerate l)) 0 = f (i, x).
Proof.
  intros H. apply nth_error_nth. apply map_nth_error.
  rewrite enumerate_nth_error, H. reflexivity.
Qed.

(** X6.  When [generate] returns a path, no scene was left out (no clip
    raised) and no resolved duration is negative, the video it wrote lasts
    exactly the sum of the resolved durations of the scenes: primary track
    and caption track end together.  Three scenes whose audio measures 4.8
    give a video of 14.4, whatever their nominal durations. *)
Theorem full_timeline_duration
        (W : World) (self : VideoGenerator.t) (script : VideoGenerator.Script)
        (target_duration : Z) (urandom : string) (r : VideoGenerator.Rendered) :
  let scenes :=
    match VideoGenerator.script_scenes script with
    | Some l => l
    | None => []
    end in
  let resolved :=
    map (fun e : nat * Scene.t =>
           VideoGenerator.resolve_duration W (snd e)
             (VideoGenerator.voiceover_path W (fst e) (snd e)))
        (Py.enumerate scenes) in
  VideoGenerator.generate W self script target_duration urandom = Ret (Some r) ->
  (forall (i : nat) (s : Scene.t),
      nth_error scenes i = Some s ->
      VideoGenerator._create_scene_clip W s (VideoGenerator.voiceover_path W i s)
      <> Raise) ->
  (forall d : Q, In d resolved -> 0 <= d) ->
  VideoGenerator.video_duration (VideoGenerator.written r) == Py.sum resolved.
Proof.
  intros scenes resolved H Hall Hpos.
  apply generate_some_inv in H. cbn zeta in H. fold scenes in H.
  destruct H as (p & Hp & Hw & _). rewrite Hw. clear Hw.
  apply primary_track_total in Hp; [| intros c Hc; apply (build_clips_start _ _ _ _ Hc)].
  destruct Hp as [Hend Hdur].
  rewrite (built_durations_resolved W scenes Hall) in Hdur. fold resolved in Hdur.
  assert (Hbuilt : forall c : VideoGenerator.Clip,
             In c (VideoGenerator.build_clips
                     W scenes (VideoGenerator.voiceover_paths W scenes)) ->
             0 <= VideoGenerator.clip_duration c).
  { intros c Hc. apply Hpos. unfold resolved.
    rewrite <- (built_durations_resolved W scenes Hall).
    apply in_map. exact Hc. }
  specialize (Hdur Hbuilt). clear Hbuilt.
  unfold VideoGenerator.video_duration, VideoGenerator._add_captions_timed.
  cbn [VideoGenerator.v_overlays VideoGenerator.v_primary].
  rewrite caption_loop_closed_form. cbn [fst].
  rewrite (caption_durations_resolved W scenes). fold resolved.
  set (caps := map _ (filter _ (Py.enumerate scenes))).
  assert (Hcaps : forall cap, In cap caps -> cap_end cap <= Py.sum resolved).
  { intros cap Hin. unfold caps in Hin. apply in_map_iff in Hin.
    destruct Hin as ([i s] & <- & Hin). apply filter_In in Hin. destruct Hin as [Hin _].
    unfold cap_end. rewrite caption_clip_start, caption_clip_duration.
    rewrite (caption_duration_at W scenes (i, s) Hin). cbn [fst snd].
    pose proof (proj1 (enumerate_In_nth_error scenes i s) Hin) as Hs.
    assert (Hn : nth i resolved 0
                 = VideoGenerator.resolve_duration W s
                     (VideoGenerator.voiceover_path W i s)).
    { apply (enumerate_map_nth
               (fun e : nat * Scene.t =>
                  VideoGenerator.resolve_duration W (snd e)
                    (VideoGenerator.voiceover_path W (fst e) (snd e)))
               scenes i s Hs). }
    rewrite <- Hn. apply prefix_sum_le; [exact Hpos |].
    unfold resolved. rewrite length_map, enumerate_length.
    apply nth_error_Some. congruence. }
  destruct caps as [| cap0 caps'] eqn:Ecaps; [exact Hdur |].
  apply Qle_antisym.
  - apply py_max_bounded.
    + rewrite Hend, Hdur. lra.
    + intros y Hy. apply in_map_iff in Hy. destruct Hy as (cap & <- & Hcap).
      apply Hcaps, Hcap.
  - rewrite <- Hdur, <- Hend. apply (proj1 (py_max_ge _ _)).
Qed.

(** Three scenes of nominal duration 5 whose audio measures 4.8: the video
    lasts 14.4. *)
Lemma full_timeline_duration_witness :
  exists r : VideoGenerator.Rendered,
    VideoGenerator.generate Stub.world VideoGenerator.init
      {| VideoGenerator.script_scenes :=
           Some [Stub.scene (Some 5) (Some "One") (Some "a.mp3");
                 Stub.scene (Some 5) (Some "Two") (Some "a.mp3");
                 Stub.scene (Some 5) (Some "Three") (Some "a.mp3")] |}
      15 "ab12" = Ret (Some r)
    /\ VideoGenerator.video_duration (VideoGenerator.written r) == 72 # 5.
Proof.
  eexists. split; [vm_compute; reflexivity |].
  etransitivity.
  - apply (full_timeline_duration
             Stub.world VideoGenerator.init
             {| VideoGenerator.script_scenes :=
                  Some [Stub.scene (Some 5) (Some "One") (Some "a.mp3");
                        Stub.scene (Some 5) (Some "Two") (Some "a.mp3");
                        Stub.scene (Some 5) (Some "Three") (Some "a.mp3")] |}
             15 "ab12").
    + vm_compute. reflexivity.
    + intros [| [| [| i]]] s Hs; cbn in Hs; try (destruct i; discriminate);
        injection Hs as <-; vm_compute; discriminate.
    + intros d Hd. vm_compute in Hd.
      destruct Hd as [<- | [<- | [<- | []]]]; vm_compute; discriminate.
  - vm_compute. reflexivity.
Defined.

(** ** [VideoGenerator.generate]: the transition loop *)

Lemma stitch_clip_crossfaded (W : World) (final_clips : list VideoGenerator.Clip)
      (curr : VideoGenerator.Clip) :
  VideoGenerator.stitch_clip W final_clips curr
  = final_clips ++ [crossfaded W (last final_clips curr) curr].
Proof.
  unfold VideoGenerator.stitch_clip, crossfaded, VideoGenerator.crossfade,
    VideoGenerator.transition_duration.
  destruct (Py.gt (VideoGenerator.clip_duration (last final_clips curr)) (1 # 2));
    destruct (Py.gt (VideoGenerator.clip_duration curr) (1 # 2));
    destruct (has_with_crossfadein W); destruct (has_fx_crossfadein W);
    reflexivity.
Qed.

Lemma crossfaded_duration (W : World) (prev prev' curr : VideoGenerator.Clip) :
  VideoGenerator.clip_duration prev = VideoGenerator.clip_duration prev' ->
  crossfaded W prev curr = crossfaded W prev' curr.
Proof. unfold crossfaded. intros ->. reflexivity. Qed.

Lemma last_same_duration (l1 l2 : list VideoGenerator.Clip) (d : VideoGenerator.Clip) :
  map VideoGenerator.clip_duration l1 = map VideoGenerator.clip_duration l2 ->
  VideoGenerator.clip_duration (last l1 d) = VideoGenerator.clip_duration (last l2 d).
Proof.
  revert l2. induction l1 as [| a l1 IH]; intros [| b l2] H; try discriminate;
    [reflexivity |].
  injection H as Hab H.
  destruct l1 as [| a' l1], l2 as [| b' l2]; try discriminate; [exact Hab |].
  apply (IH (b' :: l2) H).
Qed.

Lemma stitch_snoc (W : World) (c0 : VideoGenerator.Clip)
      (rest : list VideoGenerator.Clip) (x : VideoGenerator.Clip) :
  VideoGenerator.stitch W ((c0 :: rest) ++ [x])
  = VideoGenerator.stitch W (c0 :: rest) ++ [crossfaded W (last (c0 :: rest) x) x].
Proof.
  cbn [VideoGenerator.stitch app]. rewrite fold_left_app. cbn [fold_left].
  rewrite stitch_clip_crossfaded. f_equal. f_equal.
  apply crossfaded_duration. apply last_same_duration.
  apply (stitch_timing W (c0 :: rest)).
Qed.

Lemma stitch_length (W : World) (clips : list VideoGenerator.Clip) :
  List.length (VideoGenerator.stitch W clips) = List.length clips.
Proof.
  rewrite <- (length_map VideoGenerator.clip_duration (VideoGenerator.stitch W clips)).
  rewrite (proj1 (stitch_timing W clips)). apply length_map.
Qed.

Lemma nth_error_last {A : Type} (l : list A) (i : nat) (x d : A) :
  nth_error l i = Some x -> S i = List.length l -> last l d = x.
Proof.
  revert i. induction l as [| a l IH]; intros i Hn Hl; [discriminate |].
  destruct l as [| b l].
  - destruct i; [cbn in *; congruence | cbn in Hl; lia].
  - destruct i as [| i]; [cbn in Hl; lia |].
    apply (IH i); [exact Hn | cbn in *; lia].
Qed.

(** X7.  The transition loop never touches the first clip, keeps the number
    and order of the clips, and gives clip [i+1] a crossfade-in of half a
    time unit exactly when a crossfade entry point is available and both
    clip [i] and clip [i+1] last longer than half a time unit; in every
    other case, also when the crossfade call fails, the clip is passed on
    unchanged (a hard cut). *)
Theorem stitch_crossfades (W : World) (clips : list VideoGenerator.Clip) :
  List.length (VideoGenerator.stitch W clips) = List.length clips
  /\ nth_error (VideoGenerator.stitch W clips) 0 = nth_error clips 0
  /\ (forall (i : nat) (prev curr : VideoGenerator.Clip),
         nth_error clips i = Some prev ->
         nth_error clips (S i) = Some curr ->
         nth_error (VideoGenerator.stitch W clips) (S i)
         = Some (crossfaded W prev curr))
  /\ (has_with_crossfadein W = false ->
      has_fx_crossfadein W = false ->
      VideoGenerator.stitch W clips = clips).
Proof.
  split; [apply stitch_length |].
  induction clips as [| x l IH] using rev_ind.
  - split; [reflexivity |]. split; [| reflexivity].
    intros i prev curr H. destruct i; discriminate.
  - destruct l as [| c0 rest].
    + split; [reflexivity |]. split; [| reflexivity].
      intros i prev curr H1 H2. destruct i; discriminate.
    + destruct IH as (Hhead & Hnth & Hid).
      rewrite stitch_snoc.
      split; [| split].
      * rewrite nth_error_app1 by (rewrite stitch_length; cbn; lia).
        rewrite Hhead. reflexivity.
      * intros i prev curr Hp Hc.
        destruct (Nat.lt_ge_cases (S i) (List.length (c0 :: rest))) as [Hlt | Hge].
        -- rewrite nth_error_app1 by (rewrite stitch_length; exact Hlt).
           rewrite nth_error_app1 in Hp by lia.
           rewrite nth_error_app1 in Hc by exact Hlt.
           apply Hnth; assumption.
        -- assert (Hi : S i = List.length (c0 :: rest)).
           { assert (Hlt : (S i < List.length ((c0 :: rest) ++ [x]))%nat)
               by (apply nth_error_Some; congruence).
             rewrite length_app in Hlt. cbn [List.length] in *. lia. }
           rewrite nth_error_app2 by (rewrite stitch_length; lia).
           rewrite stitch_length, Hi, Nat.sub_diag.
           rewrite nth_error_app2 in Hc by lia.
           rewrite Hi, Nat.sub_diag in Hc. cbn in Hc. injection Hc as <-.
           rewrite nth_error_app1 in Hp by lia.
           rewrite (nth_error_last (c0 :: rest) i prev x Hp Hi). reflexivity.
      * intros Hw Hf. rewrite (Hid Hw Hf). f_equal.
        unfold crossfaded. rewrite Hw, Hf. reflexivity.
Qed.

(** ** Caption layout: the words of the dialogue are kept *)

Lemma append_assoc (a b c : string) : ((a ++ b) ++ c)%string = (a ++ (b ++ c))%string.
Proof. induction a as [| x a IH]; cbn; [reflexivity | now rewrite IH]. Qed.

Lemma append_nil_r (a : string) : (a ++ "")%string = a.
Proof. induction a as [| x a IH]; cbn; [reflexivity | now rewrite IH]. Qed.

Lemma truthy_append_char (word : string) (c : ascii) :
  Py.truthy (word ++ String c "") = true.
Proof. destruct word; reflexivity. Qed.

Lemma split_from_nonempty (s word : string) :
  Forall (fun w => Py.truthy w = true) (Py.split_from word s).
Proof.
  revert word. induction s as [| c s IH]; intros word; cbn.
  - destruct (Py.truthy word) eqn:H; auto.
  - destruct (Py.isspace c).
    + destruct (Py.truthy word) eqn:H; [constructor; [exact H |] |]; apply IH.
    + apply IH.
Qed.

(** A space between two texts separates their words. *)
Lemma split_from_app_space (a b word : string) :
  Py.split_from word (a ++ String " " b) = Py.split_from word a ++ Py.split b.
Proof.
  revert word. induction a as [| c a IH]; intros word.
  - cbn [String.append Py.split_from]. change (Py.isspace " ") with true. cbn iota.
    destruct (Py.truthy word); reflexivity.
  - cbn [String.append Py.split_from].
    destruct (Py.isspace c).
    + destruct (Py.truthy word); rewrite IH; reflexivity.
    + apply IH.
Qed.

Lemma split_from_word (w word : string) :
  no_space w = true -> Py.truthy (word ++ w) = true ->
  Py.split_from word w = [(word ++ w)%string].
Proof.
  revert word. induction w as [| c w IH]; intros word Hw Ht.
  - rewrite append_nil_r in *. cbn. rewrite Ht. reflexivity.
  - cbn in Hw. apply andb_true_iff in Hw. destruct Hw as [Hc Hw].
    apply negb_true_iff in Hc. cbn [Py.split_from]. rewrite Hc.
    rewrite IH; [| exact Hw |].
    + rewrite append_assoc. reflexivity.
    + rewrite append_assoc. exact Ht.
Qed.

Lemma split_word (w : string) :
  no_space w = true -> Py.truthy w = true -> Py.split w = [w].
Proof. intros Hw Ht. apply (split_from_word w "" Hw Ht). Qed.

Lemma split_lstrip (s : string) : Py.split (Py.lstrip s) = Py.split s.
Proof.
  unfold Py.split. induction s as [| c s IH]; [reflexivity |].
  cbn [Py.lstrip]. destruct (Py.isspace c) eqn:Hc; [| reflexivity].
  rewrite IH. cbn [Py.split_from]. rewrite Hc. reflexivity.
Qed.

Lemma split_from_rstrip (s word : string) :
  Py.split_from word (Py.rstrip s) = Py.split_from word s.
Proof.
  revert word. induction s as [| c s IH]; intros word; [reflexivity |].
  cbn [Py.rstrip].
  destruct (Py.rstrip s) as [| c' r] eqn:Hr.
  - destruct (Py.isspace c) eqn:Hc.
    + cbn [Py.split_from]. rewrite Hc, <- (IH ""). cbn.
      destruct (Py.truthy word); reflexivity.
    + cbn [Py.split_from]. rewrite Hc, <- (IH (word ++ String c "")%string).
      reflexivity.
  - cbn [Py.split_from].
    destruct (Py.isspace c); [destruct (Py.truthy word) |]; rewrite <- IH; reflexivity.
Qed.

Lemma split_strip (s : string) : Py.split (Py.strip s) = Py.split s.
Proof.
  unfold Py.strip, Py.split. rewrite split_from_rstrip. apply split_lstrip.
Qed.

(** The words of the candidate line are those of the current line followed
    by the new word. *)
Lemma split_candidate (current w : string) :
  no_space w = true -> Py.truthy w = true ->
  Py.split (Py.strip (current ++ " " ++ w)) = Py.split current ++ [w].
Proof.
  intros Hw Ht. rewrite split_strip. unfold Py.split at 1.
  change (current ++ " " ++ w)%string with (current ++ String " " w)%string.
  rewrite split_from_app_space, (split_word w Hw Ht). reflexivity.
Qed.

Section WordsKept.
Variable W : World.
Variable max_width : Z.

Lemma wrap_word_words (lines : list string) (current w : string) :
  no_space w = true -> Py.truthy w = true ->
  let st := wrap_word W max_width (lines, current) w in
  flat_map Py.split (fst st) ++ Py.split (snd st)
  = (flat_map Py.split lines ++ Py.split current) ++ [w]
  /\ (Forall (fun l => Py.truthy l = true) lines ->
      Forall (fun l => Py.truthy l = true) (fst st)).
Proof.
  intros Hw Ht. unfold wrap_word.
  destruct (bbox2 (textbbox W (Py.strip (current ++ " " ++ w))) <=? max_width)%Z;
    cbn [fst snd].
  - rewrite split_candidate by assumption. rewrite app_assoc. auto.
  - rewrite (split_word w Hw Ht).
    destruct (Py.truthy current) eqn:Hc.
    + rewrite flat_map_app. cbn [flat_map]. rewrite app_nil_r. split; [reflexivity |].
      intros H. apply Forall_app. split; [exact H | constructor; [exact Hc | constructor]].
    + split; [| auto].
      assert (current = "") as ->.
      { unfold Py.truthy in Hc. apply negb_false_iff in Hc.
        apply String.eqb_eq in Hc. exact Hc. }
      change (Py.split "") with (@nil string). rewrite app_nil_r. reflexivity.
Qed.

Lemma wrap_fold_words (words : list string) (lines : list string) (current : string) :
  Forall (fun w => no_space w = true /\ Py.truthy w = true) words ->
  let st := fold_left (wrap_word W max_width) words (lines, current) in
  flat_map Py.split (fst st) ++ Py.split (snd st)
  = (flat_map Py.split lines ++ Py.split current) ++ words
  /\ (Forall (fun l => Py.truthy l = true) lines ->
      Forall (fun l => Py.truthy l = true) (fst st)).
Proof.
  revert lines current. induction words as [| w words IH]; intros lines current Hall.
  - cbn. rewrite app_nil_r. auto.
  - inversion Hall as [| ? ? [Hw Ht] Hall']; subst.
    cbn [fold_left].
    destruct (wrap_word_words lines current w Hw Ht) as [Hstep Hne].
    destruct (wrap_word W max_width (lines, current) w) as [lines' current'].
    cbn [fst snd] in Hstep, Hne.
    destruct (IH lines' current' Hall') as [IHw IHne].
    split.
    + rewrite IHw, Hstep, <- app_assoc. reflexivity.
    + intros H. apply IHne, Hne, H.
Qed.

End WordsKept.

Lemma split_word_facts (text : string) :
  Forall (fun w => no_space w = true /\ Py.truthy w = true) (Py.split text).
Proof.
  pose proof (split_words text) as H1.
  pose proof (split_from_nonempty text "") as H2. fold (Py.split text) in H2.
  rewrite Forall_forall in *. intros w Hw. split; [apply H1 | apply H2]; exact Hw.
Qed.

(** X8.  The caption layout never loses, duplicates, reorders or breaks a
    word: read line after line, the words of the caption are exactly the
    words of the dialogue.  No line is empty, and a dialogue without any
    word (empty or whitespace only) gives a caption without lines. *)
Theorem caption_keeps_words (W : World) (width : Z) (text : string) :
  flat_map Py.split (wrap_caption W width text) = Py.split text
  /\ Forall (fun line => line <> "") (wrap_caption W width text)
  /\ (Py.split text = [] ->
      forall (resolution : Z * Z) (t d : Q),
        cap_lines (caption_clip W resolution text t d) = []).
Proof.
  unfold wrap_caption, wrap_words.
  destruct (wrap_fold_words W (width - 80) (Py.split text) [] ""
              (split_word_facts text)) as [Hwords Hne].
  cbn zeta in Hwords, Hne.
  destruct (fold_left (wrap_word W (width - 80)) (Py.split text) ([], ""))
    as [lines current] eqn:Hrun.
  cbn [fst snd] in Hwords, Hne.
  assert (Hlines : Forall (fun l => Py.truthy l = true) lines) by (apply Hne; constructor).
  assert (Htruthy : forall l, Py.truthy l = true -> l <> "").
  { intros l Hl ->. discriminate. }
  split; [| split].
  - destruct (Py.truthy current) eqn:Hc.
    + rewrite flat_map_app. cbn [flat_map]. rewrite app_nil_r. exact Hwords.
    + assert (current = "") as ->.
      { unfold Py.truthy in Hc. apply negb_false_iff in Hc.
        apply String.eqb_eq in Hc. exact Hc. }
      change (Py.split "") with (@nil string) in Hwords.
      rewrite app_nil_r in Hwords. exact Hwords.
  - destruct (Py.truthy current) eqn:Hc.
    + apply Forall_app. split.
      * eapply Forall_impl; [| exact Hlines]. exact Htruthy.
      * constructor; [apply Htruthy, Hc | constructor].
    + eapply Forall_impl; [| exact Hlines]. exact Htruthy.
  - intros Hnil [w h] t d. unfold caption_clip, wrap_caption, wrap_words.
    cbn [cap_lines]. rewrite Hnil. reflexivity.
Qed.

(** ** Caption layout: where the lines are drawn *)






(** ** [_wrap_text] *)

Lemma len_append (a b : string) : Text.len (a ++ b) = (Text.len a + Text.len b)%Z.
Proof.
  unfold Text.len. induction a as [| c a IH]; cbn [String.append String.length].
  - lia.
  - rewrite !Nat2Z.inj_succ, IH. lia.
Qed.

Lemma join_snoc (sep : string) (l : list string) (x w : string) :
  Text.join sep ((x :: l) ++ [w]) = (Text.join sep (x :: l) ++ sep ++ w)%string.
Proof.
  revert x. induction l as [| y l IH]; intros x; [reflexivity |].
  change (Text.join sep ((x :: y :: l) ++ [w]))
    with (x ++ sep ++ Text.join sep ((y :: l) ++ [w]))%string.
  rewrite IH.
  change (Text.join sep (x :: y :: l)) with (x ++ sep ++ Text.join sep (y :: l))%string.
  rewrite !append_assoc. reflexivity.
Qed.

(** A whitespace character between two texts separates their words. *)
Lemma split_from_app_sep (c : ascii) (a b word : string) :
  Py.isspace c = true ->
  Py.split_from word (a ++ String c b) = Py.split_from word a ++ Py.split b.
Proof.
  intros Hc. revert word. induction a as [| x a IH]; intros word.
  - cbn [String.append Py.split_from]. rewrite Hc.
    destruct (Py.truthy word); reflexivity.
  - cbn [String.append Py.split_from].
    destruct (Py.isspace x).
    + destruct (Py.truthy word); rewrite IH; reflexivity.
    + apply IH.
Qed.

Lemma split_join (c : ascii) (l : list string) :
  Py.isspace c = true ->
  Py.split (Text.join (String c "") l) = flat_map Py.split l.
Proof.
  intros Hc. induction l as [| x l IH]; [reflexivity |].
  destruct l as [| y l].
  - cbn [Text.join flat_map]. rewrite app_nil_r. reflexivity.
  - change (Text.join (String c "") (x :: y :: l))
      with (x ++ String c (Text.join (String c "") (y :: l)))%string.
    unfold Py.split at 1. rewrite split_from_app_sep by exact Hc.
    rewrite IH. reflexivity.
Qed.

Lemma flat_map_split_words (ws : list string) :
  Forall (fun w => no_space w = true /\ Py.truthy w = true) ws ->
  flat_map Py.split ws = ws.
Proof.
  induction 1 as [| w ws [Hw Ht] _ IH]; [reflexivity |].
  cbn [flat_map]. rewrite (split_word w Hw Ht), IH. reflexivity.
Qed.

Section WrapText.
Variable max_chars : Z.

Let step := Text.wrap_text_word max_chars.
Let lines_of (st : list string * list string * Z) : list string := fst (fst st).
Let current_of (st : list string * list string * Z) : list string := snd (fst st).
Let length_of (st : list string * list string * Z) : Z := snd st.
Let word_ok (w : string) : Prop := no_space w = true /\ Py.truthy w = true.

Lemma wrap_text_fold_words (ws : list string) (st : list string * list string * Z) :
  Forall word_ok ws -> Forall word_ok (current_of st) ->
  flat_map Py.split (lines_of (fold_left step ws st))
  ++ current_of (fold_left step ws st)
  = (flat_map Py.split (lines_of st) ++ current_of st) ++ ws
  /\ Forall word_ok (current_of (fold_left step ws st)).
Proof.
  revert st. induction ws as [| w ws IH]; intros [[lines cl] k] Hws Hcl.
  - cbn. rewrite app_nil_r. auto.
  - inversion Hws as [| ? ? Hw Hws']; subst. cbn [fold_left].
    unfold step at 2 4 6, Text.wrap_text_word.
    destruct (k + Text.len w + 1 <=? max_chars)%Z.
    + destruct (IH (lines, cl ++ [w], (k + Text.len w + 1)%Z) Hws') as [H1 H2].
      { apply Forall_app. split; [exact Hcl | constructor; [exact Hw | constructor]]. }
      split; [| exact H2]. rewrite H1. unfold lines_of, current_of. cbn [fst snd].
      rewrite <- !app_assoc. reflexivity.
    + destruct (IH (lines ++ [Text.join " " cl], [w], Text.len w) Hws') as [H1 H2].
      { constructor; [exact Hw | constructor]. }
      split; [| exact H2]. rewrite H1. unfold lines_of, current_of. cbn [fst snd].
      rewrite flat_map_app. cbn [flat_map]. rewrite app_nil_r.
      rewrite (split_join " " cl eq_refl).
      rewrite (flat_map_split_words cl Hcl), <- !app_assoc. reflexivity.
Qed.

End WrapText.

(** X10.  [_wrap_text] only regroups the words of the text: split again on
    whitespace, its result gives back exactly the words of the text, in
    order, none lost, repeated or broken. *)
Theorem wrap_text_keeps_words (text : string) (max_chars : Z) :
  Py.split (Text._wrap_text text max_chars) = Py.split text.
Proof.
  unfold Text._wrap_text, nl. rewrite split_join by reflexivity.
  unfold Text.wrap_text_lines.
  destruct (wrap_text_fold_words max_chars (Py.split text) ([], [], 0%Z)
              (split_word_facts text) (Forall_nil _)) as [H Hcl].
  destruct (fold_left (Text.wrap_text_word max_chars) (Py.split text) ([], [], 0%Z))
    as [[lines cl] k].
  cbn [fst snd] in H, Hcl. cbn [app] in H.
  destruct cl as [| x cl].
  - rewrite app_nil_r in H. exact H.
  - rewrite flat_map_app. cbn [flat_map]. rewrite app_nil_r.
    rewrite (split_join " " (x :: cl) eq_refl).
    rewrite (flat_map_split_words (x :: cl) Hcl). exact H.
Qed.

Section WrapTextLengths.
Variable max_chars : Z.
Variable all : list string.

Let step := Text.wrap_text_word max_chars.

(** A closed line is within the limit, or a single word of the text, or
    empty. *)
Let line_ok (l : string) : Prop :=
  (Text.len l <= max_chars)%Z \/ In l all \/ l = "".

(** The counter is never below the length of the line being built, and it
    is within the limit unless that line is a single word. *)
Let current_ok (cl : list string) (k : Z) : Prop :=
  (cl = [] /\ k = 0%Z)
  \/ ((Text.len (Text.join " " cl) <= k)%Z
      /\ ((k <= max_chars)%Z \/ exists w, cl = [w] /\ In w all)).

Lemma wrap_text_fold_lengths (ws : list string) (lines cl : list string) (k : Z) :
  incl ws all ->
  Forall line_ok lines -> current_ok cl k ->
  Forall line_ok (fst (fst (fold_left step ws (lines, cl, k))))
  /\ current_ok (snd (fst (fold_left step ws (lines, cl, k))))
                (snd (fold_left step ws (lines, cl, k))).
Proof.
  revert lines cl k. induction ws as [| w ws IH]; intros lines cl k Hincl Hl Hc.
  - split; assumption.
  - cbn [fold_left]. unfold step at 2 4 6, Text.wrap_text_word.
    assert (Hw : In w all) by (apply Hincl; left; reflexivity).
    assert (Hincl' : incl ws all) by (intros x Hx; apply Hincl; right; exact Hx).
    destruct (Z.leb_spec (k + Text.len w + 1) max_chars) as [Hle | Hgt].
    + apply IH; [exact Hincl' | exact Hl |].
      right. split; [| left; exact Hle].
      destruct Hc as [[-> ->] | [Hlen _]].
      * cbn [app Text.join]. lia.
      * destruct cl as [| x cl].
        -- cbn [app Text.join]. cbn in Hlen. unfold Text.len in *. cbn in Hlen. lia.
        -- rewrite join_snoc, !len_append. change (Text.len " ") with 1%Z. lia.
    + apply IH; [exact Hincl' | |].
      * apply Forall_app. split; [exact Hl |]. constructor; [| constructor].
        destruct Hc as [[-> _] | [Hlen [Hk | (w0 & -> & Hw0)]]].
        -- right. right. reflexivity.
        -- left. lia.
        -- right. left. exact Hw0.
      * right. split; [cbn [Text.join]; lia |].
        right. exists w. split; [reflexivity | exact Hw].
Qed.

End WrapTextLengths.

(** X11.  Every line [_wrap_text] produces is at most [max_chars]
    characters long, with two exceptions: a line that consists of a single
    word which is itself longer than [max_chars] (words are never broken),
    and an empty line.  When no word of the text is longer than
    [max_chars], no line is. *)
Theorem wrap_text_line_lengths (text : string) (max_chars : Z) :
  (forall line : string,
      In line (Text.wrap_text_lines text max_chars) ->
      (Text.len line <= max_chars)%Z
      \/ (In line (Py.split text) /\ (max_chars < Text.len line)%Z)
      \/ line = "")
  /\ ((forall w : string, In w (Py.split text) -> (Text.len w <= max_chars)%Z) ->
      forall line : string,
        In line (Text.wrap_text_lines text max_chars) ->
        (Text.len line <= max_chars)%Z).
Proof.
  assert (H : forall line : string,
             In line (Text.wrap_text_lines text max_chars) ->
             (Text.len line <= max_chars)%Z \/ In line (Py.split text) \/ line = "").
  { unfold Text.wrap_text_lines.
    destruct (wrap_text_fold_lengths max_chars (Py.split text) (Py.split text) [] [] 0%Z
                (incl_refl _) (Forall_nil _) (or_introl (conj eq_refl eq_refl)))
      as [Hl Hc].
    destruct (fold_left (Text.wrap_text_word max_chars) (Py.split text) ([], [], 0%Z))
      as [[lines cl] k].
    cbn [fst snd] in Hl, Hc. rewrite Forall_forall in Hl.
    destruct cl as [| x cl]; [exact Hl |].
    intros line Hin. apply in_app_iff in Hin. destruct Hin as [Hin | [<- | []]].
    - apply Hl, Hin.
    - destruct Hc as [[Hnil _] | [Hlen [Hk | (w0 & Hw0 & Hin0)]]]; [discriminate | |].
      + left. lia.
      + right. left. rewrite Hw0. exact Hin0. }
  split.
  - intros line Hin. destruct (H line Hin) as [Hl | [Hw | He]]; auto.
    destruct (Z.le_gt_cases (Text.len line) max_chars); auto.
  - intros Hwords line Hin.
    destruct (H line Hin) as [Hl | [Hw | ->]]; [exact Hl | apply Hwords, Hw |].
    (* an empty line: the text has a word, and that word fits *)
    unfold Text.wrap_text_lines in Hin.
    destruct (Py.split text) as [| w ws] eqn:Hs; [destruct Hin |].
    specialize (Hwords w (or_introl eq_refl)).
    unfold Text.len in *. cbn [String.length]. lia.
Qed.

Lemma wrap_text_line_lengths_witness :
  Forall (fun line : string => (Text.len line <= 10)%Z)
         (Text.wrap_text_lines "the quick brown fox jumps over" 10).
Proof.
  apply Forall_forall.
  apply (wrap_text_line_lengths "the quick brown fox jumps over" 10).
  intros w Hw. vm_compute in Hw.
  repeat (destruct Hw as [<- | Hw]; [vm_compute; discriminate |]). destruct Hw.
Defined.

Section WrapTextEmptyLine.
Variable max_chars : Z.

Let step := Text.wrap_text_word max_chars.

Lemma wrap_text_fold_prefix (ws : list string) (lines cl : list string) (k : Z) :
  exists tail : list string,
    fst (fst (fold_left step ws (lines, cl, k))) = lines ++ tail.
Proof.
  revert lines cl k. induction ws as [| w ws IH]; intros lines cl k.
  - exists []. cbn. rewrite app_nil_r. reflexivity.
  - cbn [fold_left]. unfold step at 2, Text.wrap_text_word.
    destruct (k + Text.len w + 1 <=? max_chars)%Z; [apply IH |].
    destruct (IH (lines ++ [Text.join " " cl]) [w] (Text.len w)) as [tail Ht].
    exists (Text.join " " cl :: tail). rewrite Ht, <- app_assoc. reflexivity.
Qed.

Lemma join_nonempty (cl : list string) :
  cl <> [] -> Forall (fun w => Py.truthy w = true) cl -> Text.join " " cl <> "".
Proof.
  intros Hne Hall. destruct cl as [| x cl]; [contradiction |].
  inversion Hall as [| ? ? Hx _]; subst.
  destruct x as [| c x]; [discriminate |].
  destruct cl; cbn; discriminate.
Qed.

Lemma wrap_text_fold_nonempty (ws : list string) (lines cl : list string) (k : Z) :
  Forall (fun w => Py.truthy w = true) ws ->
  cl <> [] -> Forall (fun w => Py.truthy w = true) cl ->
  Forall (fun l => l <> "") lines ->
  Forall (fun l => l <> "") (fst (fst (fold_left step ws (lines, cl, k))))
  /\ snd (fst (fold_left step ws (lines, cl, k))) <> []
  /\ Forall (fun w => Py.truthy w = true) (snd (fst (fold_left step ws (lines, cl, k)))).
Proof.
  revert lines cl k. induction ws as [| w ws IH]; intros lines cl k Hws Hne Hcl Hl.
  - cbn. auto.
  - inversion Hws as [| ? ? Hw Hws']; subst.
    cbn [fold_left]. unfold step at 2 4 6, Text.wrap_text_word.
    destruct (k + Text.len w + 1 <=? max_chars)%Z.
    + apply IH; [exact Hws' | | | exact Hl].
      * destruct cl; discriminate.
      * apply Forall_app. split; [exact Hcl | constructor; [exact Hw | constructor]].
    + apply IH; [exact Hws' | discriminate | constructor; [exact Hw | constructor] |].
      apply Forall_app. split; [exact Hl |].
      constructor; [apply join_nonempty; assumption | constructor].
Qed.

End WrapTextEmptyLine.

(** X12.  An edge case of [_wrap_text]: when the first word of the text does
    not fit by the loop's own test ([len(word) + 1 > max_chars]), the result
    starts with an empty line, because the empty current line is closed
    before the word is placed.  This is the only way an empty line arises. *)
Theorem wrap_text_empty_first_line (text : string) (max_chars : Z) :
  (forall (w : string) (rest : list string),
      Py.split text = w :: rest ->
      (max_chars < Text.len w + 1)%Z ->
      exists tail : list string,
        Text.wrap_text_lines text max_chars = "" :: tail)
  /\ (In "" (Text.wrap_text_lines text max_chars) ->
      exists (w : string) (rest : list string),
        Py.split text = w :: rest /\ (max_chars < Text.len w + 1)%Z).
Proof.
  unfold Text.wrap_text_lines. split.
  - intros w rest Hs Hw. rewrite Hs. cbn [fold_left].
    unfold Text.wrap_text_word at 2.
    destruct (Z.leb_spec (0 + Text.len w + 1) max_chars) as [Hle | _]; [lia |].
    cbn [app Text.join].
    destruct (wrap_text_fold_prefix max_chars rest [""] [w] (Text.len w)) as [tail Ht].
    destruct (fold_left (Text.wrap_text_word max_chars) rest ([""], [w], Text.len w))
      as [[lines cl] k].
    cbn [fst] in Ht. subst lines.
    destruct cl; eexists; cbn [app]; reflexivity.
  - pose proof (split_from_nonempty text "") as Hne. fold (Py.split text) in Hne.
    destruct (Py.split text) as [| w rest]; [intros [] |].
    intros Hin. exists w, rest. split; [reflexivity |].
    destruct (Z.lt_ge_cases max_chars (Text.len w + 1)) as [Hlt | Hge]; [exact Hlt |].
    exfalso. cbn [fold_left] in Hin. unfold Text.wrap_text_word at 2 in Hin.
    destruct (Z.leb_spec (0 + Text.len w + 1) max_chars) as [_ | Hgt]; [| lia].
    inversion Hne as [| ? ? Hw Hrest]; subst.
    destruct (wrap_text_fold_nonempty max_chars rest [] ([] ++ [w])
                (0 + Text.len w + 1)%Z Hrest ltac:(discriminate)
                ltac:(constructor; [exact Hw | constructor]) (Forall_nil _))
      as (Hl & Hcl & Hall).
    destruct (fold_left (Text.wrap_text_word max_chars) rest
                        ([], [] ++ [w], (0 + Text.len w + 1)%Z)) as [[lines cl] k].
    cbn [fst snd] in Hl, Hcl, Hall. rewrite Forall_forall in Hl.
    destruct cl as [| x cl]; [contradiction |].
    apply in_app_iff in Hin. destruct Hin as [Hin | [Hin | []]].
    + apply (Hl "" Hin). reflexivity.
    + apply (join_nonempty (x :: cl) Hcl Hall). exact Hin.
Qed.

(** The first word of this text is 20 characters long: wrapped at 10, the
    result starts with an empty line. *)
Lemma wrap_text_empty_first_line_witness :
  exists tail : list string,
    Text.wrap_text_lines "supercalifragilistic is long" 10 = "" :: tail.
Proof.
  apply (proj1 (wrap_text_empty_first_line "supercalifragilistic is long" 10)
               "supercalifragilistic" ["is"; "long"]).
  - reflexivity.
  - vm_compute. reflexivity.
Defined.

(** ** [AvatarVideoGenerator.create_avatar_video]: choosing the avatar *)

Lemma present_truthy (W : World) (o : option string) :
  present W o = true -> Py.truthy_opt o = true.
Proof.
  destruct o as [p |]; [| discriminate]. cbn.
  intros H. apply andb_true_iff in H. apply H.
Qed.

Lemma first_with_avatar_present (W : World) (c : Character) :
  first_with_avatar W = Some c -> present W (char_avatar_path c) = true.
Proof. intros H. apply find_some in H. apply H. Qed.

Lemma select_avatar_eq (W : World) (character_name : option string) :
  AvatarVideoGenerator.select_avatar W character_name
  = match named_character W character_name with
    | Some c =>
        if present W (char_avatar_path c)
        then (Some c, char_avatar_path c)
        else
          match first_with_avatar W with
          | Some c' => (Some c', char_avatar_path c')
          | None =>
              (Some c,
               Some (create_placeholder_avatar W (Py.get (char_name c) "default")))
          end
    | None =>
        match first_with_avatar W with
        | Some c' => (Some c', char_avatar_path c')
        | None => (None, None)
        end
    end.
Proof.
  unfold AvatarVideoGenerator.select_avatar, named_character.
  assert (Hsecond : forall (ch : option Character) (ap : option string),
             Py.truthy_opt ap = false ->
             (let '(character, avatar_path) :=
                match first_with_avatar W with
                | Some c => (Some c, char_avatar_path c)
                | None => (ch, ap)
                end in
              match character with
              | Some c =>
                  if negb (Py.truthy_opt avatar_path)
                  then (character,
                        Some (create_placeholder_avatar W (Py.get (char_name c) "default")))
                  else (character, avatar_path)
              | None => (character, avatar_path)
              end)
             = match first_with_avatar W with
               | Some c' => (Some c', char_avatar_path c')
               | None =>
                   match ch with
                   | Some c =>
                       (Some c,
                        Some (create_placeholder_avatar W
                                (Py.get (char_name c) "default")))
                   | None => (None, ap)
                   end
               end).
  { intros ch ap Hap.
    destruct (first_with_avatar W) as [c' |] eqn:Hf.
    - rewrite (present_truthy W _ (first_with_avatar_present W c' Hf)). reflexivity.
    - destruct ch; [rewrite Hap |]; reflexivity. }
  fold (first_with_avatar W).
  destruct (Py.truthy_opt character_name).
  - destruct (get_character W (Py.or_else character_name "")) as [c |].
    + destruct (present W (char_avatar_path c)) eqn:Hp.
      * rewrite (present_truthy W _ Hp). cbn [andb negb].
        rewrite (present_truthy W _ Hp). cbn [negb].
        rewrite (present_truthy W _ Hp). reflexivity.
      * cbn [negb].
        assert (Hap : Py.truthy_opt
                        (if Py.truthy_opt (char_avatar_path c) && true
                         then None else char_avatar_path c) = false).
        { destruct (Py.truthy_opt (char_avatar_path c)) eqn:Ht; cbn [andb];
            [reflexivity | exact Ht]. }
        rewrite Hap. cbn [negb]. apply (Hsecond (Some c) _ Hap).
    + cbn [Py.truthy_opt negb]. apply (Hsecond None None eq_refl).
  - cbn [Py.truthy_opt negb]. apply (Hsecond None None eq_refl).
Qed.

(** X13.  How [create_avatar_video] chooses character and avatar.  The
    character asked for is used when its avatar file exists.  Otherwise the
    first character of the store whose avatar file exists replaces it, and
    its voice is the one the audio is generated with.  Otherwise the
    character asked for is kept with a placeholder avatar made for its
    name.  Only when the name is unknown (or not given) and no stored
    character has an avatar file is there neither character nor avatar; a
    character is never selected without an avatar path. *)
Theorem select_avatar_cases (W : World) (character_name : option string) :
  let named := named_character W character_name in
  let selected := AvatarVideoGenerator.select_avatar W character_name in
  (forall c : Character,
      named = Some c ->
      present W (char_avatar_path c) = true ->
      selected = (Some c, char_avatar_path c))
  /\ (forall c' : Character,
         (forall c : Character, named = Some c -> present W (char_avatar_path c) = false) ->
         first_with_avatar W = Some c' ->
         selected = (Some c', char_avatar_path c')
         /\ present W (char_avatar_path c') = true)
  /\ (forall c : Character,
         named = Some c ->
         present W (char_avatar_path c) = false ->
         first_with_avatar W = None ->
         selected
         = (Some c, Some (create_placeholder_avatar W (Py.get (char_name c) "default"))))
  /\ (named = None -> first_with_avatar W = None -> selected = (None, None))
  /\ (fst selected = None <-> snd selected = None).
Proof.
  intros named selected. unfold selected. rewrite select_avatar_eq. fold named.
  split; [| split; [| split; [| split]]].
  - intros c -> ->. reflexivity.
  - intros c' Hn Hf. split; [| apply first_with_avatar_present, Hf].
    destruct named as [c |]; [rewrite (Hn c eq_refl) |]; rewrite Hf; reflexivity.
  - intros c -> -> ->. reflexivity.
  - intros -> ->. reflexivity.
  - destruct named as [c |].
    + destruct (present W (char_avatar_path c)) eqn:Hp.
      * apply present_truthy in Hp. cbn [fst snd].
        destruct (char_avatar_path c); [split; discriminate | discriminate].
      * destruct (first_with_avatar W) as [c' |] eqn:Hf; [| split; discriminate].
        apply first_with_avatar_present, present_truthy in Hf. cbn [fst snd].
        destruct (char_avatar_path c'); [split; discriminate | discriminate].
    + destruct (first_with_avatar W) as [c' |] eqn:Hf; [| split; reflexivity].
      apply first_with_avatar_present, present_truthy in Hf. cbn [fst snd].
      destruct (char_avatar_path c'); [split; discriminate | discriminate].
Qed.

(** ** [_generate_visual_sequence]: how many variants, and how long *)

Lemma Qfloor_below (x : Q) (k : Z) : x < inject_Z k -> (Qfloor x < k)%Z.
Proof.
  intros H. rewrite Zlt_Qlt.
  apply Qle_lt_trans with x; [apply Qfloor_le | exact H].
Qed.

Lemma Qle_bool_false (x y : Q) : Qle_bool x y = false -> y < x.
Proof.
  intros H. apply Qnot_le_lt. intros Hle.
  apply Qle_bool_iff in Hle. congruence.
Qed.

Lemma half_le (a d : Q) : a <= d -> a / 2 <= d / 2.
Proof.
  intros H. unfold Qdiv. apply Qmult_le_compat_r; [exact H | discriminate].
Qed.

Lemma half_lt (a d : Q) : d < a -> d / 2 < a / 2.
Proof.
  intros H. unfold Qdiv. apply Qmult_lt_compat_r; [reflexivity | exact H].
Qed.

(** The number of variants as a step function of the duration. *)
Lemma num_images_steps (d : Q) :
  VideoGenerator.num_images d
  = (if Qle_bool 8 d then 4 else if Qle_bool 6 d then 3 else 2)%Z.
Proof.
  unfold VideoGenerator.num_images.
  destruct (Qle_bool 8 d) eqn:H8.
  - apply Qle_bool_iff, half_le in H8. apply Qfloor_resp_le in H8.
    change (Qfloor (8 / 2)) with 4%Z in H8.
    destruct (Z.eqb_spec (Qfloor (d / 2)) 0); lia.
  - apply Qle_bool_false, half_lt in H8.
    assert (H4 : (Qfloor (d / 2) < 4)%Z).
    { apply Qfloor_below.
      apply Qlt_le_trans with (8 / 2); [exact H8 | vm_compute; discriminate]. }
    destruct (Qle_bool 6 d) eqn:H6.
    + apply Qle_bool_iff, half_le in H6. apply Qfloor_resp_le in H6.
      change (Qfloor (6 / 2)) with 3%Z in H6.
      destruct (Z.eqb_spec (Qfloor (d / 2)) 0); lia.
    + apply Qle_bool_false, half_lt in H6.
      assert (H3 : (Qfloor (d / 2) < 3)%Z).
      { apply Qfloor_below.
        apply Qlt_le_trans with (6 / 2); [exact H6 | vm_compute; discriminate]. }
      destruct (Z.eqb_spec (Qfloor (d / 2)) 0); lia.
Qed.

(** X14.  The variants [_generate_visual_sequence] strings together are 2
    for a duration below 6, 3 from 6 up to (not including) 8, and 4 from 8
    on; each of them is given the same share, the duration asked for
    divided by their number. *)
Theorem variant_sequence_steps
        (W : World) (description : string) (d : Q) (v : Visual) :
  VideoGenerator._generate_visual_sequence W description d = Ret v ->
  exists parts : list ImageClip,
    v = Sequence parts
    /\ List.length parts
       = (if Qle_bool 8 d then 4 else if Qle_bool 6 d then 3 else 2)%nat
    /\ Forall (fun ic : ImageClip =>
                 ic_duration ic = d / inject_Z (Z.of_nat (List.length parts)))
              parts.
Proof.
  intros H.
  destruct (generate_visual_sequence_parts W description d v H)
    as (parts & -> & Hlen & Hall).
  exists parts. split; [reflexivity |].
  assert (Hn : (2 <= VideoGenerator.num_images d <= 4)%Z) by apply num_images_bounds.
  split.
  - rewrite Hlen, num_images_steps.
    destruct (Qle_bool 8 d); [reflexivity |]. destruct (Qle_bool 6 d); reflexivity.
  - rewrite Hlen, Z2Nat.id by lia.
    eapply Forall_impl; [| exact Hall]. intros ic [Hd _]. exact Hd.
Qed.

Lemma variant_sequence_steps_witness :
  exists parts : list ImageClip,
    Sequence (repeat {| ic_image := ImgGenerated "png"; ic_duration := 7 # 3 |} 3)
    = Sequence parts
    /\ List.length parts = 3%nat
    /\ Forall (fun ic : ImageClip => ic_duration ic = 7 / inject_Z 3) parts.
Proof.
  destruct (variant_sequence_steps
              Stub.world "A diagram" 7
              (Sequence (repeat {| ic_image := ImgGenerated "png";
                                   ic_duration := 7 # 3 |} 3))
              eq_refl) as (parts & Hv & Hlen & Hall).
  exists parts. split; [exact Hv |]. split; [exact Hlen |].
  rewrite Hlen in Hall. exact Hall.
Defined.

(** ** [_create_scene_clip]: the description the visual is made from *)


Lemma or_else_truthy (s dflt : string) :
  Py.truthy s = true -> Py.or_else (Some s) dflt = s.
Proof. cbn. intros ->. reflexivity. Qed.




(** ** [AvatarVideoGenerator]: when a scene clip cannot be built *)

Lemma content_visual_raises_iff (W : World) (scene : Scene.t) (d : Q) :
  AvatarVideoGenerator._generate_content_visual W scene d = Raise
  <-> (Py.truthy (Py.get (Scene.visual scene) "") = false
       /\ Py.truthy_opt (Scene.dialogue scene) = true
       /\ AvatarVideoGenerator._derive_visual_from_dialogue
            W (Py.or_else (Scene.dialogue scene) "") (Scene.character scene) = Raise)
      \/ (present W (Scene.image_path scene) = true
          /\ image_open W (Py.or_else (Scene.image_path scene) "") = false).
Proof.
  unfold AvatarVideoGenerator._generate_content_visual.
  destruct (Py.truthy (Py.get (Scene.visual scene) "")) eqn:Hv;
    destruct (Py.truthy_opt (Scene.dialogue scene)) eqn:Hd; cbn [negb andb];
    try destruct (AvatarVideoGenerator._derive_visual_from_dialogue W _ _)
      as [vd |] eqn:Hvd;
    cbn [bind];
    try (destruct (present W (Scene.image_path scene)) eqn:Hp;
         [destruct (image_open W _) eqn:Ho |]; cbn [bind]);
    (split;
     [ intros H; try discriminate H;
       first [ left; repeat split; reflexivity | right; repeat split; reflexivity ]
     | intros [(H1 & H2 & H3) | (H1 & H2)]; congruence ]).
Qed.

(** X16.  In [AvatarVideoGenerator] the full-frame clip of a scene cannot
    be built in exactly three situations: the scene has no visual
    description but a dialogue, and the language model asked to derive the
    description raises; the scene's pre-supplied image file exists but
    cannot be opened; the audio file exists but cannot be decoded.  The
    first one has no counterpart in [VideoGenerator], which catches the
    failure of the language model.  A failure of image synthesis is never an
    error. *)
Theorem regular_scene_clip_raises_iff
        (W : World) (scene : Scene.t) (audio_path : option string) :
  AvatarVideoGenerator._create_regular_scene_clip W scene audio_path = Raise
  <-> (Py.truthy (Py.get (Scene.visual scene) "") = false
       /\ Py.truthy_opt (Scene.dialogue scene) = true
       /\ AvatarVideoGenerator._derive_visual_from_dialogue
            W (Py.or_else (Scene.dialogue scene) "") (Scene.character scene) = Raise)
      \/ (present W (Scene.image_path scene) = true
          /\ image_open W (Py.or_else (Scene.image_path scene) "") = false)
      \/ (present W audio_path = true /\ AudioFileClip W audio_path = None).
Proof.
  unfold AvatarVideoGenerator._create_regular_scene_clip.
  pose proof (content_visual_raises_iff
                W scene (AvatarVideoGenerator.resolve_duration_regular W scene audio_path))
    as Hc.
  destruct (AvatarVideoGenerator._generate_content_visual W scene _) as [v |];
    cbn [bind].
  - assert (Hno : ~ ((Py.truthy (Py.get (Scene.visual scene) "") = false
                      /\ Py.truthy_opt (Scene.dialogue scene) = true
                      /\ AvatarVideoGenerator._derive_visual_from_dialogue
                           W (Py.or_else (Scene.dialogue scene) "")
                           (Scene.character scene) = Raise)
                     \/ (present W (Scene.image_path scene) = true
                         /\ image_open W (Py.or_else (Scene.image_path scene) "")
                            = false))).
    { intros H. apply Hc in H. discriminate. }
    destruct (present W audio_path);
      [destruct (AudioFileClip W audio_path) |].
    + split; [discriminate |].
      intros [H | [H | [_ H]]]; [tauto | tauto | discriminate].
    + split; [intros _; right; right; split; reflexivity | reflexivity].
    + split; [discriminate |].
      intros [H | [H | [H _]]]; [tauto | tauto | discriminate].
  - split; [| reflexivity]. intros _.
    destruct (proj1 Hc eq_refl) as [H | H]; [left | right; left]; exact H.
Qed.

(** ** [_create_avatar_scene_clip]: the static avatar and the clip's length *)

Lemma Qmax_same (d : Q) : Qmax d d = d.
Proof. unfold Qmax, GenericMinMax.gmax. destruct (Qcompare d d); reflexivity. Qed.

Lemma content_visual_duration (W : World) (scene : Scene.t) (d : Q) (ic : ImageClip) :
  AvatarVideoGenerator._generate_content_visual W scene d = Ret ic ->
  ic_duration ic = d.
Proof.
  unfold AvatarVideoGenerator._generate_content_visual. intros Hc.
  match type of Hc with bind ?m _ = _ => destruct m as [vd |] end;
    [| discriminate].
  cbn [bind] in Hc.
  match type of Hc with bind ?m _ = _ => destruct m as [img |] end;
    [| discriminate].
  cbn [bind] in Hc. injection Hc as <-. reflexivity.
Qed.

(** X17.  A split-screen clip is never shorter than the resolved duration
    of its scene.  When the avatar is not lip-synced (no SadTalker, or
    [use_placeholder]) and the static avatar video is not there, because
    ffmpeg failed or left no file, the scene is not lost: the avatar pane is
    the drawn placeholder held for the resolved duration and the clip lasts
    exactly the resolved duration.  When the static video is there, the
    clip lasts the longer of that video, as read back from its file, and
    the resolved duration. *)
Theorem static_avatar_clip_duration
        (W : World) (self : AvatarVideoGenerator.t) (scene : Scene.t)
        (avatar_path audio_path : option string) (use_placeholder : bool)
        (urandom : string) (c : AvatarVideoGenerator.Clip) :
  AvatarVideoGenerator._create_avatar_scene_clip
    W self scene avatar_path audio_path use_placeholder urandom = Ret c ->
  let resolved := AvatarVideoGenerator.resolve_duration_avatar W scene audio_path in
  let video :=
    AvatarVideoGenerator._create_static_avatar_video W avatar_path audio_path urandom in
  resolved <= AvatarVideoGenerator.clip_duration c
  /\ (AvatarVideoGenerator.sadtalker_manager self && negb use_placeholder = false ->
      present W video = false ->
      AvatarVideoGenerator.clip_duration c = resolved
      /\ exists content : AvatarVideoGenerator.Pane,
          AvatarVideoGenerator.clip_layout c
          = AvatarVideoGenerator.SplitScreen
              (AvatarVideoGenerator._create_placeholder_avatar_clip self resolved)
              content (AvatarVideoGenerator.resolution self))
  /\ (AvatarVideoGenerator.sadtalker_manager self && negb use_placeholder = false ->
      present W video = true ->
      exists dv : Q,
        video_file_duration W (Py.or_else video "") = Some dv
        /\ AvatarVideoGenerator.clip_duration c = Qmax dv resolved).
Proof.
  intros H resolved video.
  split.
  - destruct (avatar_scene_clip_duration _ _ _ _ _ _ _ _ H)
      as (avatar & content & _ & Hd & Hc).
    rewrite Hc. fold resolved in Hd. rewrite <- Hd. apply Q.le_max_r.
  - unfold AvatarVideoGenerator._create_avatar_scene_clip in H.
    fold resolved in H.
    assert (Hstatic :
      AvatarVideoGenerator.sadtalker_manager self && negb use_placeholder = false ->
      forall (P : AvatarVideoGenerator.Pane -> Prop),
        (present W video = false ->
         P (AvatarVideoGenerator._create_placeholder_avatar_clip self resolved)) ->
        (forall dv : Q,
            present W video = true ->
            video_file_duration W (Py.or_else video "") = Some dv ->
            P {| AvatarVideoGenerator.pane_source :=
                   AvatarVideoGenerator.AvatarVideo (Py.or_else video "");
                 AvatarVideoGenerator.pane_width :=
                   AvatarVideoGenerator.avatar_width self;
                 AvatarVideoGenerator.pane_x := 0%Z;
                 AvatarVideoGenerator.pane_duration := dv |}) ->
        exists (avatar content : AvatarVideoGenerator.Pane),
          P avatar
          /\ AvatarVideoGenerator.pane_duration content = resolved
          /\ AvatarVideoGenerator.clip_layout c
             = AvatarVideoGenerator.SplitScreen avatar content
                 (AvatarVideoGenerator.resolution self)
          /\ AvatarVideoGenerator.clip_duration c
             = Qmax (AvatarVideoGenerator.pane_duration avatar)
                    (AvatarVideoGenerator.pane_duration content)).
    { intros Hmode P Hplace Hvideo. rewrite Hmode in H. cbn [bind] in H.
      fold video in H.
      destruct (AvatarVideoGenerator._generate_content_visual W scene resolved)
        as [ic |] eqn:Hic; [| discriminate].
      apply content_visual_duration in Hic. cbn [bind] in H.
      destruct (present W video) eqn:Hp.
      - destruct (video_file_duration W (Py.or_else video "")) as [dv |] eqn:Hdv;
          [| discriminate].
        cbn [bind] in H.
        destruct (present W audio_path);
          [destruct (AudioFileClip W audio_path); [| discriminate] |];
          injection H as <-; eexists _, _;
          ((split; [| split; [| split; reflexivity]]);
           [apply (Hvideo dv eq_refl eq_refl) | exact Hic]).
      - cbn [bind] in H.
        destruct (present W audio_path);
          [destruct (AudioFileClip W audio_path); [| discriminate] |];
          injection H as <-; eexists _, _;
          ((split; [| split; [| split; reflexivity]]);
           [apply (Hplace eq_refl) | exact Hic]). }
    split.
    + intros Hmode Hp.
      destruct (Hstatic Hmode
                  (fun a => a = AvatarVideoGenerator._create_placeholder_avatar_clip
                                  self resolved))
        as (avatar & content & Ha & Hcd & Hl & Hd).
      * reflexivity.
      * intros dv Hp'. congruence.
      * subst avatar. rewrite Hd, Hcd. cbn [AvatarVideoGenerator.pane_duration
          AvatarVideoGenerator._create_placeholder_avatar_clip].
        split; [apply Qmax_same |]. exists content. exact Hl.
    + intros Hmode Hp.
      destruct (Hstatic Hmode
                  (fun a => exists dv : Q,
                       video_file_duration W (Py.or_else video "") = Some dv
                       /\ AvatarVideoGenerator.pane_duration a = dv))
        as (avatar & content & (dv & Hdv & Ha) & Hcd & Hl & Hd).
      * intros Hp'. congruence.
      * intros dv _ Hdv. exists dv. split; [exact Hdv | reflexivity].
      * exists dv. split; [exact Hdv |]. rewrite Hd, Ha, Hcd. reflexivity.
Qed.

Lemma static_avatar_clip_duration_witness :
  exists c : AvatarVideoGenerator.Clip,
    AvatarVideoGenerator._create_avatar_scene_clip
      Stub.world (AvatarVideoGenerator.init (1920, 1080)%Z 30%Z false)
      (Stub.scene (Some 5) (Some "Hello") (Some "a.mp3"))
      (Some "avatar.png") (Some "a.mp3") true "00c0ffee" = Ret c
    /\ AvatarVideoGenerator.clip_duration c = 24 # 5.
Proof.
  destruct (AvatarVideoGenerator._create_avatar_scene_clip
              Stub.world (AvatarVideoGenerator.init (1920, 1080)%Z 30%Z false)
              (Stub.scene (Some 5) (Some "Hello") (Some "a.mp3"))
              (Some "avatar.png") (Some "a.mp3") true "00c0ffee") as [c |] eqn:Hc;
    [| vm_compute in Hc; discriminate].
  exists c. split; [reflexivity |].
  exact (proj1 (proj1 (proj2 (static_avatar_clip_duration _ _ _ _ _ _ _ c Hc))
                      eq_refl eq_refl)).
Defined.

(** ** [create_avatar_video]: split screen or full frame *)

Lemma generated_audio_nth_error (W : World) (scenes : list Scene.t)
      (character : option Character) (urandom : nat -> string) (i : nat) :
  nth_error (AvatarVideoGenerator._generate_all_audio W scenes character urandom) i
  = option_map (AvatarVideoGenerator.scene_audio W character urandom i)
               (nth_error scenes i).
Proof.
  unfold AvatarVideoGenerator._generate_all_audio.
  rewrite nth_error_map, enumerate_nth_error.
  destruct (nth_error scenes i); reflexivity.
Qed.

Lemma present_some (W : World) (o : option string) :
  present W o = true -> o <> None.
Proof. destruct o; [discriminate | discriminate]. Qed.

(** An entry of the audio list is [None] or a non-empty path. *)
Lemma scene_audio_truthy (W : World) (character : option Character)
      (urandom : nat -> string) (i : nat) (scene : Scene.t) :
  Py.truthy_opt (AvatarVideoGenerator.scene_audio W character urandom i scene)
  = match AvatarVideoGenerator.scene_audio W character urandom i scene with
    | Some _ => true
    | None => false
    end.
Proof.
  unfold AvatarVideoGenerator.scene_audio.
  destruct (present W (Scene.audio_path scene)) eqn:Hp.
  - rewrite (present_truthy W _ Hp).
    destruct (Scene.audio_path scene); [reflexivity | discriminate].
  - destruct (Py.truthy_opt (Scene.dialogue scene)); [| reflexivity].
    destruct (generate_voiceover W _ _ _ _); reflexivity.
Qed.

(** X18.  The clip [create_avatar_video] builds for a scene shows the
    avatar beside the content exactly when there is an avatar path and the
    scene has an audio entry; the scene has none when it brings no existing
    audio file of its own and either has no dialogue or text-to-speech
    failed for it.  Such a scene is not left out for that: it is shown over
    the full frame, silent, for its nominal duration. *)
Theorem split_screen_needs_audio
        (W : World) (self : AvatarVideoGenerator.t)
        (character : option Character) (avatar_path : option string)
        (use_placeholder : bool) (rnd_audio rnd_avatar : nat -> string)
        (scenes : list Scene.t) (i : nat) (scene : Scene.t)
        (clips : list AvatarVideoGenerator.Clip) (c : AvatarVideoGenerator.Clip) :
  nth_error scenes i = Some scene ->
  AvatarVideoGenerator.build_clip
    W self avatar_path use_placeholder
    (AvatarVideoGenerator._generate_all_audio W scenes character rnd_audio)
    rnd_avatar clips (i, scene)
  = clips ++ [c] ->
  let entry := AvatarVideoGenerator.scene_audio W character rnd_audio i scene in
  (is_split_screen c = true <-> Py.truthy_opt avatar_path = true /\ entry <> None)
  /\ (entry = None ->
      present W (Scene.audio_path scene) = false
      /\ is_split_screen c = false
      /\ AvatarVideoGenerator.clip_audio c = None
      /\ AvatarVideoGenerator.clip_duration c = nominal_duration scene).
Proof.
  intros Hs H entry.
  unfold AvatarVideoGenerator.build_clip in H.
  rewrite generated_audio_nth_error, Hs in H. cbn [option_map] in H.
  fold entry in H.
  pose proof (scene_audio_truthy W character rnd_audio i scene) as Ht.
  fold entry in Ht.
  assert (Hregular :
    forall clip : AvatarVideoGenerator.Clip,
      AvatarVideoGenerator._create_regular_scene_clip W scene entry = Ret clip ->
      is_split_screen clip = false
      /\ (present W entry = false ->
          AvatarVideoGenerator.clip_audio clip = None
          /\ AvatarVideoGenerator.clip_duration clip = nominal_duration scene)).
  { intros clip Hc. unfold AvatarVideoGenerator._create_regular_scene_clip in Hc.
    destruct (AvatarVideoGenerator._generate_content_visual W scene _) as [v |];
      [| discriminate].
    cbn [bind] in Hc. unfold AvatarVideoGenerator.resolve_duration_regular in Hc.
    destruct (present W entry).
    - destruct (AudioFileClip W entry); [| discriminate].
      injection Hc as <-. split; [reflexivity | discriminate].
    - injection Hc as <-. split; [reflexivity |]. intros _. split; reflexivity. }
  destruct (Py.truthy_opt avatar_path && Py.truthy_opt entry) eqn:Hb.
  - destruct (AvatarVideoGenerator._create_avatar_scene_clip W self scene _ _ _ _)
      as [clip |] eqn:Hc.
    + apply app_inj_tail in H. destruct H as [_ <-].
      destruct (avatar_scene_layout _ _ _ _ _ _ _ _ Hc) as (a & b & Hl & _).
      apply andb_prop in Hb. destruct Hb as [Ha He].
      split.
      * unfold is_split_screen. rewrite Hl.
        split; [intros _ | reflexivity].
        split; [exact Ha |]. intros Hn. rewrite Hn in He. discriminate.
      * intros Hn. rewrite Hn in He. discriminate.
    + exfalso. apply (f_equal (@List.length _)) in H.
      rewrite length_app in H. cbn in H. lia.
  - destruct (AvatarVideoGenerator._create_regular_scene_clip W scene entry)
      as [clip |] eqn:Hc.
    + apply app_inj_tail in H. destruct H as [_ <-].
      destruct (Hregular clip eq_refl) as [Hfull Hsilent].
      split.
      * rewrite Hfull. split; [discriminate |].
        intros [Ha He]. rewrite Ha, Ht in Hb.
        destruct entry; [discriminate | congruence].
      * intros Hn. rewrite Hn in Hsilent.
        destruct (Hsilent eq_refl) as [Hau Hd].
        split; [| split; [exact Hfull | split; [exact Hau | exact Hd]]].
        unfold entry, AvatarVideoGenerator.scene_audio in Hn.
        destruct (present W (Scene.audio_path scene)) eqn:Hp; [| reflexivity].
        apply present_some in Hp. contradiction.
    + exfalso. apply (f_equal (@List.length _)) in H.
      rewrite length_app in H. cbn in H. lia.
Qed.

Lemma split_screen_needs_audio_witness :
  exists c : AvatarVideoGenerator.Clip,
    AvatarVideoGenerator.build_clip
      Stub.world (AvatarVideoGenerator.init (1920, 1080)%Z 30%Z false)
      (Some "avatar.png") true
      (AvatarVideoGenerator._generate_all_audio
         Stub.world [Stub.scene (Some 5) (Some "Hello") None] None (fun _ => "00c0ffee"))
      (fun _ => "0badf00d") [] (0%nat, Stub.scene (Some 5) (Some "Hello") None)
    = [] ++ [c]
    /\ is_split_screen c = false
    /\ AvatarVideoGenerator.clip_duration c = 5.
Proof.
  eexists. split; [vm_compute; reflexivity |].
  match goal with
  | |- is_split_screen ?c = false /\ _ =>
      destruct (split_screen_needs_audio
                  Stub.world (AvatarVideoGenerator.init (1920, 1080)%Z 30%Z false)
                  None (Some "avatar.png") true
                  (fun _ => "00c0ffee") (fun _ => "0badf00d")
                  [Stub.scene (Some 5) (Some "Hello") None] 0
                  (Stub.scene (Some 5) (Some "Hello") None) [] c eq_refl eq_refl)
        as [_ H]
  end.
  destruct (H eq_refl) as (_ & Hf & _ & Hd). split; assumption.
Defined.

(** ** [create_avatar_video]: when there is no video *)

Section AvatarClips.
Variable W : World.
Variable self : AvatarVideoGenerator.t.
Variable avatar_path : option string.
Variable use_placeholder : bool.
Variable audio_paths : list (option string).
Variable urandom : nat -> string.

Let step := AvatarVideoGenerator.build_clip W self avatar_path use_placeholder
                                            audio_paths urandom.

Lemma avatar_build_clip_app (clips : list AvatarVideoGenerator.Clip)
      (e : nat * Scene.t) :
  step clips e = clips ++ step [] e.
Proof.
  unfold step, AvatarVideoGenerator.build_clip. destruct e as [i scene].
  destruct (nth_error audio_paths i) as [audio_path |];
    [| now rewrite app_nil_r].
  destruct (if Py.truthy_opt avatar_path && Py.truthy_opt audio_path then _ else _);
    [reflexivity | now rewrite app_nil_r].
Qed.

Lemma avatar_build_clips_flat (scenes : list Scene.t) :
  AvatarVideoGenerator.build_clips W self avatar_path use_placeholder scenes
                                   audio_paths urandom
  = flat_map (step []) (Py.enumerate scenes).
Proof.
  unfold AvatarVideoGenerator.build_clips. fold step.
  induction scenes as [| s scenes IH] using rev_ind; [reflexivity |].
  rewrite enumerate_snoc, fold_left_app, flat_map_app, IH.
  cbn [fold_left flat_map]. rewrite app_nil_r. apply avatar_build_clip_app.
Qed.

End AvatarClips.

(** X19.  [create_avatar_video] returns [None] exactly when the script has
    no scene or the clip of every scene raised, the clip of a scene being
    the split-screen one when there is an avatar path and the scene has an
    audio entry, the full-frame one otherwise.  A scene without audio or a
    failing text-to-speech alone never empties the video. *)
Theorem avatar_video_none_exactly
        (W : World) (self : AvatarVideoGenerator.t)
        (script : AvatarVideoGenerator.Script) (target_duration : Z)
        (character_name : option string) (use_placeholder : bool)
        (urandom : AvatarVideoGenerator.Entropy) :
  let scenes :=
    match AvatarVideoGenerator.script_scenes script with
    | Some l => l
    | None => []
    end in
  let character := fst (AvatarVideoGenerator.select_avatar W character_name) in
  let avatar_path := snd (AvatarVideoGenerator.select_avatar W character_name) in
  AvatarVideoGenerator.create_avatar_video
    W self script target_duration character_name use_placeholder urandom = Ret None
  <-> scenes = []
      \/ forall (i : nat) (s : Scene.t),
           nth_error scenes i = Some s ->
           let audio :=
             AvatarVideoGenerator.scene_audio
               W character (AvatarVideoGenerator.rnd_audio urandom) i s in
           (if Py.truthy_opt avatar_path && Py.truthy_opt audio
            then AvatarVideoGenerator._create_avatar_scene_clip
                   W self s avatar_path audio use_placeholder
                   (AvatarVideoGenerator.rnd_avatar urandom i)
            else AvatarVideoGenerator._create_regular_scene_clip W s audio)
           = Raise.
Proof.
  intros scenes character avatar_path.
  unfold AvatarVideoGenerator.create_avatar_video. fold scenes.
  destruct scenes as [| s0 scenes'] eqn:Hs; [tauto |]. rewrite <- Hs.
  assert (Hne : scenes <> []) by (rewrite Hs; discriminate).
  destruct (AvatarVideoGenerator.select_avatar W character_name)
    as [ch ap] eqn:Hsel.
  cbn [fst snd] in character, avatar_path.
  rewrite avatar_build_clips_flat.
  set (audio_paths := AvatarVideoGenerator._generate_all_audio W scenes ch _).
  set (step := AvatarVideoGenerator.build_clip _ _ _ _ _ _ []).
  assert (Hstep : flat_map step (Py.enumerate scenes) = []
                  <-> forall (i : nat) (s : Scene.t),
                        nth_error scenes i = Some s ->
                        let audio :=
                          AvatarVideoGenerator.scene_audio
                            W character (AvatarVideoGenerator.rnd_audio urandom) i s in
                        (if Py.truthy_opt avatar_path && Py.truthy_opt audio
                         then AvatarVideoGenerator._create_avatar_scene_clip
                                W self s avatar_path audio use_placeholder
                                (AvatarVideoGenerator.rnd_avatar urandom i)
                         else AvatarVideoGenerator._create_regular_scene_clip W s audio)
                        = Raise).
  { rewrite flat_map_nil. split.
    - intros H i s Hi. cbn zeta.
      specialize (H (i, s) (proj2 (enumerate_In_nth_error scenes i s) Hi)).
      unfold step, AvatarVideoGenerator.build_clip in H.
      unfold audio_paths in H.
      rewrite generated_audio_nth_error, Hi in H. cbn [option_map] in H.
      fold character avatar_path in H.
      destruct (if Py.truthy_opt avatar_path && Py.truthy_opt _ then _ else _);
        [discriminate | reflexivity].
    - intros H [i s] Hin. apply enumerate_In_nth_error in Hin.
      unfold step, AvatarVideoGenerator.build_clip, audio_paths.
      rewrite generated_audio_nth_error, Hin. cbn [option_map].
      specialize (H i s Hin). cbn zeta in H.
      unfold character, avatar_path in H. rewrite H. reflexivity. }
  rewrite <- Hstep.
  destruct (flat_map step (Py.enumerate scenes)) as [| c0 clips] eqn:Hc.
  - split; [intros _; right; reflexivity | reflexivity].
  - split; [| intros [H | H]; [contradiction | discriminate]].
    destruct (AvatarVideoGenerator.primary_track W (c0 :: clips)) as [[p |] |];
      cbn [bind]; try discriminate.
    destruct (write_ok W _); discriminate.
Qed.

(** ** [TTSManager]: the voice a character is given *)

Lemma dict_get_cases (d : list (string * string)) (k dflt : string) :
  (In k (map fst d) /\ In (TTSManager.dict_get d k dflt) (map snd d))
  \/ (~ In k (map fst d) /\ TTSManager.dict_get d k dflt = dflt).
Proof.
  induction d as [| [k' v] d IH]; cbn [TTSManager.dict_get map fst snd In].
  - right. split; [tauto | reflexivity].
  - destruct (String.eqb_spec k' k) as [-> | Hne].
    + left. split; left; reflexivity.
    + destruct IH as [[Hk Hv] | [Hk Hv]].
      * left. split; right; assumption.
      * right. split; [intros [H | H]; [exact (Hne H) | exact (Hk H)] | exact Hv].
Qed.

Lemma mapped_voice_available (voice_key : string) :
  In (TTSManager.dict_get TTSManager.voice_mapping voice_key "alloy")
     TTSManager.AVAILABLE_VOICES.
Proof.
  destruct (dict_get_cases TTSManager.voice_mapping voice_key "alloy")
    as [[_ H] | [_ ->]]; [| left; reflexivity].
  revert H. generalize (TTSManager.dict_get TTSManager.voice_mapping voice_key "alloy").
  intros v H. cbn in H.
  repeat (destruct H as [<- | H]; [cbn; tauto |]). destruct H.
Qed.

(** X20.  Whatever gender and voice style it is given, [TTSManager] speaks
    with one of the six voices of [Config.AVAILABLE_VOICES]: the voice
    [get_voice_mapping_info] reports is one of them, it is
    [Config.DEFAULT_VOICE] whenever the pair is not a key of the mapping
    (the keys are case-sensitive), its characteristic is never empty, and
    it is the voice with which [generate_voiceover] asks for the speech
    whenever it returns; what [generate_voiceover] returns is the output
    path it was given. *)
Theorem voice_always_available (gender voice_style : string) :
  let info := TTSManager.get_voice_mapping_info gender voice_style in
  In (TTSManager.info_mapped_voice info) TTSManager.AVAILABLE_VOICES
  /\ (~ In (TTSManager.info_voice_key info) (map fst TTSManager.voice_mapping) ->
      TTSManager.info_mapped_voice info = TTSManager.DEFAULT_VOICE)
  /\ TTSManager.info_characteristic info <> ""
  /\ forall (client : TTSManager.Client) (text output_path out : string),
      TTSManager.generate_voiceover
        client text
        {| TTSManager.gender := Some gender;
           TTSManager.voice_style := Some voice_style |}
        output_path = Ret out ->
      out = output_path
      /\ exists content : string,
          TTSManager.speech_create client (TTSManager.info_mapped_voice info) text
          = Some content
          /\ TTSManager.file_write client output_path content = true.
Proof.
  intros info.
  assert (Hin : In (TTSManager.info_mapped_voice info) TTSManager.AVAILABLE_VOICES)
    by apply mapped_voice_available.
  split; [exact Hin |].
  split.
  { intros Hk. unfold info, TTSManager.get_voice_mapping_info in *.
    cbn [TTSManager.info_mapped_voice TTSManager.info_voice_key] in *.
    destruct (dict_get_cases TTSManager.voice_mapping (gender ++ "_" ++ voice_style)
                             "alloy") as [[H _] | [_ H]];
      [contradiction | exact H]. }
  split.
  { unfold info, TTSManager.get_voice_mapping_info in *.
    cbn [TTSManager.info_mapped_voice TTSManager.info_characteristic] in *.
    revert Hin.
    generalize (TTSManager.dict_get TTSManager.voice_mapping
                                    (gender ++ "_" ++ voice_style) "alloy").
    intros v H. cbn in H.
    repeat (destruct H as [<- | H]; [cbn; discriminate |]). destruct H. }
  intros client text output_path out H.
  unfold TTSManager.generate_voiceover in H.
  cbn [TTSManager.gender TTSManager.voice_style] in H.
  unfold info, TTSManager.get_voice_mapping_info.
  cbn [TTSManager.info_mapped_voice].
  destruct (TTSManager.speech_create client _ text) as [content |];
    [| discriminate].
  destruct (TTSManager.file_write client output_path content) eqn:Hw;
    [| discriminate].
  injection H as <-. split; [reflexivity |].
  exists content. split; [reflexivity | exact Hw].
Qed.

(** ** [ensure_voice_consistency] *)

Lemma consistency_loop_seen (character_name seen : string) (scenes : list Scene.t) :
  TTSManager.consistency_loop character_name (Some seen) scenes = true
  <-> forall s : Scene.t,
        In s scenes -> spoken_by character_name s -> scene_voice_key s = seen.
Proof.
  induction scenes as [| scene rest IH]; cbn [TTSManager.consistency_loop In].
  - split; [intros _ s [] | reflexivity].
  - unfold spoken_by in *.
    destruct (Scene.character scene) as [c |] eqn:Hc.
    + destruct (String.eqb_spec c character_name) as [-> | Hne].
      * fold (scene_voice_key scene).
        destruct (String.eqb_spec seen (scene_voice_key scene)) as [He | He];
          cbn [negb].
        -- rewrite IH. split.
           ++ intros H s [<- | Hs] Hsp; [symmetry; exact He | apply H; assumption].
           ++ intros H s Hs. apply H. right. exact Hs.
        -- split; [discriminate |]. intros H. exfalso. apply He.
           symmetry. apply (H scene); [left; reflexivity | exact Hc].
      * rewrite IH. split.
        -- intros H s [<- | Hs] Hsp; [congruence | apply H; assumption].
        -- intros H s Hs. apply H. right. exact Hs.
    + rewrite IH. split.
      * intros H s [<- | Hs] Hsp; [congruence | apply H; assumption].
      * intros H s Hs. apply H. right. exact Hs.
Qed.

(** X21.  [ensure_voice_consistency] answers [True] exactly when all the
    scenes spoken by the character carry the same voice key, the key being
    the scene's gender and voice style joined by an underscore with a
    missing entry printed as [None]; scenes of other characters and scenes
    without a character are not looked at, and a character that speaks in
    no scene is consistent. *)
Theorem ensure_voice_consistency_spec (character_name : string)
        (scenes : list Scene.t) :
  (TTSManager.ensure_voice_consistency character_name scenes = true
   <-> forall s1 s2 : Scene.t,
         In s1 scenes -> In s2 scenes ->
         spoken_by character_name s1 -> spoken_by character_name s2 ->
         scene_voice_key s1 = scene_voice_key s2)
  /\ ((forall s : Scene.t, In s scenes -> ~ spoken_by character_name s) ->
      TTSManager.ensure_voice_consistency character_name scenes = true).
Proof.
  assert (Hspec :
    TTSManager.ensure_voice_consistency character_name scenes = true
    <-> forall s1 s2 : Scene.t,
          In s1 scenes -> In s2 scenes ->
          spoken_by character_name s1 -> spoken_by character_name s2 ->
          scene_voice_key s1 = scene_voice_key s2).
  { unfold TTSManager.ensure_voice_consistency.
    induction scenes as [| scene rest IH]; cbn [TTSManager.consistency_loop In].
    - split; [intros _ s1 s2 [] | reflexivity].
    - unfold spoken_by in *.
      destruct (Scene.character scene) as [c |] eqn:Hc.
      + destruct (String.eqb_spec c character_name) as [-> | Hne].
        * fold (scene_voice_key scene). rewrite consistency_loop_seen.
          unfold spoken_by. split.
          -- intros H s1 s2 [<- | H1] [<- | H2] Hs1 Hs2.
             ++ reflexivity.
             ++ symmetry. apply H; assumption.
             ++ apply H; assumption.
             ++ rewrite (H s1 H1 Hs1), (H s2 H2 Hs2). reflexivity.
          -- intros H s Hs Hsp. apply H; [right; exact Hs | left; reflexivity
                                          | exact Hsp | exact Hc].
        * rewrite IH. split.
          -- intros H s1 s2 [<- | H1] [<- | H2] Hs1 Hs2; try congruence.
             apply H; assumption.
          -- intros H s1 s2 H1 H2. apply H; right; assumption.
      + rewrite IH. split.
        * intros H s1 s2 [<- | H1] [<- | H2] Hs1 Hs2; try congruence.
          apply H; assumption.
        * intros H s1 s2 H1 H2. apply H; right; assumption. }
  split; [exact Hspec |].
  intros Hnone. apply Hspec. intros s1 s2 H1 _ Hs1 _.
  exfalso. exact (Hnone s1 H1 Hs1).
Qed.

(** ** [generate_batch_voiceovers] *)

Lemma batch_scene_app (client : TTSManager.Client) (paths : list (option string))
      (i : nat) (scene : Scene.t) :
  TTSManager.batch_scene client paths (i, scene)
  = match TTSManager.batch_scene client [] (i, scene) with
    | Ret _ => Ret (paths ++ [batch_entry i scene])
    | Raise => Raise
    end.
Proof.
  unfold TTSManager.batch_scene, batch_entry.
  destruct (Py.truthy_opt (Scene.dialogue scene)); [| reflexivity].
  destruct (TTSManager.generate_voiceover client _ _ _); reflexivity.
Qed.

Lemma batch_voiceovers_snoc (client : TTSManager.Client) (scenes : list Scene.t)
      (scene : Scene.t) :
  TTSManager.generate_batch_voiceovers client (scenes ++ [scene])
  = match TTSManager.generate_batch_voiceovers client scenes with
    | Ret paths =>
        match TTSManager.batch_scene client [] (List.length scenes, scene) with
        | Ret _ => Ret (paths ++ [batch_entry (List.length scenes) scene])
        | Raise => Raise
        end
    | Raise => Raise
    end.
Proof.
  unfold TTSManager.generate_batch_voiceovers.
  rewrite enumerate_snoc, fold_left_app. cbn [fold_left].
  destruct (fold_left _ (Py.enumerate scenes) (Ret [])) as [paths |];
    cbn [bind]; [apply batch_scene_app | reflexivity].
Qed.

(** X22.  [generate_batch_voiceovers] is all or nothing.  It raises exactly
    when text-to-speech fails for one scene that has a dialogue: unlike the
    audio pass of [create_avatar_video], it catches nothing, and the
    entries of the scenes before the failing one are lost with it.
    Otherwise it returns one entry per scene, at the scene's index: the file
    [temp_audio_<i>.mp3], numbered from 0, for a scene with a dialogue and
    [None] for a scene without.  The voice asked for is the scene's gender
    and voice style, [Female] and [Professional] where the scene gives
    none. *)
Theorem batch_voiceovers_all_or_nothing (client : TTSManager.Client)
        (scenes : list Scene.t) :
  let speak (i : nat) (scene : Scene.t) :=
    TTSManager.generate_voiceover
      client (Py.or_else (Scene.dialogue scene) "")
      {| TTSManager.gender := Some (Py.get (Scene.character_gender scene) "Female");
         TTSManager.voice_style :=
           Some (Py.get (Scene.voice_style scene) "Professional") |}
      ("temp_audio_" ++ Py.str_of_nat i ++ ".mp3")%string in
  (TTSManager.generate_batch_voiceovers client scenes = Raise
   <-> exists (i : nat) (scene : Scene.t),
         nth_error scenes i = Some scene
         /\ Py.truthy_opt (Scene.dialogue scene) = true
         /\ speak i scene = Raise)
  /\ (forall paths : list (option string),
         TTSManager.generate_batch_voiceovers client scenes = Ret paths ->
         List.length paths = List.length scenes
         /\ forall (i : nat) (scene : Scene.t),
              nth_error scenes i = Some scene ->
              nth_error paths i = Some (batch_entry i scene)).
Proof.
  intros speak.
  assert (Hscene : forall (i : nat) (scene : Scene.t),
             TTSManager.batch_scene client [] (i, scene) = Raise
             <-> Py.truthy_opt (Scene.dialogue scene) = true
                 /\ speak i scene = Raise).
  { intros i scene. unfold TTSManager.batch_scene, speak.
    destruct (Py.truthy_opt (Scene.dialogue scene)).
    - destruct (TTSManager.generate_voiceover client _ _ _); cbn [bind].
      + split; [discriminate | intros [_ H]; discriminate].
      + split; [intros _; split; reflexivity | reflexivity].
    - split; [discriminate | intros [H _]; discriminate]. }
  induction scenes as [| scene scenes IH] using rev_ind.
  - split.
    + split; [discriminate |]. intros (i & s & H & _). destruct i; discriminate.
    + intros paths H. injection H as <-. split; [reflexivity |].
      intros i s H. destruct i; discriminate.
  - destruct IH as [IHraise IHret]. rewrite batch_voiceovers_snoc.
    destruct (TTSManager.generate_batch_voiceovers client scenes) as [paths |].
    + destruct (IHret paths eq_refl) as [Hlen Hnth].
      assert (Hnone : forall (i : nat) (s : Scene.t),
                 nth_error scenes i = Some s ->
                 ~ (Py.truthy_opt (Scene.dialogue s) = true /\ speak i s = Raise)).
      { intros i s Hi Hf.
        assert (Hr : @Ret (list (option string)) paths = Raise);
          [| discriminate].
        apply IHraise. exists i, s. tauto. }
      destruct (TTSManager.batch_scene client [] (List.length scenes, scene))
        eqn:Hb.
      * split.
        -- split; [discriminate |]. intros (i & s & Hi & Hf).
           destruct (Nat.lt_ge_cases i (List.length scenes)) as [Hlt | Hge].
           ++ rewrite nth_error_app1 in Hi by exact Hlt.
              exfalso. exact (Hnone i s Hi Hf).
           ++ rewrite nth_error_app2 in Hi by exact Hge.
              destruct (i - List.length scenes)%nat as [| k] eqn:Hk;
                [| destruct k; discriminate].
              cbn in Hi. injection Hi as <-.
              assert (i = List.length scenes) by lia. subst i.
              apply Hscene in Hf. congruence.
        -- intros paths' H. injection H as <-.
           split; [rewrite !length_app, Hlen; reflexivity |].
           intros i s Hi.
           destruct (Nat.lt_ge_cases i (List.length scenes)) as [Hlt | Hge].
           ++ rewrite nth_error_app1 in Hi by exact Hlt.
              rewrite nth_error_app1 by (rewrite Hlen; exact Hlt).
              apply Hnth. exact Hi.
           ++ rewrite nth_error_app2 in Hi by exact Hge.
              rewrite nth_error_app2 by (rewrite Hlen; exact Hge). rewrite Hlen.
              destruct (i - List.length scenes)%nat as [| k] eqn:Hk;
                [| destruct k; discriminate].
              cbn in Hi |- *. injection Hi as <-.
              assert (i = List.length scenes) by lia. subst i. reflexivity.
      * split; [| discriminate].
        split; [intros _ | reflexivity].
        exists (List.length scenes), scene.
        split; [rewrite nth_error_app2, Nat.sub_diag by lia; reflexivity |].
        apply Hscene. exact Hb.
    + split; [| discriminate].
      split; [intros _ | reflexivity].
      destruct (proj1 IHraise eq_refl) as (i & s & Hi & Hf).
      exists i, s. split; [| exact Hf].
      rewrite nth_error_app1; [exact Hi |].
      apply nth_error_Some. congruence.
Qed.

(** * A run and the next: the files [generate] leaves behind *)

(** ** Reading the same from two file systems *)

Lemma same_reads_refl (W : World) (p : string) : same_reads W W p.
Proof. repeat split. Qed.

Lemma same_reads_sym (W W' : World) (p : string) :
  same_reads W W' p -> same_reads W' W p.
Proof. intros (H1 & H2 & H3). repeat split; symmetry; assumption. Qed.

Lemma same_reads_trans (W1 W2 W3 : World) (p : string) :
  same_reads W1 W2 p -> same_reads W2 W3 p -> same_reads W1 W3 p.
Proof.
  intros (H1 & H2 & H3) (K1 & K2 & K3).
  repeat split; etransitivity; eassumption.
Qed.

Lemma same_reads_at_sym (W W' : World) (o : option string) :
  same_reads_at W W' o -> same_reads_at W' W o.
Proof. intros H p Hp. apply same_reads_sym, H, Hp. Qed.

Lemma same_reads_at_trans (W1 W2 W3 : World) (o : option string) :
  same_reads_at W1 W2 o -> same_reads_at W2 W3 o -> same_reads_at W1 W3 o.
Proof. intros H K p Hp. eapply same_reads_trans; [apply H | apply K]; exact Hp. Qed.

Lemma same_services_refl (W : World) : same_services W W.
Proof. repeat split. Qed.

Lemma same_services_sym (W W' : World) : same_services W W' -> same_services W' W.
Proof.
  intros (H1 & H2 & H3 & H4 & H5 & H6 & H7 & H8).
  repeat split; symmetry; assumption.
Qed.

Lemma same_services_trans (W1 W2 W3 : World) :
  same_services W1 W2 -> same_services W2 W3 -> same_services W1 W3.
Proof.
  intros (H1 & H2 & H3 & H4 & H5 & H6 & H7 & H8)
         (K1 & K2 & K3 & K4 & K5 & K6 & K7 & K8).
  repeat split; etransitivity; eassumption.
Qed.

(** *** What the pipeline reads of a world *)

Lemma present_ext (W W' : World) (o : option string) :
  same_reads_at W W' o -> present W o = present W' o.
Proof.
  intros H. destruct o as [p |]; [| reflexivity].
  cbn. destruct (H p eq_refl) as (-> & _). reflexivity.
Qed.

Lemma audio_clip_ext (W W' : World) (o : option string) :
  same_reads_at W W' o -> AudioFileClip W o = AudioFileClip W' o.
Proof.
  intros H. destruct o as [p |]; [| reflexivity].
  cbn. destruct (H p eq_refl) as (_ & -> & _). reflexivity.
Qed.

Lemma resolve_duration_ext (W W' : World) (scene : Scene.t) (o : option string) :
  same_reads_at W W' o ->
  VideoGenerator.resolve_duration W scene o = VideoGenerator.resolve_duration W' scene o.
Proof.
  intros H. unfold VideoGenerator.resolve_duration.
  rewrite (present_ext W W' o H), (audio_clip_ext W W' o H). reflexivity.
Qed.

Lemma visual_description_ext (W W' : World) (scene : Scene.t) :
  same_services W W' ->
  VideoGenerator.visual_description W scene = VideoGenerator.visual_description W' scene.
Proof.
  intros (_ & Hc & _).
  unfold VideoGenerator.visual_description, VideoGenerator._derive_visual_from_dialogue.
  rewrite Hc. reflexivity.
Qed.

Lemma generate_visual_ext (W W' : World) (description : string) (d : Q) :
  same_services W W' ->
  VideoGenerator._generate_visual W description d
  = VideoGenerator._generate_visual W' description d.
Proof.
  intros (Hi & _). unfold VideoGenerator._generate_visual. rewrite Hi. reflexivity.
Qed.

Lemma generate_visual_sequence_ext (W W' : World) (description : string) (d : Q) :
  same_services W W' ->
  VideoGenerator._generate_visual_sequence W description d
  = VideoGenerator._generate_visual_sequence W' description d.
Proof.
  intros (Hi & _ & _ & _ & _ & _ & Hc & _).
  unfold VideoGenerator._generate_visual_sequence, VideoGenerator.concatenate_subclips.
  rewrite Hi, Hc. reflexivity.
Qed.

Lemma base_clip_ext (W W' : World) (scene : Scene.t) (d : Q) :
  same_services W W' ->
  same_reads_at W W' (Scene.image_path scene) ->
  VideoGenerator.base_clip W scene d = VideoGenerator.base_clip W' scene d.
Proof.
  intros Hs Hi. unfold VideoGenerator.base_clip.
  rewrite (present_ext W W' _ Hi), (visual_description_ext W W' scene Hs).
  rewrite (generate_visual_ext W W' _ d Hs), (generate_visual_sequence_ext W W' _ d Hs).
  destruct (present W' (Scene.image_path scene)) eqn:Hp; [| reflexivity].
  destruct (Scene.image_path scene) as [p |]; [| discriminate].
  destruct (Hi p eq_refl) as (_ & _ & Ho).
  cbn in Hp. apply andb_prop in Hp. destruct Hp as [Ht _].
  rewrite (or_else_truthy p "" Ht), Ho. reflexivity.
Qed.

Lemma create_scene_clip_ext (W W' : World) (scene : Scene.t) (o : option string) :
  same_services W W' ->
  same_reads_at W W' o ->
  same_reads_at W W' (Scene.image_path scene) ->
  VideoGenerator._create_scene_clip W scene o
  = VideoGenerator._create_scene_clip W' scene o.
Proof.
  intros Hs Ho Hi. unfold VideoGenerator._create_scene_clip.
  rewrite (resolve_duration_ext W W' scene o Ho), (base_clip_ext W W' scene _ Hs Hi).
  rewrite (present_ext W W' o Ho), (audio_clip_ext W W' o Ho). reflexivity.
Qed.

Lemma voiceover_path_ext (W W' : World) (i : nat) (scene : Scene.t) :
  same_services W W' ->
  same_reads_at W W' (Scene.audio_path scene) ->
  VideoGenerator.voiceover_path W i scene = VideoGenerator.voiceover_path W' i scene.
Proof.
  intros (_ & _ & Hv & _) Ha. unfold VideoGenerator.voiceover_path.
  rewrite (present_ext W W' _ Ha), Hv. reflexivity.
Qed.

Lemma voiceover_paths_ext (W W' : World) (scenes : list Scene.t) :
  same_services W W' ->
  (forall scene : Scene.t,
      In scene scenes -> same_reads_at W W' (Scene.audio_path scene)) ->
  VideoGenerator.voiceover_paths W scenes = VideoGenerator.voiceover_paths W' scenes.
Proof.
  intros Hs Ha. unfold VideoGenerator.voiceover_paths.
  apply map_ext_in. intros [i scene] Hin. cbn [fst snd].
  apply voiceover_path_ext; [exact Hs |]. apply Ha.
  apply enumerate_In_nth_error in Hin. apply (nth_error_In _ _ Hin).
Qed.

Lemma stitch_ext (W W' : World) (clips : list VideoGenerator.Clip) :
  same_services W W' -> VideoGenerator.stitch W clips = VideoGenerator.stitch W' clips.
Proof.
  intros (_ & _ & _ & _ & Hw & Hf & _).
  unfold VideoGenerator.stitch. destruct clips as [| c0 rest]; [reflexivity |].
  generalize [c0]. induction rest as [| c rest IH]; intros acc; [reflexivity |].
  cbn [fold_left].
  replace (VideoGenerator.stitch_clip W acc c) with (VideoGenerator.stitch_clip W' acc c);
    [apply IH |].
  unfold VideoGenerator.stitch_clip, VideoGenerator.crossfade. rewrite Hw, Hf. reflexivity.
Qed.

Lemma primary_track_ext (W W' : World) (clips : list VideoGenerator.Clip) :
  same_services W W' ->
  VideoGenerator.primary_track W clips = VideoGenerator.primary_track W' clips.
Proof.
  intros Hs. unfold VideoGenerator.primary_track, VideoGenerator.concatenate_videoclips.
  rewrite (stitch_ext W W' clips Hs).
  destruct Hs as (_ & _ & _ & _ & _ & _ & Hc & _). rewrite Hc. reflexivity.
Qed.

Lemma caption_duration_ext (W W' : World) (paths : list (option string))
      (idx : nat) (scene : Scene.t) :
  (forall o : option string, In o paths -> same_reads_at W W' o) ->
  VideoGenerator.caption_duration W paths idx scene
  = VideoGenerator.caption_duration W' paths idx scene.
Proof.
  intros H. unfold VideoGenerator.caption_duration.
  assert (Ho : same_reads_at W W' (Py.get_or_none paths idx)).
  { unfold Py.get_or_none. destruct (nth_error paths idx) as [o |] eqn:Hn.
    - apply H. apply (nth_error_In _ _ Hn).
    - intros p Hp. discriminate. }
  rewrite (present_ext W W' _ Ho), (audio_clip_ext W W' _ Ho). reflexivity.
Qed.

Lemma caption_loop_ext (W W' : World) (self : VideoGenerator.t)
      (scenes : list Scene.t) (paths : list (option string)) :
  same_services W W' ->
  (forall o : option string, In o paths -> same_reads_at W W' o) ->
  VideoGenerator.caption_loop W self scenes paths
  = VideoGenerator.caption_loop W' self scenes paths.
Proof.
  intros (_ & _ & _ & Ht & _) H. unfold VideoGenerator.caption_loop.
  generalize (@nil CaptionClip, 0). generalize (Py.enumerate scenes).
  intros l. induction l as [| [idx scene] l IH]; intros st; [reflexivity |].
  cbn [fold_left].
  replace (VideoGenerator.caption_scene W self paths st (idx, scene))
    with (VideoGenerator.caption_scene W' self paths st (idx, scene)); [apply IH |].
  unfold VideoGenerator.caption_scene. destruct st as [overlays t].
  rewrite (caption_duration_ext W W' paths idx scene H).
  unfold caption_clip, draw_caption, wrap_caption, wrap_words, wrap_word, draw_line.
  rewrite Ht. reflexivity.
Qed.

Lemma flat_map_ext_In {A B : Type} (f g : A -> list B) (l : list A) :
  (forall x : A, In x l -> f x = g x) -> flat_map f l = flat_map g l.
Proof.
  induction l as [| a l IH]; intros H; [reflexivity |].
  cbn [flat_map]. rewrite (H a (or_introl eq_refl)), IH; [reflexivity |].
  intros x Hx. apply H. right. exact Hx.
Qed.

Lemma build_clips_ext (W W' : World) (scenes : list Scene.t)
      (paths : list (option string)) :
  same_services W W' ->
  (forall o : option string, In o paths -> same_reads_at W W' o) ->
  (forall scene : Scene.t,
      In scene scenes -> same_reads_at W W' (Scene.image_path scene)) ->
  VideoGenerator.build_clips W scenes paths = VideoGenerator.build_clips W' scenes paths.
Proof.
  intros Hs Ho Hi. rewrite !build_clips_usable.
  apply flat_map_ext_In. intros [i scene] Hin.
  unfold usable_clip. cbn [fst snd].
  destruct (nth_error paths i) as [o |] eqn:Hn; [| reflexivity].
  rewrite (create_scene_clip_ext W W' scene o Hs); [reflexivity | |].
  - apply Ho. apply (nth_error_In _ _ Hn).
  - apply Hi. apply enumerate_In_nth_error in Hin. apply (nth_error_In _ _ Hin).
Qed.

Section Disk.
Variable M : Run.Media.

Lemma write_services (W : World) (p : string) (f : Run.File) :
  same_services (Run.write M W p f) W.
Proof. repeat split. Qed.

Lemma write_all_services (W : World) (files : list (string * Run.File)) :
  same_services (Run.write_all M W files) W.
Proof.
  revert W. induction files as [| [p f] files IH]; intros W.
  - apply same_services_refl.
  - cbn [Run.write_all fold_left]. eapply same_services_trans; [apply IH |].
    apply write_services.
Qed.

Lemma write_all_app (W : World) (l1 l2 : list (string * Run.File)) :
  Run.write_all M W (l1 ++ l2) = Run.write_all M (Run.write_all M W l1) l2.
Proof. unfold Run.write_all. apply fold_left_app. Qed.

(** Writing a file changes nothing at the paths that name another file. *)
Lemma write_other (W : World) (p q : string) (f : Run.File) :
  Run.same_file M q p = false -> same_reads (Run.write M W p f) W q.
Proof.
  intros H. unfold same_reads. cbn [Run.write path_exists audio_duration image_open].
  rewrite H. repeat split.
Qed.

Lemma write_all_other (W : World) (files : list (string * Run.File)) (q : string) :
  (forall pf : string * Run.File, In pf files -> Run.same_file M q (fst pf) = false) ->
  same_reads (Run.write_all M W files) W q.
Proof.
  revert W. induction files as [| [p f] files IH]; intros W H.
  - apply same_reads_refl.
  - cbn [Run.write_all fold_left].
    eapply same_reads_trans.
    + apply IH. intros pf Hin. apply H. right. exact Hin.
    + apply write_other. apply (H (p, f)). left. reflexivity.
Qed.

(** What was written reads back the same, whatever was there before. *)
Lemma write_hit (W W' : World) (p q : string) (f : Run.File) :
  Run.same_file M q p = true -> same_reads (Run.write M W p f) (Run.write M W' p f) q.
Proof.
  intros H. unfold same_reads. cbn [Run.write path_exists audio_duration image_open].
  rewrite H. repeat split.
Qed.

Lemma write_all_written (W W' : World) (files : list (string * Run.File)) (q : string) :
  (exists pf : string * Run.File, In pf files /\ Run.same_file M q (fst pf) = true) ->
  same_reads (Run.write_all M W files) (Run.write_all M W' files) q.
Proof.
  induction files as [| [p f] files IH] using rev_ind; intros (pf & Hin & Hq).
  - destruct Hin.
  - rewrite !write_all_app. cbn [Run.write_all fold_left fst snd].
    destruct (Run.same_file M q p) eqn:Hp.
    + apply write_hit. exact Hp.
    + eapply same_reads_trans; [apply write_other; exact Hp |].
      eapply same_reads_trans; [| apply same_reads_sym, write_other; exact Hp].
      apply IH. exists pf. split; [| exact Hq].
      apply in_app_iff in Hin. destruct Hin as [Hin | [<- | []]]; [exact Hin |].
      cbn [fst] in Hq. congruence.
Qed.

(** *** The audio pass *)

Lemma speeches_snoc (W : World) (scenes : list Scene.t) (scene : Scene.t) :
  speeches M W (scenes ++ [scene])
  = speeches M W scenes ++ speeches_at M W (List.length scenes) scene.
Proof.
  unfold speeches. rewrite enumerate_snoc, flat_map_app. cbn [flat_map].
  rewrite app_nil_r. reflexivity.
Qed.

Lemma speeches_written (W : World) (scenes : list Scene.t) (pf : string * Run.File) :
  In pf (speeches M W scenes) -> In (fst pf) (speech_files (List.length scenes)).
Proof.
  unfold speeches. rewrite in_flat_map. intros ([i scene] & Hin & Hpf).
  unfold speeches_at in Hpf. cbn [fst snd] in Hpf.
  destruct (_ && _ && _); [| destruct Hpf].
  destruct Hpf as [<- | []]. cbn [fst].
  unfold speech_files. apply in_map, in_seq.
  pose proof (enumerate_fst_lt scenes (i, scene) Hin) as Hlt. cbn [fst] in Hlt. lia.
Qed.

Lemma speech_files_mono (n m : nat) (q : string) :
  (n <= m)%nat -> In q (speech_files n) -> In q (speech_files m).
Proof.
  unfold speech_files. rewrite !in_map_iff. intros Hle (i & <- & Hi).
  exists i. split; [reflexivity |]. apply in_seq. apply in_seq in Hi. lia.
Qed.

Lemma voiceover_paths_snoc (W : World) (scenes : list Scene.t) (scene : Scene.t) :
  VideoGenerator.voiceover_paths W (scenes ++ [scene])
  = VideoGenerator.voiceover_paths W scenes
    ++ [VideoGenerator.voiceover_path W (List.length scenes) scene].
Proof.
  unfold VideoGenerator.voiceover_paths. rewrite enumerate_snoc, map_app. reflexivity.
Qed.

(** The audio pass, as long as no scene names one of the speech files as
    its own audio: each entry is the one the file system at the start of
    the run gives, and the run leaves that file system with the speeches
    written. *)
Lemma record_voiceovers_spec (W : World) (scenes : list Scene.t) (n : nat) :
  (List.length scenes <= n)%nat ->
  (forall (scene : Scene.t) (p q : string),
      In scene scenes -> Scene.audio_path scene = Some p ->
      In q (speech_files n) -> Run.same_file M p q = false) ->
  Run.record_voiceovers M W scenes
  = (VideoGenerator.voiceover_paths W scenes, Run.write_all M W (speeches M W scenes)).
Proof.
  induction scenes as [| scene scenes IH] using rev_ind; intros Hn Hapart.
  - reflexivity.
  - rewrite length_app in Hn. cbn [List.length] in Hn.
    unfold Run.record_voiceovers in *.
    rewrite enumerate_snoc, fold_left_app, IH; [| lia |].
    2:{ intros s p q Hs. apply Hapart. apply in_app_iff. left. exact Hs. }
    cbn [fold_left]. rewrite voiceover_paths_snoc, speeches_snoc, write_all_app.
    set (Wn := Run.write_all M W (speeches M W scenes)).
    assert (Hsv : same_services Wn W) by apply write_all_services.
    assert (Hrd : same_reads_at Wn W (Scene.audio_path scene)).
    { intros p Hp. apply write_all_other. intros pf Hpf.
      apply (Hapart scene p (fst pf)); [apply in_app_iff; right; left; reflexivity
                                       | exact Hp |].
      apply (speech_files_mono (List.length scenes)); [lia |].
      apply (speeches_written _ _ _ Hpf). }
    unfold Run.record_scene, VideoGenerator.voiceover_path, speeches_at.
    rewrite (present_ext Wn W _ Hrd).
    destruct Hsv as (_ & _ & -> & _).
    destruct (present W (Scene.audio_path scene)); cbn [negb andb];
      [reflexivity |].
    destruct (Py.truthy_opt (Scene.dialogue scene)); cbn [andb]; [| reflexivity].
    change (path_join Config.DUMMY_SPEECH_DIR
              ("scene_" ++ Py.str_of_nat (List.length scenes + 1) ++ ".mp3"))
      with (Run.speech_path (List.length scenes)).
    destruct (generate_voiceover W _ _ _ _); reflexivity.
Qed.

Lemma speeches_ext (W W' : World) (scenes : list Scene.t) :
  same_services W W' ->
  (forall scene : Scene.t,
      In scene scenes -> same_reads_at W W' (Scene.audio_path scene)) ->
  speeches M W scenes = speeches M W' scenes.
Proof.
  intros (_ & _ & Hv & _) Ha. unfold speeches.
  apply flat_map_ext_In. intros [i scene] Hin. cbn [fst snd].
  unfold speeches_at. rewrite Hv, (present_ext W W' (Scene.audio_path scene)).
  - reflexivity.
  - apply Ha. apply enumerate_In_nth_error in Hin. apply (nth_error_In _ _ Hin).
Qed.

(** An audio entry is the scene's own audio, or the speech just written
    for it, or nothing. *)
Lemma voiceover_entry_cases (W : World) (scenes : list Scene.t) (o : option string) :
  In o (VideoGenerator.voiceover_paths W scenes) ->
  o = None
  \/ (exists scene : Scene.t, In scene scenes /\ o = Scene.audio_path scene)
  \/ (exists pf : string * Run.File, In pf (speeches M W scenes) /\ o = Some (fst pf)).
Proof.
  unfold VideoGenerator.voiceover_paths. rewrite in_map_iff.
  intros ([i scene] & <- & Hin). cbn [fst snd].
  assert (Hs : In scene scenes).
  { apply enumerate_In_nth_error in Hin. apply (nth_error_In _ _ Hin). }
  unfold VideoGenerator.voiceover_path.
  destruct (present W (Scene.audio_path scene)) eqn:Hp.
  - right. left. exists scene. split; [exact Hs | reflexivity].
  - destruct (Py.truthy_opt (Scene.dialogue scene)) eqn:Hd; [| left; reflexivity].
    destruct (generate_voiceover W _ _ _ _) eqn:Hv; [| left; reflexivity].
    right. right. eexists (_, _). split; [| reflexivity].
    unfold speeches. apply in_flat_map. exists (i, scene). split; [exact Hin |].
    unfold speeches_at. cbn [fst snd]. rewrite Hp, Hd. cbn [negb andb].
    change (Run.speech_path i)
      with (path_join Config.DUMMY_SPEECH_DIR
              ("scene_" ++ Py.str_of_nat (i + 1) ++ ".mp3")).
    rewrite Hv. left. reflexivity.
Qed.

(** *** The clip loop *)

Section Images.
Variable n : nat.

(** The path names none of the files in which a run on [n] scenes keeps
    its images. *)
Let off_images (q : string) : Prop :=
  forall r : string, In r (image_files n) -> Run.same_file M q r = false.

Lemma kept_variants_files (i : nat) (k : Z) (pf : string * Run.File) :
  (i < n)%nat -> (k <= 4)%Z ->
  In pf (Run.kept_variants M i k) -> In (fst pf) (image_files n).
Proof.
  intros Hi Hk. unfold Run.kept_variants, image_files.
  destruct (Run.makedirs M _); [| intros []].
  cbn [app]. intros [<- | [<- | Hin]]; [left; reflexivity | right; left; reflexivity |].
  apply in_map_iff in Hin.
  destruct Hin as (j & <- & Hj). apply filter_In in Hj. destruct Hj as [Hj _].
  apply in_seq in Hj. cbn [fst].
  apply in_cons, in_cons, in_or_app. right.
  apply in_flat_map. exists i. split; [apply in_seq; lia |].
  apply in_map, in_seq. lia.
Qed.

Lemma kept_single_files (W : World) (i : nat) (description : string)
      (pf : string * Run.File) :
  (i < n)%nat ->
  In pf (Run.kept_single M W i description) -> In (fst pf) (image_files n).
Proof.
  intros Hi. unfold Run.kept_single, image_files.
  destruct (images_generate W _); [| intros []].
  destruct (_ && _); [| intros []].
  intros [<- | []]. cbn [fst app].
  apply in_cons, in_cons, in_or_app. left. apply in_map, in_seq. lia.
Qed.

Lemma keep_images_services (W : World) (i : nat) (scene : Scene.t) (d : Q) :
  same_services (Run.keep_images M W i scene d) W.
Proof.
  unfold Run.keep_images.
  destruct (present W (Scene.image_path scene)); [apply same_services_refl |].
  destruct (Qle_bool 4 d); [| apply write_all_services].
  destruct (VideoGenerator._generate_visual_sequence W _ d);
    [apply write_all_services |].
  eapply same_services_trans; apply write_all_services.
Qed.

Lemma keep_images_frame (W : World) (i : nat) (scene : Scene.t) (d : Q) (q : string) :
  (i < n)%nat -> off_images q ->
  same_reads (Run.keep_images M W i scene d) W q.
Proof.
  intros Hi Hq. unfold Run.keep_images.
  assert (Hv : forall W0 : World,
             same_reads
               (Run.write_all M W0 (Run.kept_variants M i (VideoGenerator.num_images d)))
               W0 q).
  { intros W0. apply write_all_other. intros pf Hpf. apply Hq.
    apply (kept_variants_files i (VideoGenerator.num_images d)); [exact Hi | | exact Hpf].
    apply num_images_bounds. }
  assert (Hs : forall (W0 W1 : World) (description : string),
             same_reads (Run.write_all M W0 (Run.kept_single M W1 i description)) W0 q).
  { intros W0 W1 description. apply write_all_other. intros pf Hpf. apply Hq.
    apply (kept_single_files W1 i description); assumption. }
  destruct (present W (Scene.image_path scene)); [apply same_reads_refl |].
  destruct (Qle_bool 4 d); [| apply Hs].
  destruct (VideoGenerator._generate_visual_sequence W _ d); [apply Hv |].
  eapply same_reads_trans; [apply Hs | apply Hv].
Qed.

(** Building the clip of a scene on a file system that is being written
    to gives the clip [_create_scene_clip] builds on the file system it
    starts from, as long as the audio is none of the kept images. *)
Lemma run_create_scene_clip (W : World) (i : nat) (scene : Scene.t)
      (o : option string) :
  (i < n)%nat ->
  (forall p : string, o = Some p -> off_images p) ->
  fst (Run._create_scene_clip M W i scene o) = VideoGenerator._create_scene_clip W scene o
  /\ same_services (snd (Run._create_scene_clip M W i scene o)) W
  /\ forall q : string,
      off_images q -> same_reads (snd (Run._create_scene_clip M W i scene o)) W q.
Proof.
  intros Hi Ho. unfold Run._create_scene_clip, VideoGenerator._create_scene_clip.
  set (d := VideoGenerator.resolve_duration W scene o).
  destruct (VideoGenerator.base_clip W scene d) as [v |]; cbn [bind fst snd].
  - assert (Hrd : same_reads_at (Run.keep_images M W i scene d) W o).
    { intros p Hp. apply keep_images_frame; [exact Hi | apply Ho, Hp]. }
    rewrite (present_ext _ _ _ Hrd), (audio_clip_ext _ _ _ Hrd).
    split; [reflexivity |]. split; [apply keep_images_services |].
    intros q Hq. apply keep_images_frame; assumption.
  - split; [reflexivity |]. split; [apply same_services_refl |].
    intros q _. apply same_reads_refl.
Qed.

Lemma run_build_clips (W : World) (scenes : list Scene.t)
      (paths : list (option string)) :
  (List.length scenes <= n)%nat ->
  (forall (o : option string) (p : string), In o paths -> o = Some p -> off_images p) ->
  (forall (scene : Scene.t) (p : string),
      In scene scenes -> Scene.image_path scene = Some p -> off_images p) ->
  fst (Run.build_clips M W scenes paths) = VideoGenerator.build_clips W scenes paths
  /\ same_services (snd (Run.build_clips M W scenes paths)) W
  /\ forall q : string,
      off_images q -> same_reads (snd (Run.build_clips M W scenes paths)) W q.
Proof.
  induction scenes as [| scene scenes IH] using rev_ind; intros Hn Ho Hi.
  - split; [reflexivity |]. split; [apply same_services_refl |].
    intros q _. apply same_reads_refl.
  - rewrite length_app in Hn. cbn [List.length] in Hn.
    destruct IH as (IHc & IHs & IHr); [lia | exact Ho | |].
    { intros s p Hs. apply Hi. apply in_app_iff. left. exact Hs. }
    unfold Run.build_clips, VideoGenerator.build_clips in *.
    rewrite !enumerate_snoc, !fold_left_app. cbn [fold_left].
    destruct (fold_left (Run.build_clip M paths) (Py.enumerate scenes) ([], W))
      as [clips Wk].
    cbn [fst snd] in IHc, IHs, IHr. rewrite <- IHc.
    unfold Run.build_clip, VideoGenerator.build_clip.
    destruct (nth_error paths (List.length scenes)) as [o |] eqn:Hnth.
    + destruct (run_create_scene_clip Wk (List.length scenes) scene o)
        as (Hc & Hs & Hr); [lia | |].
      { intros p Hp. apply (Ho o p); [apply (nth_error_In _ _ Hnth) | exact Hp]. }
      destruct (Run._create_scene_clip M Wk (List.length scenes) scene o)
        as [clip Wk'].
      cbn [fst snd] in Hc, Hs, Hr |- *.
      rewrite Hc.
      rewrite (create_scene_clip_ext Wk W scene o IHs).
      * split; [reflexivity |].
        split; [eapply same_services_trans; eassumption |].
        intros q Hq. eapply same_reads_trans; [apply Hr | apply IHr]; exact Hq.
      * intros p Hp. apply IHr.
        apply (Ho o p); [apply (nth_error_In _ _ Hnth) | exact Hp].
      * intros p Hp. apply IHr.
        apply (Hi scene p); [apply in_app_iff; right; left; reflexivity | exact Hp].
    + cbn [fst snd]. split; [reflexivity |]. split; assumption.
Qed.

End Images.

(** *** A whole run *)

Lemma generate_ext (W W' : World) (self : VideoGenerator.t)
      (script : VideoGenerator.Script) (target_duration : Z) (urandom urandom' : string) :
  let scenes :=
    match VideoGenerator.script_scenes script with
    | Some l => l
    | None => []
    end in
  same_services W W' ->
  (forall scene : Scene.t,
      In scene scenes ->
      same_reads_at W W' (Scene.audio_path scene)
      /\ same_reads_at W W' (Scene.image_path scene)) ->
  (forall o : option string,
      In o (VideoGenerator.voiceover_paths W scenes) -> same_reads_at W W' o) ->
  timeline (VideoGenerator.generate W self script target_duration urandom)
  = timeline (VideoGenerator.generate W' self script target_duration urandom').
Proof.
  intros scenes Hs Hscene Hentry. unfold VideoGenerator.generate. fold scenes.
  destruct scenes as [| s0 rest] eqn:Escenes; [reflexivity |]. rewrite <- Escenes in *.
  rewrite <- (voiceover_paths_ext W W' scenes Hs (fun s Hin => proj1 (Hscene s Hin))).
  rewrite <- (build_clips_ext W W' scenes _ Hs Hentry
                (fun s Hin => proj2 (Hscene s Hin))).
  destruct (VideoGenerator.build_clips W scenes _) as [| c0 clips]; [reflexivity |].
  rewrite <- (primary_track_ext W W' _ Hs).
  destruct (VideoGenerator.primary_track W (c0 :: clips)) as [[p |] |];
    cbn [bind]; try reflexivity.
  unfold VideoGenerator._add_captions_timed.
  rewrite <- (caption_loop_ext W W' self scenes _ Hs Hentry).
  destruct Hs as (_ & _ & _ & _ & _ & _ & _ & <-).
  destruct (write_ok W _); reflexivity.
Qed.

Lemma list_nonempty_dec {A : Type} (l : list A) : {l = []} + {l <> []}.
Proof. destruct l; [left; reflexivity | right; discriminate]. Qed.

Lemma match_nonempty {A B : Type} (l : list A) (x y : B) :
  l <> [] -> match l with [] => x | _ :: _ => y end = y.
Proof. destruct l; [contradiction | reflexivity]. Qed.

Section OneRun.
Variable W : World.
Variable self : VideoGenerator.t.
Variable script : VideoGenerator.Script.
Variable target_duration : Z.
Variable urandom : string.

Let scenes : list Scene.t :=
  match VideoGenerator.script_scenes script with
  | Some l => l
  | None => []
  end.

Let n : nat := List.length scenes.

Hypothesis script_off_speech :
  forall (scene : Scene.t) (p q : string),
    In scene scenes -> Scene.audio_path scene = Some p ->
    In q (speech_files n) -> Run.same_file M p q = false.

Hypothesis script_off_images :
  forall (scene : Scene.t) (p r : string),
    In scene scenes ->
    Scene.audio_path scene = Some p \/ Scene.image_path scene = Some p ->
    In r (image_files n) -> Run.same_file M p r = false.

Hypothesis speech_off_images :
  forall q r : string,
    In q (speech_files n) -> In r (image_files n) -> Run.same_file M q r = false.

Let Wa : World := Run.write_all M W (speeches M W scenes).

Lemma entries_off_images (o : option string) (p r : string) :
  In o (VideoGenerator.voiceover_paths W scenes) -> o = Some p ->
  In r (image_files n) -> Run.same_file M p r = false.
Proof.
  intros Hin Hp Hr.
  destruct (voiceover_entry_cases W scenes o Hin) as [-> | [(s & Hs & ->) | (pf & Hpf & ->)]].
  - discriminate.
  - apply (script_off_images s p r Hs); [left; exact Hp | exact Hr].
  - injection Hp as <-. apply speech_off_images; [| exact Hr].
    apply (speeches_written _ _ _ Hpf).
Qed.

(** A run, as long as the script names none of the files the run writes
    and these are kept apart: it returns what [generate] returns on the
    file system with the speeches in place, and it changes nothing at the
    paths that name none of its files. *)
Lemma run_generate :
  fst (Run.generate M W self script target_duration urandom)
  = VideoGenerator.generate Wa self script target_duration urandom
  /\ same_services (snd (Run.generate M W self script target_duration urandom)) W
  /\ forall q : string,
      (forall r : string,
          In r (speech_files n ++ image_files n ++ [output_file urandom]) ->
          Run.same_file M q r = false) ->
      same_reads (snd (Run.generate M W self script target_duration urandom)) W q.
Proof.
  unfold Run.generate, VideoGenerator.generate. fold scenes.
  destruct (list_nonempty_dec scenes) as [Hnil | Hcons].
  { rewrite Hnil. cbn [fst snd]. split; [reflexivity |].
    split; [apply same_services_refl |]. intros q _. apply same_reads_refl. }
  rewrite !(match_nonempty scenes) by exact Hcons.
  rewrite (record_voiceovers_spec W scenes n (Nat.le_refl _) script_off_speech).
  fold Wa.
  assert (HsA : same_services Wa W) by apply write_all_services.
  assert (HrA : forall q : string,
             (forall r : string, In r (speech_files n) -> Run.same_file M q r = false) ->
             same_reads Wa W q).
  { intros q Hq. apply write_all_other. intros pf Hpf. apply Hq.
    apply (speeches_written _ _ _ Hpf). }
  assert (Hpaths : VideoGenerator.voiceover_paths Wa scenes
                   = VideoGenerator.voiceover_paths W scenes).
  { apply voiceover_paths_ext; [exact HsA |].
    intros s Hs p Hp. apply HrA. intros r Hr.
    apply (script_off_speech s p r Hs Hp Hr). }
  rewrite Hpaths.
  set (paths := VideoGenerator.voiceover_paths W scenes).
  destruct (run_build_clips n Wa scenes paths) as (Hc & HsC & HrC).
  { apply Nat.le_refl. }
  { intros o p Hin Hp r Hr. apply (entries_off_images o p r Hin Hp Hr). }
  { intros s p Hs Hp r Hr. apply (script_off_images s p r Hs); [right; exact Hp | exact Hr]. }
  destruct (Run.build_clips M Wa scenes paths) as [clips Wc].
  cbn [fst snd] in Hc, HsC, HrC. rewrite <- Hc.
  assert (Hframe : forall q : string,
             (forall r : string,
                 In r (speech_files n ++ image_files n ++ [output_file urandom]) ->
                 Run.same_file M q r = false) ->
             same_reads Wc W q).
  { intros q Hq. eapply same_reads_trans.
    - apply HrC. intros r Hr. apply Hq. apply in_or_app. right.
      apply in_or_app. left. exact Hr.
    - apply HrA. intros r Hr. apply Hq. apply in_or_app. left. exact Hr. }
  destruct clips as [| c0 clips'].
  { cbn [fst snd]. split; [reflexivity |].
    split; [eapply same_services_trans; eassumption | exact Hframe]. }
  rewrite (primary_track_ext Wc Wa _ HsC).
  destruct (VideoGenerator.primary_track Wa (c0 :: clips')) as [[p |] |];
    cbn [bind fst snd];
    try (split; [reflexivity |];
         split; [eapply same_services_trans; eassumption | exact Hframe]).
  assert (Hcap : VideoGenerator._add_captions_timed Wc self p scenes paths
                 = VideoGenerator._add_captions_timed Wa self p scenes paths).
  { unfold VideoGenerator._add_captions_timed.
    rewrite (caption_loop_ext Wc Wa self scenes paths HsC); [reflexivity |].
    intros o Hin q Hq. apply HrC. intros r Hr.
    apply (entries_off_images o q r Hin Hq Hr). }
  rewrite Hcap.
  destruct HsC as (HC1 & HC2 & HC3 & HC4 & HC5 & HC6 & HC7 & HC8).
  rewrite HC8.
  destruct (write_ok Wa _); cbn [fst snd].
  - split; [reflexivity |]. split.
    + eapply same_services_trans; [apply write_services |].
      eapply same_services_trans; [| exact HsA]. repeat split; assumption.
    + intros q Hq. eapply same_reads_trans; [| apply Hframe, Hq].
      apply write_other. apply Hq.
      apply in_or_app. right. apply in_or_app. right. left. reflexivity.
  - split; [reflexivity |]. split; [| exact Hframe].
    eapply same_services_trans; [| exact HsA]. repeat split; assumption.
Qed.

End OneRun.

End Disk.

Lemma script_files_audio (scenes : list Scene.t) (scene : Scene.t) (p : string) :
  In scene scenes -> Scene.audio_path scene = Some p -> In p (script_files scenes).
Proof.
  intros Hs Hp. unfold script_files. apply in_flat_map. exists scene.
  split; [exact Hs |]. rewrite Hp. left. reflexivity.
Qed.

Lemma script_files_image (scenes : list Scene.t) (scene : Scene.t) (p : string) :
  In scene scenes -> Scene.image_path scene = Some p -> In p (script_files scenes).
Proof.
  intros Hs Hp. unfold script_files. apply in_flat_map. exists scene.
  split; [exact Hs |]. apply in_or_app. right. rewrite Hp. left. reflexivity.
Qed.

Lemma same_file_refl (M : Run.Media) (p : string) : Run.same_file M p p = true.
Proof. apply String.eqb_refl. Qed.

(** C9, as stated, fails: a run leaves files behind, and the next run finds
    them.  The first scene is silent, lasts 5 and names as its audio the
    file in which the speech of the second scene is kept.  On a disk where
    that file is not there yet, the first run gives the first scene its 5
    time units and writes the speech (3): the video lasts 8.  The second
    run finds the file, gives the first scene the 3 time units of that
    speech, and the video lasts 6. *)
Lemma rerun_changes_duration :
  let runs :=
    Run.rerun Stub.media Stub.talking VideoGenerator.init Stub.aliased_script 10
              "ab12" "cd34" in
  rendered_duration (fst runs) = Some 8
  /\ rendered_duration (snd runs) = Some 6
  /\ ~ (forall (M : Run.Media) (W : World) (self : VideoGenerator.t)
               (script : VideoGenerator.Script) (target_duration : Z)
               (urandom1 urandom2 : string),
           rendered_duration
             (fst (Run.rerun M W self script target_duration urandom1 urandom2))
           = rendered_duration
               (snd (Run.rerun M W self script target_duration urandom1 urandom2))).
Proof.
  intros runs.
  split; [vm_compute; reflexivity |].
  split; [vm_compute; reflexivity |].
  intros H.
  specialize (H Stub.media Stub.talking VideoGenerator.init Stub.aliased_script
                10%Z "ab12" "cd34").
  vm_compute in H. discriminate.
Qed.

(** C9, amended.  Two runs of [generate] on the same script with the same
    collaborators, the second on the disk the first leaves, render the same
    timeline, hence the same total duration, provided that no audio or
    image path of the script names a file the first run writes (its speech
    files, the images and directories it keeps, its video), and that the
    speech files are none of the kept images.  Both runs then render what
    [generate] renders on the disk with the speeches of the script in
    place. *)
Theorem rerun_same_timeline
        (M : Run.Media) (W : World) (self : VideoGenerator.t)
        (script : VideoGenerator.Script) (target_duration : Z)
        (urandom1 urandom2 : string) :
  let scenes :=
    match VideoGenerator.script_scenes script with
    | Some l => l
    | None => []
    end in
  let n := List.length scenes in
  let runs := Run.rerun M W self script target_duration urandom1 urandom2 in
  apart M (script_files scenes)
        (speech_files n ++ image_files n ++ [output_file urandom1]) ->
  apart M (speech_files n) (image_files n) ->
  timeline (fst runs) = timeline (snd runs)
  /\ rendered_duration (fst runs) = rendered_duration (snd runs)
  /\ fst runs
     = VideoGenerator.generate (Run.write_all M W (speeches M W scenes))
                               self script target_duration urandom1.
Proof.
  intros scenes n runs Hscript Hspeech.
  assert (HA : forall (scene : Scene.t) (p q : string),
             In scene scenes -> Scene.audio_path scene = Some p ->
             In q (speech_files n) -> Run.same_file M p q = false).
  { intros s p q Hs Hp Hq. apply Hscript.
    - apply (script_files_audio scenes s p Hs Hp).
    - apply in_or_app. left. exact Hq. }
  assert (HB : forall (scene : Scene.t) (p r : string),
             In scene scenes ->
             Scene.audio_path scene = Some p \/ Scene.image_path scene = Some p ->
             In r (image_files n) -> Run.same_file M p r = false).
  { intros s p r Hs Hp Hr. apply Hscript.
    - destruct Hp as [Hp | Hp];
        [apply (script_files_audio scenes s p Hs Hp)
        | apply (script_files_image scenes s p Hs Hp)].
    - apply in_or_app. right. apply in_or_app. left. exact Hr. }
  destruct (run_generate M W self script target_duration urandom1 HA HB Hspeech)
    as (H1 & Hs1 & Hr1).
  unfold runs, Run.rerun.
  destruct (Run.generate M W self script target_duration urandom1) as [first W1].
  cbn [fst snd] in H1, Hs1, Hr1 |- *.
  destruct (run_generate M W1 self script target_duration urandom2 HA HB Hspeech)
    as (H2 & _ & _).
  rewrite H1, H2. fold scenes.
  assert (Hscene : forall (scene : Scene.t) (p : string),
             In scene scenes ->
             Scene.audio_path scene = Some p \/ Scene.image_path scene = Some p ->
             same_reads W1 W p).
  { intros s p Hs Hp. apply Hr1. intros r Hr. apply Hscript; [| exact Hr].
    destruct Hp as [Hp | Hp];
      [apply (script_files_audio scenes s p Hs Hp)
      | apply (script_files_image scenes s p Hs Hp)]. }
  assert (HL : speeches M W1 scenes = speeches M W scenes).
  { apply speeches_ext; [exact Hs1 |].
    intros s Hs p Hp. apply (Hscene s p Hs). left. exact Hp. }
  rewrite HL.
  set (L := speeches M W scenes).
  assert (Hoff : forall (scene : Scene.t) (p : string) (W0 : World),
             In scene scenes ->
             Scene.audio_path scene = Some p \/ Scene.image_path scene = Some p ->
             same_reads (Run.write_all M W0 L) W0 p).
  { intros s p W0 Hs Hp. apply write_all_other. intros pf Hpf.
    apply Hscript.
    - destruct Hp as [Hp | Hp];
        [apply (script_files_audio scenes s p Hs Hp)
        | apply (script_files_image scenes s p Hs Hp)].
    - apply in_or_app. left. apply (speeches_written _ _ _ _ Hpf). }
  assert (Hnamed : forall (scene : Scene.t) (p : string),
             In scene scenes ->
             Scene.audio_path scene = Some p \/ Scene.image_path scene = Some p ->
             same_reads (Run.write_all M W L) (Run.write_all M W1 L) p).
  { intros s p Hs Hp.
    eapply same_reads_trans; [apply (Hoff s p W Hs Hp) |].
    eapply same_reads_trans; [apply same_reads_sym, (Hscene s p Hs Hp) |].
    apply same_reads_sym, (Hoff s p W1 Hs Hp). }
  assert (Htimeline :
    timeline (VideoGenerator.generate (Run.write_all M W L) self script
                                      target_duration urandom1)
    = timeline (VideoGenerator.generate (Run.write_all M W1 L) self script
                                        target_duration urandom2)).
  { apply generate_ext; fold scenes.
    - eapply same_services_trans; [apply write_all_services |].
      eapply same_services_trans; [apply same_services_sym, Hs1 |].
      apply same_services_sym, write_all_services.
    - intros s Hs. split; intros p Hp; apply (Hnamed s p Hs); [left | right]; exact Hp.
    - intros o Hin.
      assert (Hin' : In o (VideoGenerator.voiceover_paths W scenes)).
      { rewrite <- (voiceover_paths_ext (Run.write_all M W L) W scenes); [exact Hin | |].
        - apply write_all_services.
        - intros s Hs p Hp. apply (Hoff s p W Hs). left. exact Hp. }
      destruct (voiceover_entry_cases M W scenes o Hin')
        as [-> | [(s & Hs & ->) | (pf & Hpf & ->)]].
      + intros p Hp. discriminate.
      + intros p Hp. apply (Hnamed s p Hs). left. exact Hp.
      + intros p Hp. injection Hp as <-. apply write_all_written.
        exists pf. split; [exact Hpf | apply same_file_refl]. }
  split; [exact Htimeline |]. split; [| reflexivity].
  unfold timeline in Htimeline. unfold rendered_duration.
  destruct (VideoGenerator.generate (Run.write_all M W L) _ _ _ _) as [[r1 |] |];
    destruct (VideoGenerator.generate (Run.write_all M W1 L) _ _ _ _) as [[r2 |] |];
    try discriminate; try reflexivity.
  injection Htimeline as ->. reflexivity.
Qed.

(** Two scenes that say something and name no file, on a disk where nothing
    is yet: both runs synthesize the two speeches (3 each) and render a
    video of 6. *)
Lemma rerun_same_timeline_witness :
  let runs :=
    Run.rerun Stub.media Stub.talking VideoGenerator.init Stub.plain_script 10
              "ab12" "cd34" in
  rendered_duration (fst runs) = rendered_duration (snd runs)
  /\ rendered_duration (fst runs) = Some 6.
Proof.
  intros runs.
  assert (Hspeech : apart Stub.media (speech_files 2) (image_files 2)).
  { intros p q Hp Hq. vm_compute in Hp, Hq.
    repeat (destruct Hp as [<- | Hp];
            [repeat (destruct Hq as [<- | Hq]; [vm_compute; reflexivity |]);
             destruct Hq |]).
    destruct Hp. }
  destruct (rerun_same_timeline
              Stub.media Stub.talking VideoGenerator.init Stub.plain_script 10
              "ab12" "cd34" ltac:(intros p q []) Hspeech) as (_ & Hd & _).
  split; [exact Hd | vm_compute; reflexivity].
Defined.
